(** * moltworker: gateway supervisor, durable sync and admin routes

    A shallow embedding of the TypeScript sources

      - [src/gateway/sync.ts]        ([syncToR2], [waitForProcess])
      - the API routes module         ([/status], [/admin/devices], ...)
      - the access middleware module  ([isDevMode], [createAccessMiddleware])

    into Rocq, followed by the properties the specification states about
    them.  The sandbox SDK, the modules the sources import but which are
    not part of the verified code ([./r2], [./process], [./jwt],
    [../config]) and [JSON.parse] are interfaces: every theorem holds for
    all of their implementations.  [Module Mock] gives one implementation,
    after the mock sandbox of [src/test-utils.ts], on which the theorems
    are exercised. *)

From Stdlib Require Import String Ascii List ZArith Bool Lia.
From Stdlib Require Import DecimalString.
Import ListNotations.
Local Open Scope string_scope.
Set Warnings "-register-all".

Set Implicit Arguments.

(* ===================================================================== *)
(** * JavaScript strings *)
(* ===================================================================== *)

(** A string is a sequence of 8-bit code units: the Latin-1 range of the
    UTF-16 code units of a JavaScript string. *)
Module JsString.

(** The double quote, for string literals that contain one. *)
Definition dq : string := String "034"%char EmptyString.

(** [s.startsWith(p)] *)
Definition startsWith (s p : string) : bool := String.prefix p s.

(** [s.includes(sub)] *)
Fixpoint includes (s sub : string) : bool :=
  if String.prefix sub s then true
  else match s with
       | EmptyString => false
       | String _ s' => includes s' sub
       end.

Definition between (lo hi : nat) (c : ascii) : bool :=
  let n := nat_of_ascii c in (lo <=? n)%nat && (n <=? hi)%nat.

(** [String.prototype.toLowerCase] on one code unit below 256: A-Z, and
    the Latin-1 capitals U+00C0-U+00DE except the sign U+00D7. *)
Definition lowerChar (c : ascii) : ascii :=
  if between 65 90 c then ascii_of_nat (nat_of_ascii c + 32)
  else if between 192 222 c && negb (nat_of_ascii c =? 215)%nat
       then ascii_of_nat (nat_of_ascii c + 32)
       else c.

(** [s.toLowerCase()] *)
Fixpoint toLowerCase (s : string) : string :=
  match s with
  | EmptyString => EmptyString
  | String c s' => String (lowerChar c) (toLowerCase s')
  end.

(** White space and line terminators of ECMAScript below 256:
    TAB, LF, VT, FF, CR, SP and NBSP. *)
Definition isWhiteSpace (c : ascii) : bool :=
  between 9 13 c || (nat_of_ascii c =? 32)%nat || (nat_of_ascii c =? 160)%nat.

Fixpoint trimStart (s : string) : string :=
  match s with
  | EmptyString => EmptyString
  | String c s' => if isWhiteSpace c then trimStart s' else s
  end.

Fixpoint trimEnd (s : string) : string :=
  match s with
  | EmptyString => EmptyString
  | String c s' =>
      match trimEnd s' with
      | EmptyString => if isWhiteSpace c then EmptyString
                       else String c EmptyString
      | r => String c r
      end
  end.

(** [s.trim()] *)
Definition trim (s : string) : string := trimEnd (trimStart s).

(** The class [\d]. *)
Definition isDigit (c : ascii) : bool := between 48 57 c.

(** [x] is [n] digits. *)
Definition allDigits (n : nat) (x : string) : Prop :=
  String.length x = n /\ forall c, In c (list_ascii_of_string x) -> isDigit c = true.

(** [n] digits at the head of [s]; the rest of [s] when they are there. *)
Fixpoint digits (n : nat) (s : string) : option string :=
  match n with
  | O => Some s
  | S k => match s with
           | String c s' => if isDigit c then digits k s' else None
           | EmptyString => None
           end
  end.

Definition hyphen (s : string) : option string :=
  match s with
  | String c s' => if Ascii.eqb c "-"%char then Some s' else None
  | EmptyString => None
  end.

(** [s.match(/^\d{4}-\d{2}-\d{2}/)] is not null. *)
Definition matchIsoDate (s : string) : bool :=
  match digits 4 s with
  | Some s1 =>
      match hyphen s1 with
      | Some s2 =>
          match digits 2 s2 with
          | Some s3 =>
              match hyphen s3 with
              | Some s4 => match digits 2 s4 with Some _ => true | None => false end
              | None => false
              end
          | None => false
          end
      | None => false
      end
  | None => false
  end.

(** The suffix of [s] that starts at its first [c]. *)
Fixpoint fromFirst (c : ascii) (s : string) : option string :=
  match s with
  | EmptyString => None
  | String a s' => if Ascii.eqb a c then Some s else fromFirst c s'
  end.

(** The prefix of [s] that ends at its last [c]. *)
Fixpoint uptoLast (c : ascii) (s : string) : option string :=
  match s with
  | EmptyString => None
  | String a s' =>
      match uptoLast c s' with
      | Some r => Some (String a r)
      | None => if Ascii.eqb a c then Some (String a EmptyString) else None
      end
  end.

(** [s.match(/\{[\s\S]*\}/)]: the greedy span from the first opening
    brace to the last closing brace after it; [None] for [null]. *)
Definition matchBraces (s : string) : option string :=
  match fromFirst "{"%char s with
  | Some (String a rest) =>
      match uptoLast "}"%char rest with
      | Some r => Some (String a r)
      | None => None
      end
  | _ => None
  end.

(** [s.replace(p, '')] for a string pattern: the first occurrence only. *)
Fixpoint removeFirst (s p : string) : string :=
  if String.prefix p s then substring (String.length p) (String.length s - String.length p) s
  else match s with
       | EmptyString => EmptyString
       | String c s' => String c (removeFirst s' p)
       end.

(** [s.split(c)] for a one-character separator. *)
Fixpoint split (c : ascii) (s : string) : list string :=
  match s with
  | EmptyString => [EmptyString]
  | String a s' =>
      match split c s' with
      | h :: t => if Ascii.eqb a c then EmptyString :: h :: t
                  else String a h :: t
      | [] => [String a EmptyString]
      end
  end.

(** The decimal numeral of an integer, as a template literal prints it. *)
Definition ofZ (z : Z) : string := NilZero.string_of_int (Z.to_int z).

Definition ofNat (n : nat) : string := ofZ (Z.of_nat n).

End JsString.

Import JsString.

(* ===================================================================== *)
(** * JavaScript values *)
(* ===================================================================== *)

(** The values the handlers build and receive: the objects passed to
    [c.json] and the results of [JSON.parse].  The numbers of the model
    are the safe integers ([Number.isSafeInteger]): [VNum z] is the
    Number that holds [z] exactly, for [z] between [-(2^53 - 1)] and
    [2^53 - 1].  Numbers with a fraction and larger numbers, which a
    Number rounds and, from 1e21 on, prints in exponent form, have no
    value here: [safeInteger] is the range. *)
Inductive value : Type :=
| VUndefined
| VNull
| VBool (b : bool)
| VNum (z : Z)
| VStr (s : string)
| VArr (items : list value)
| VObj (fields : list (string * value)).

(** [undefined] for an absent optional string, the string otherwise. *)
Definition ofOption (o : option string) : value :=
  match o with Some s => VStr s | None => VUndefined end.

(** ToBoolean. *)
Definition truthy (v : value) : bool :=
  match v with
  | VUndefined | VNull => false
  | VBool b => b
  | VNum z => negb (z =? 0)%Z
  | VStr s => negb (s =? "")
  | VArr _ | VObj _ => true
  end.

(** ToBoolean of an optional string: [undefined] and [''] are falsy. *)
Definition truthyStr (o : option string) : bool :=
  match o with Some s => negb (s =? "") | None => false end.

(** [a || b] on optional strings. *)
Definition orStr (a b : option string) : option string :=
  if truthyStr a then a else b.

(** [o || d] with a string default. *)
Definition orDefault (o : option string) (d : string) : string :=
  match o with Some s => if s =? "" then d else s | None => d end.

Fixpoint lookup (k : string) (fs : list (string * value)) : value :=
  match fs with
  | [] => VUndefined
  | (k', v) :: fs' => if k' =? k then v else lookup k fs'
  end.

(** What is thrown: an [Error] with its message, or another value. *)
Inductive exn : Type :=
| ErrorObj (message : string)
| Thrown (v : value).

(** [err instanceof Error ? err.message : 'Unknown error'] *)
Definition errorMessage (e : exn) : string :=
  match e with ErrorObj m => m | Thrown _ => "Unknown error" end.

(** [v.k]: a TypeError on [undefined] and [null] (message as V8 words
    it), own properties of objects, [length] of arrays and strings. *)
Definition getProp (v : value) (k : string) : exn + value :=
  match v with
  | VUndefined =>
      inl (ErrorObj ("Cannot read properties of undefined (reading '" ++ k ++ "')"))
  | VNull =>
      inl (ErrorObj ("Cannot read properties of null (reading '" ++ k ++ "')"))
  | VObj fs => inr (lookup k fs)
  | VArr l => inr (if k =? "length" then VNum (Z.of_nat (List.length l)) else VUndefined)
  | VStr s => inr (if k =? "length" then VNum (Z.of_nat (String.length s)) else VUndefined)
  | VBool _ | VNum _ => inr VUndefined
  end.

(** [Number.isSafeInteger(z)] *)
Definition safeInteger (z : Z) : bool := (Z.abs z <=? 9007199254740991)%Z.

(** ToString, as a template literal applies it to a primitive value, to
    an array and to an object without a [toString] of its own.  A
    number is printed with all its digits, as ECMAScript prints a safe
    integer. *)
Fixpoint toStr (v : value) : string :=
  match v with
  | VUndefined => "undefined"
  | VNull => "null"
  | VBool true => "true"
  | VBool false => "false"
  | VNum z => ofZ z
  | VStr s => s
  | VArr l =>
      (fix join (l : list value) : string :=
         match l with
         | [] => ""
         | [x] => match x with VUndefined | VNull => "" | _ => toStr x end
         | x :: l' =>
             (match x with VUndefined | VNull => "" | _ => toStr x end)
               ++ "," ++ join l'
         end) l
  | VObj _ => "[object Object]"
  end.

(** The items a [for ... of] loop visits: the elements of an array, the
    code units of a string; anything else is not iterable. *)
Definition iterate (v : value) : exn + list value :=
  match v with
  | VArr l => inr l
  | VStr s => inr (map (fun c => VStr (String c EmptyString)) (list_ascii_of_string s))
  | _ => inl (ErrorObj "pending is not iterable")
  end.

(* ===================================================================== *)
(** * Environment bindings, processes, events *)
(* ===================================================================== *)

(** The bindings of the Worker environment the sources read. *)
Record Env : Type := mkEnv {
  R2_ACCESS_KEY_ID : option string;
  R2_SECRET_ACCESS_KEY : option string;
  CF_ACCOUNT_ID : option string;
  DEV_MODE : option string;
  MOLTBOT_GATEWAY_TOKEN : option string;
  CF_ACCESS_TEAM_DOMAIN : option string;
  CF_ACCESS_AUD : option string
}.

(** A process handle of the sandbox SDK. *)
Record Process : Type := mkProcess { id : string }.

(** What [proc.getLogs()] resolves to. *)
Record Logs : Type := mkLogs { stdout : option string; stderr : option string }.

(** The calls a handler makes that leave the Worker. *)
Inductive event : Type :=
| EvStartProcess (cmd : string)
| EvGetLogs (pid : string)
| EvMountR2Storage
| EvFindProcess
| EvEnsureGateway
| EvKill (pid : string)
| EvWaitForPort (pid : string) (port : Z)
| EvVerifyJWT (jwt : string)
| EvConsoleLog (msg : string)
| EvConsoleError (msg : string).

(** The number of calls of [ensureClawdbotGateway] in a trace. *)
Fixpoint boots (tr : list event) : nat :=
  match tr with
  | [] => 0
  | EvEnsureGateway :: tr' => S (boots tr')
  | _ :: tr' => boots tr'
  end.

(** A promise that is pending and not awaited, as it is handed to
    [executionCtx.waitUntil].  [BootGateway env] is the promise of the
    call [ensureClawdbotGateway(sandbox, env)] with its [.catch]
    attached: the call has been made, by the handler; what it does in
    the sandbox comes when the promise settles, after the response. *)
Inductive task : Type :=
| BootGateway (env : Env).

(* ===================================================================== *)
(** * The sandbox and the imported modules, as interfaces *)
(* ===================================================================== *)

(** The sandbox SDK over a state of the sandbox [W].  A rejected promise
    is [inl]; [status] and [exitCode] are the properties of the handle as
    the sandbox holds them at that moment; [sleep] is the passing of time
    during [setTimeout]. *)
Class Sandbox (W : Type) : Type := {
  startProcess : string -> W -> (exn + Process) * W;
  status : Process -> W -> string;
  exitCode : Process -> W -> option Z;
  getLogs : Process -> W -> (exn + Logs) * W;
  kill : Process -> W -> (exn + unit) * W;
  waitForPort : Process -> Z -> Z -> W -> (exn + unit) * W;
  sleep : Z -> W -> W
}.

(** What [verifyAccessJWT] resolves to. *)
Record JWTPayload : Type := mkPayload { email : value; name : value }.

(** The modules the sources import and that are outside the verified
    code ([../config], [./r2], [./process], [./jwt]), and the built-in
    [JSON.parse] ([None] when it throws). *)
Class Imports (W : Type) : Type := {
  R2_MOUNT_PATH : string;
  mountR2Storage : Env -> W -> (exn + bool) * W;
  findExistingClawdbotProcess : W -> (exn + option Process) * W;
  ensureClawdbotGateway : Env -> W -> (exn + unit) * W;
  verifyAccessJWT : string -> string -> string -> W -> (exn + JWTPayload) * W;
  JSON_parse : string -> option value
}.

(* ===================================================================== *)
(** * The monad of handlers: state, exceptions, trace *)
(* ===================================================================== *)

Section Monad.
Context {W : Type}.

Record St : Type := mkSt {
  world : W;
  trace : list event;
  background : list task
}.

(** A computation runs on a state and returns or throws; the state
    survives a throw. *)
Definition M (A : Type) : Type := St -> (exn + A) * St.

Definition ret {A} (a : A) : M A := fun st => (inr a, st).

Definition throw {A} (e : exn) : M A := fun st => (inl e, st).

Definition bind {A B} (c : M A) (k : A -> M B) : M B :=
  fun st =>
    match c st with
    | (inr a, st') => k a st'
    | (inl e, st') => (inl e, st')
    end.

(** [try { c } catch (err) { h err }] *)
Definition try_catch {A} (c : M A) (h : exn -> M A) : M A :=
  fun st =>
    match c st with
    | (inr a, st') => (inr a, st')
    | (inl e, st') => h e st'
    end.

(** A call that leaves the Worker: logged, then run on the sandbox. *)
Definition call {A} (ev : event) (op : W -> (exn + A) * W) : M A :=
  fun st =>
    let (r, w') := op (world st) in
    (r, {| world := w'; trace := trace st ++ [ev]; background := background st |}).

(** A property read from the sandbox. *)
Definition read {A} (f : W -> A) : M A := fun st => (inr (f (world st)), st).

(** Time passing. *)
Definition pass (f : W -> W) : M unit :=
  fun st => (inr tt, {| world := f (world st); trace := trace st;
                        background := background st |}).

Definition log (ev : event) : M unit :=
  fun st => (inr tt, {| world := world st; trace := trace st ++ [ev];
                        background := background st |}).

(** A call that leaves the Worker and whose promise is not awaited:
    the call is made and logged now, the sandbox is as it was, and the
    pending promise is the result. *)
Definition spawn (ev : event) (promise : task) : M task :=
  fun st => (inr promise, {| world := world st; trace := trace st ++ [ev];
                             background := background st |}).

(** The work of a call made earlier, when its promise settles: run on
    the sandbox, without a new call. *)
Definition resume {A} (op : W -> (exn + A) * W) : M A :=
  fun st =>
    let (r, w') := op (world st) in
    (r, {| world := w'; trace := trace st; background := background st |}).

(** [c.executionCtx.waitUntil(...)] *)
Definition waitUntil (t : task) : M unit :=
  fun st => (inr tt, {| world := world st; trace := trace st;
                        background := background st ++ [t] |}).

Definition liftE {A} (r : exn + A) : M A :=
  match r with inl e => throw e | inr a => ret a end.

End Monad.

Arguments St : clear implicits.
Arguments M : clear implicits.

Declare Scope js_scope.
Delimit Scope js_scope with js.
Notation "x <- c ;; k" := (bind c (fun x => k))
  (at level 61, c at next level, right associativity) : js_scope.
Notation "c ;; k" := (bind c (fun _ => k))
  (at level 61, right associativity) : js_scope.
Local Open Scope js_scope.

(** [Math.ceil(timeoutMs / pollInterval)] on non-negative integers. *)
Definition ceilDiv (timeoutMs pollInterval : Z) : nat :=
  Z.to_nat ((timeoutMs + pollInterval - 1) / pollInterval).

(* ===================================================================== *)
(** * src/gateway/sync.ts *)
(* ===================================================================== *)

Module Sync.

Record SyncResult : Type := mkResult {
  success : bool;
  lastSync : option string;
  error : option string;
  details : option string
}.

Section Sync.
Context {W : Type} `{SB : Sandbox W} `{IM : Imports W}.

(** The loop of [waitForProcess] with [left] attempts to go:
    [while (proc.status === 'running' && attempts < maxAttempts)]. *)
Fixpoint waitLoop (left : nat) (proc : Process) : M W unit :=
  match left with
  | O => ret tt
  | S k =>
      s <- read (status proc) ;;
      if s =? "running"
      then pass (sleep 500) ;; waitLoop k proc
      else ret tt
  end.

Definition waitForProcess (proc : Process) (timeoutMs : Z) : M W unit :=
  let pollInterval := 500%Z in
  let maxAttempts := ceilDiv timeoutMs pollInterval in
  waitLoop maxAttempts proc.

(** The state of the sandbox when [waitLoop] and [waitForProcess]
    return: the time that passed while polling. *)
Fixpoint waitedLoop (left : nat) (proc : Process) (w : W) : W :=
  match left with
  | O => w
  | S k => if status proc w =? "running"
           then waitedLoop k proc (sleep 500 w)
           else w
  end.

Definition waited (proc : Process) (timeoutMs : Z) (w : W) : W :=
  waitedLoop (ceilDiv timeoutMs 500) proc w.

Definition checkCmd : string :=
  "test -f /root/.clawdbot/clawdbot.json && echo " ++ dq ++ "ok" ++ dq.

Definition syncCmd : string :=
  "rsync -r --no-times --delete --exclude='*.lock' --exclude='*.log' --exclude='*.tmp' /root/.clawdbot/ "
    ++ R2_MOUNT_PATH ++ "/ && date -Iseconds > " ++ R2_MOUNT_PATH ++ "/.last-sync".

Definition timestampCmd : string := "cat " ++ R2_MOUNT_PATH ++ "/.last-sync".

Definition notConfigured : SyncResult :=
  {| success := false; lastSync := None;
     error := Some "R2 storage is not configured"; details := None |}.

Definition mountFailed : SyncResult :=
  {| success := false; lastSync := None;
     error := Some "Failed to mount R2 storage"; details := None |}.

Definition sourceMissing : SyncResult :=
  {| success := false; lastSync := None;
     error := Some "Sync aborted: source missing clawdbot.json";
     details := Some "The local config directory is missing critical files. This could indicate corruption or an incomplete setup." |}.

(** [checkLogs.stdout?.includes('ok')] as a condition. *)
Definition seesOk (checkLogs : Logs) : bool :=
  match stdout checkLogs with
  | Some out => includes out "ok"
  | None => false
  end.

(** The sanity check of the source: [Some r] when the [try] block or
    its [catch] returns [r] from the function, [None] when control
    goes on to the mirror step. *)
Definition sanityCheck : M W (option SyncResult) :=
  try_catch
    (checkProc <- call (EvStartProcess checkCmd) (startProcess checkCmd) ;;
     waitForProcess checkProc 5000 ;;
     checkLogs <- call (EvGetLogs (id checkProc)) (getLogs checkProc) ;;
     if negb (seesOk checkLogs)
     then ret (Some sourceMissing)
     else ret None)
    (fun err =>
       ret (Some {| success := false; lastSync := None;
                    error := Some "Failed to verify source files";
                    details := Some (errorMessage err) |})).

(** [lastSync && lastSync.match(/^\d{4}-\d{2}-\d{2}/)] *)
Definition markerOk (lastSync : option string) : bool :=
  match lastSync with
  | Some t => negb (t =? "") && matchIsoDate t
  | None => false
  end.

Definition succeeded (lastSync : option string) : SyncResult :=
  {| success := true; lastSync := lastSync; error := None; details := None |}.

(** [error?.includes(text)] as a condition. *)
Definition errorIncludes (text : string) (r : SyncResult) : bool :=
  match error r with
  | Some e => includes e text
  | None => false
  end.

(** The mirror step and the re-read of the marker file. *)
Definition mirror : M W SyncResult :=
  try_catch
    (proc <- call (EvStartProcess syncCmd) (startProcess syncCmd) ;;
     waitForProcess proc 30000 ;;
     timestampProc <- call (EvStartProcess timestampCmd) (startProcess timestampCmd) ;;
     waitForProcess timestampProc 5000 ;;
     timestampLogs <- call (EvGetLogs (id timestampProc)) (getLogs timestampProc) ;;
     let lastSync := option_map trim (stdout timestampLogs) in
     if markerOk lastSync
     then ret (succeeded lastSync)
     else
       logs <- call (EvGetLogs (id proc)) (getLogs proc) ;;
       ret {| success := false; lastSync := None;
              error := Some "Sync failed";
              details := Some (orDefault (orStr (stderr logs) (stdout logs))
                                         "No timestamp file created") |})
    (fun err =>
       ret {| success := false; lastSync := None;
              error := Some "Sync error";
              details := Some (errorMessage err) |}).

(** [!env.R2_ACCESS_KEY_ID || !env.R2_SECRET_ACCESS_KEY || !env.CF_ACCOUNT_ID] *)
Definition credentialMissing (env : Env) : bool :=
  negb (truthyStr (R2_ACCESS_KEY_ID env))
  || negb (truthyStr (R2_SECRET_ACCESS_KEY env))
  || negb (truthyStr (CF_ACCOUNT_ID env)).

Definition syncToR2 (env : Env) : M W SyncResult :=
  if credentialMissing env then ret notConfigured
  else
    mounted <- call EvMountR2Storage (mountR2Storage env) ;;
    if negb mounted then ret mountFailed
    else
      checked <- sanityCheck ;;
      match checked with
      | Some r => ret r
      | None => mirror
      end.

End Sync.
End Sync.

(* ===================================================================== *)
(** * Responses *)
(* ===================================================================== *)

Inductive payload : Type :=
| Json (v : value)
| Html (markup : string)
| Redirect (location : string).

Record Response : Type := mkResponse { code : Z; content : payload }.

(** [c.json(v)] and [c.json(v, status)] *)
Definition json (v : value) : Response := {| code := 200; content := Json v |}.
Definition jsonWith (v : value) (status : Z) : Response :=
  {| code := status; content := Json v |}.

(** The body of a JSON response; [undefined] for another payload. *)
Definition bodyOf (r : Response) : value :=
  match content r with Json v => v | _ => VUndefined end.

(** A field of the body of a JSON response. *)
Definition field (k : string) (r : Response) : value :=
  match bodyOf r with VObj fs => lookup k fs | _ => VUndefined end.

(** Whether the body of a JSON response has the key at all. *)
Definition hasKey (k : string) (r : Response) : bool :=
  match bodyOf r with
  | VObj fs => existsb (fun kv => fst kv =? k) fs
  | _ => false
  end.

(* ===================================================================== *)
(** * The API routes *)
(* ===================================================================== *)

Module Routes.

Definition CLI_TIMEOUT_MS : Z := 20000.
Definition CLI_POLL_INTERVAL_MS : Z := 500.

(** An entry of [results] in the bulk approval. *)
Record ApproveResult : Type := mkApprove {
  requestId : value;
  success : bool;
  error : option string
}.

(** A device of the declared type [{ requestId: string }]: an object. *)
Definition isDevice (v : value) : Prop := exists fs, v = VObj fs.

(** A request id that is a string, as the declared type has it, or a
    safe integer. *)
Definition plainId (v : value) : Prop :=
  (exists s : string, v = VStr s)
  \/ (exists z : Z, v = VNum z /\ safeInteger z = true).

(** [device.requestId] of a device. *)
Definition requestIdOf (device : value) : value :=
  match device with
  | VObj fs => lookup "requestId" fs
  | _ => VUndefined
  end.

Definition resultObj (r : ApproveResult) : value :=
  VObj ([("requestId", requestId r); ("success", VBool (success r))]
          ++ match error r with
             | Some e => [("error", VStr e)]
             | None => []
             end).

Section Routes.
Context {W : Type} `{SB : Sandbox W} `{IM : Imports W}.

(** The loop of [waitForProcess] with [left] attempts to go:
    sleep, leave when the process no longer runs, count. *)
Fixpoint waitLoop (left : nat) (proc : Process) : M W unit :=
  match left with
  | O => ret tt
  | S k =>
      pass (sleep CLI_POLL_INTERVAL_MS) ;;
      s <- read (status proc) ;;
      if negb (s =? "running") then ret tt else waitLoop k proc
  end.

Definition waitForProcess (proc : Process) (timeoutMs : Z) : M W unit :=
  waitLoop (ceilDiv timeoutMs CLI_POLL_INTERVAL_MS) proc.

(** The state of the sandbox when [waitLoop] and [waitForProcess]
    return: the time that passed while polling. *)
Fixpoint waitedLoop (left : nat) (proc : Process) (w : W) : W :=
  match left with
  | O => w
  | S k => let w' := sleep CLI_POLL_INTERVAL_MS w in
           if negb (status proc w' =? "running") then w'
           else waitedLoop k proc w'
  end.

Definition waited (proc : Process) (timeoutMs : Z) (w : W) : W :=
  waitedLoop (ceilDiv timeoutMs CLI_POLL_INTERVAL_MS) proc w.

(** [GET /api/status] *)
Definition getStatus : M W Response :=
  try_catch
    (process <- call EvFindProcess findExistingClawdbotProcess ;;
     match process with
     | None =>
         ret (json (VObj [("ok", VBool false); ("status", VStr "not_running")]))
     | Some p =>
         try_catch
           (call (EvWaitForPort (id p) 18789) (waitForPort p 18789 5000) ;;
            ret (json (VObj [("ok", VBool true); ("status", VStr "running");
                             ("processId", VStr (id p))])))
           (fun _ =>
              ret (json (VObj [("ok", VBool false); ("status", VStr "not_responding");
                               ("processId", VStr (id p))])))
     end)
    (fun err =>
       ret (json (VObj [("ok", VBool false); ("status", VStr "error");
                        ("error", VStr (errorMessage err))]))).

Definition listCmd : string :=
  "clawdbot devices list --json --url ws://localhost:18789".

Definition approveCmd (requestId : string) : string :=
  "clawdbot devices approve " ++ requestId ++ " --url ws://localhost:18789".

Definition serverError (err : exn) : Response :=
  jsonWith (VObj [("error", VStr (errorMessage err))]) 500.

(** The inner [try] of the listing: the span of braces, decoded. *)
Definition listingOf (out err : string) : Response :=
  match matchBraces out with
  | Some m =>
      match JSON_parse m with
      | Some data => json data
      | None =>
          json (VObj [("pending", VArr []); ("paired", VArr []);
                      ("raw", VStr out); ("stderr", VStr err);
                      ("parseError", VStr "Failed to parse CLI output")])
      end
  | None =>
      json (VObj [("pending", VArr []); ("paired", VArr []);
                  ("raw", VStr out); ("stderr", VStr err)])
  end.

(** [GET /api/admin/devices] *)
Definition getDevices (env : Env) : M W Response :=
  try_catch
    (call EvEnsureGateway (ensureClawdbotGateway env) ;;
     proc <- call (EvStartProcess listCmd) (startProcess listCmd) ;;
     waitForProcess proc CLI_TIMEOUT_MS ;;
     logs <- call (EvGetLogs (id proc)) (getLogs proc) ;;
     let out := orDefault (stdout logs) "" in
     let err := orDefault (stderr logs) "" in
     ret (listingOf out err))
    (fun error => ret (serverError error)).

(** [stdout.toLowerCase().includes('approved') || proc.exitCode === 0] *)
Definition approved (out : string) (exit : option Z) : bool :=
  includes (toLowerCase out) "approved"
  || match exit with Some z => (z =? 0)%Z | None => false end.

(** [POST /api/admin/devices/:requestId/approve] *)
Definition postApprove (env : Env) (requestId : option string) : M W Response :=
  if negb (truthyStr requestId)
  then ret (jsonWith (VObj [("error", VStr "requestId is required")]) 400)
  else
    let requestId := orDefault requestId "" in
    try_catch
      (call EvEnsureGateway (ensureClawdbotGateway env) ;;
       proc <- call (EvStartProcess (approveCmd requestId))
                    (startProcess (approveCmd requestId)) ;;
       waitForProcess proc CLI_TIMEOUT_MS ;;
       logs <- call (EvGetLogs (id proc)) (getLogs proc) ;;
       let out := orDefault (stdout logs) "" in
       let err := orDefault (stderr logs) "" in
       exit <- read (exitCode proc) ;;
       let success := approved out exit in
       ret (json (VObj [("success", VBool success);
                        ("requestId", VStr requestId);
                        ("message", VStr (if success then "Device approved"
                                          else "Approval may have failed"));
                        ("stdout", VStr out);
                        ("stderr", VStr err)])))
      (fun error => ret (serverError error)).

(** One turn of the loop over [pending]: the entry pushed to
    [results].  [device.requestId] is read again by the [catch]. *)
Definition approveOne (device : value) : M W ApproveResult :=
  try_catch
    (rid <- liftE (getProp device "requestId") ;;
     approveProc <- call (EvStartProcess (approveCmd (toStr rid)))
                         (startProcess (approveCmd (toStr rid))) ;;
     waitForProcess approveProc CLI_TIMEOUT_MS ;;
     approveLogs <- call (EvGetLogs (id approveProc)) (getLogs approveProc) ;;
     exit <- read (exitCode approveProc) ;;
     let success :=
       match stdout approveLogs with
       | Some out => approved out exit
       | None => match exit with Some z => (z =? 0)%Z | None => false end
       end in
     ret {| requestId := rid; success := success; error := None |})
    (fun err =>
       rid <- liftE (getProp device "requestId") ;;
       ret {| requestId := rid; success := false;
              error := Some (errorMessage err) |}).

(** [for (const device of pending) { ... results.push(...) }] *)
Fixpoint approveEach (devices : list value) : M W (list ApproveResult) :=
  match devices with
  | [] => ret []
  | device :: rest =>
      r <- approveOne device ;;
      rs <- approveEach rest ;;
      ret (r :: rs)
  end.

(** The [try] that decodes the list of pending devices: [inl] is the
    response of its [catch], [inr] the value of [pending]. *)
Definition pendingOf (out : string) : Response + value :=
  let failed :=
    jsonWith (VObj [("error", VStr "Failed to parse device list");
                    ("raw", VStr out)]) 500 in
  match matchBraces out with
  | Some m =>
      match JSON_parse m with
      | Some data =>
          match getProp data "pending" with
          | inr p => inr (if truthy p then p else VArr [])
          | inl _ => inl failed
          end
      | None => inl failed
      end
  | None => inr (VArr [])
  end.

Definition aggregate (results : list ApproveResult) (total : value) : Response :=
  let approvedCount := List.length (filter success results) in
  json (VObj [("approved", VArr (map requestId (filter success results)));
              ("failed", VArr (map resultObj
                                   (filter (fun r => negb (success r)) results)));
              ("message", VStr ("Approved " ++ ofNat approvedCount ++ " of "
                                  ++ toStr total ++ " device(s)"))]).

(** [POST /api/admin/devices/approve-all] *)
Definition postApproveAll (env : Env) : M W Response :=
  try_catch
    (call EvEnsureGateway (ensureClawdbotGateway env) ;;
     listProc <- call (EvStartProcess listCmd) (startProcess listCmd) ;;
     waitForProcess listProc CLI_TIMEOUT_MS ;;
     listLogs <- call (EvGetLogs (id listProc)) (getLogs listProc) ;;
     let out := orDefault (stdout listLogs) "" in
     match pendingOf out with
     | inl r => ret r
     | inr pending =>
         len <- liftE (getProp pending "length") ;;
         match len with
         | VNum 0 =>
             ret (json (VObj [("approved", VArr []);
                              ("message", VStr "No pending devices to approve")]))
         | _ =>
             devices <- liftE (iterate pending) ;;
             results <- approveEach devices ;;
             ret (aggregate results len)
         end
     end)
    (fun error => ret (serverError error)).

(** [POST /api/admin/storage/sync] *)
Definition postStorageSync (env : Env) : M W Response :=
  result <- Sync.syncToR2 env ;;
  if Sync.success result
  then ret (json (VObj [("success", VBool true);
                        ("message", VStr "Sync completed successfully");
                        ("lastSync", ofOption (Sync.lastSync result))]))
  else
    let status :=
      if Sync.errorIncludes "not configured" result then 400%Z else 500%Z in
    ret (jsonWith (VObj [("success", VBool false);
                         ("error", ofOption (Sync.error result));
                         ("details", ofOption (Sync.details result))]) status).

(** [POST /api/admin/gateway/restart].  The handler calls
    [ensureClawdbotGateway] itself and does not await it: the promise,
    with its [.catch], goes to [waitUntil]. *)
Definition postRestart (env : Env) : M W Response :=
  try_catch
    (existingProcess <- call EvFindProcess findExistingClawdbotProcess ;;
     match existingProcess with
     | Some p =>
         log (EvConsoleLog "Killing existing gateway process:") ;;
         try_catch (call (EvKill (id p)) (kill p))
                   (fun killErr => log (EvConsoleError "Error killing process:")) ;;
         pass (sleep 2000)
     | None => ret tt
     end ;;
     bootPromise <- spawn EvEnsureGateway (BootGateway env) ;;
     waitUntil bootPromise ;;
     ret (json (VObj [("success", VBool true);
                      ("message",
                       VStr (match existingProcess with
                             | Some _ => "Gateway process killed, new instance starting..."
                             | None => "No existing process found, starting new instance..."
                             end));
                      ("previousProcessId",
                       match existingProcess with
                       | Some p => VStr (id p)
                       | None => VUndefined
                       end)])))
    (fun error => ret (serverError error)).

(** The promise handed to [waitUntil] settling, after the response:
    the boot does its work in the sandbox, and a rejection is taken by
    [.catch((err) => { console.error('Gateway restart failed:', err) })],
    so that the promise [waitUntil] holds is never rejected. *)
Definition settle (promise : task) : M W unit :=
  match promise with
  | BootGateway env =>
      try_catch (resume (ensureClawdbotGateway env))
                (fun err => log (EvConsoleError "Gateway restart failed:"))
  end.

End Routes.
End Routes.

(* ===================================================================== *)
(** * The access middleware *)
(* ===================================================================== *)

Module Auth.

Inductive responseType : Type := TJson | THtml.

Record AccessMiddlewareOptions : Type := mkOptions {
  type : responseType;
  redirectOnMissing : bool
}.

Record AccessUser : Type := mkUser { userEmail : value; userName : value }.

(** What the middleware reads of a request: its headers by name and the
    [token] parameter of the query of its URL. *)
Record Request : Type := mkRequest {
  header : string -> option string;
  queryToken : option string
}.

(** The Hono context: bindings, request, and the variable [accessUser]. *)
Record Context : Type := mkContext {
  env : Env;
  req : Request;
  accessUser : option AccessUser
}.

(** [c.set('accessUser', u)] *)
Definition setAccessUser (c : Context) (u : AccessUser) : Context :=
  {| env := env c; req := req c; accessUser := Some u |}.

Definition isDevMode (e : Env) : bool :=
  match DEV_MODE e with Some s => s =? "true" | None => false end.

(** [cookie.split('=')[1]] *)
Definition secondPart (cookie : string) : option string :=
  nth_error (split "="%char cookie) 1.

Definition extractJWT (c : Context) : option string :=
  let jwtHeader := header (req c) "CF-Access-JWT-Assertion" in
  let jwtCookie :=
    match header (req c) "Cookie" with
    | Some cookies =>
        match find (fun cookie => startsWith (trim cookie) "CF_Authorization=")
                   (split ";"%char cookies) with
        | Some cookie => secondPart cookie
        | None => None
        end
    | None => None
    end in
  let r := orStr jwtHeader jwtCookie in
  if truthyStr r then r else None.

Definition eqOpt (a : option string) (b : string) : bool :=
  match a with Some s => s =? b | None => false end.

Definition hasValidGatewayToken (c : Context) : bool :=
  match MOLTBOT_GATEWAY_TOKEN (env c) with
  | Some expectedToken =>
      if expectedToken =? "" then false
      else
        let headerToken :=
          orStr (header (req c) "X-Gateway-Token")
                (option_map (fun a => removeFirst a "Bearer ")
                            (header (req c) "Authorization")) in
        eqOpt (queryToken (req c)) expectedToken || eqOpt headerToken expectedToken
  | None => false
  end.

(** The markup of the HTML answers, as the template literals spell it. *)
Definition pageNotConfigured : string :=
  "
          <html>
            <body>
              <h1>Admin UI Not Configured</h1>
              <p>Set CF_ACCESS_TEAM_DOMAIN and CF_ACCESS_AUD environment variables.</p>
            </body>
          </html>
        ".

Definition pageMissing (teamDomain : string) : string :=
  "
          <html>
            <body>
              <h1>Unauthorized</h1>
              <p>Missing Cloudflare Access token.</p>
              <a href=" ++ dq ++ "https://" ++ teamDomain ++ dq ++ ">Login</a>
            </body>
          </html>
        ".

Definition pageInvalid (teamDomain : string) : string :=
  "
          <html>
            <body>
              <h1>Unauthorized</h1>
              <p>Your Cloudflare Access session is invalid or expired.</p>
              <a href=" ++ dq ++ "https://" ++ teamDomain ++ dq ++ ">Login again</a>
            </body>
          </html>
        ".

Section Middleware.
Context {W : Type} `{IM : Imports W}.

(** The middleware [createAccessMiddleware(options)] returns, applied
    to a context and to the rest of the chain [next]. *)
Definition createAccessMiddleware (options : AccessMiddlewareOptions)
           (c : Context) (next : Context -> M W Response) : M W Response :=
  if isDevMode (env c) then
    next (setAccessUser c {| userEmail := VStr "dev@localhost";
                             userName := VStr "Dev User" |})
  else if hasValidGatewayToken c then
    next (setAccessUser c {| userEmail := VStr "gateway-token@cli";
                             userName := VStr "CLI User" |})
  else
    let teamDomain := CF_ACCESS_TEAM_DOMAIN (env c) in
    let expectedAud := CF_ACCESS_AUD (env c) in
    if negb (truthyStr teamDomain) || negb (truthyStr expectedAud) then
      match type options with
      | TJson =>
          ret (jsonWith
                 (VObj [("error", VStr "Cloudflare Access not configured");
                        ("hint", VStr "Set CF_ACCESS_TEAM_DOMAIN and CF_ACCESS_AUD environment variables")])
                 500)
      | THtml =>
          ret {| code := 500;
                 content := Html pageNotConfigured |}
      end
    else
      let teamDomain := orDefault teamDomain "" in
      let expectedAud := orDefault expectedAud "" in
      match extractJWT c with
      | None =>
          match type options with
          | THtml =>
              if redirectOnMissing options
              then ret {| code := 302; content := Redirect ("https://" ++ teamDomain) |}
              else ret {| code := 401;
                          content := Html (pageMissing teamDomain) |}
          | TJson =>
              ret (jsonWith
                     (VObj [("error", VStr "Unauthorized");
                            ("hint", VStr "Missing Cloudflare Access JWT. Ensure this route is protected by Cloudflare Access.")])
                     401)
          end
      | Some jwt =>
          try_catch
            (payload <- call (EvVerifyJWT jwt) (verifyAccessJWT jwt teamDomain expectedAud) ;;
             next (setAccessUser c {| userEmail := email payload;
                                      userName := name payload |}))
            (fun err =>
               log (EvConsoleError "Access JWT verification failed:") ;;
               match type options with
               | TJson =>
                   ret (jsonWith
                          (VObj [("error", VStr "Unauthorized");
                                 ("details",
                                  VStr (match err with
                                        | ErrorObj m => m
                                        | Thrown _ => "JWT verification failed"
                                        end))])
                          401)
               | THtml =>
                   ret {| code := 401;
                          content := Html (pageInvalid teamDomain) |}
               end)
      end.

End Middleware.
End Auth.

(* ===================================================================== *)
(** * The storage mount manager *)
(* ===================================================================== *)

Module Mount.

(** The underlying mount operation, each time it is performed. *)
Inductive mountEvent : Type :=
| EvMountBucket.

Section Mount.
Context {W : Type}.

(** The two primitives the manager rests on: the probe of the local
    mount table for the fixed mount path, and the mount request. *)
Variable mountTableShows : W -> bool.
Variable mountBucket : Env -> W -> (exn + unit) * W.

(** Modelled from the spec: the module [./r2] with [mountR2Storage]
    is not among the sources.  After section 4.3: the manager first
    inspects the mount table and returns success without side effects
    when the path is mounted; otherwise it issues a mount request; a
    request that fails because the target is "already in use" is
    success; any other failure is surfaced verbatim.  The result
    carries the mount requests issued. *)
Definition ensureMounted (credentials : Env) (w : W)
  : (exn + bool) * W * list mountEvent :=
  if mountTableShows w then (inr true, w, [])
  else
    match mountBucket credentials w with
    | (inr tt, w') => (inr true, w', [EvMountBucket])
    | (inl e, w') =>
        if includes (errorMessage e) "already in use"
        then (inr true, w', [EvMountBucket])
        else (inl e, w', [EvMountBucket])
    end.

(** [ensureMounted] called twice in succession: both results, the
    final state, and the mount requests of the two calls together. *)
Definition ensureMountedTwice (credentials : Env) (w : W)
  : (exn + bool) * (exn + bool) * W * list mountEvent :=
  match ensureMounted credentials w with
  | (r1, w1, ev1) =>
      match ensureMounted credentials w1 with
      | (r2, w2, ev2) => (r1, r2, w2, (ev1 ++ ev2)%list)
      end
  end.

End Mount.
End Mount.

(* ===================================================================== *)
(** * A mock sandbox *)
(* ===================================================================== *)

(** One implementation of the interfaces, after [createMockSandbox] and
    [createMockProcess] of [src/test-utils.ts]: processes are complete as
    soon as they start, the CLI answers from a script, and the three
    shell commands of the sync engine act on a small file system. *)
Module Mock.

(** ** A decoder for [JSON.parse]

    Objects, arrays, strings with the two-character escapes, integers
    and the three literals. *)
Module Json.

Definition isWs (c : ascii) : bool :=
  let n := nat_of_ascii c in
  (n =? 32)%nat || (n =? 9)%nat || (n =? 10)%nat || (n =? 13)%nat.

Fixpoint skipWs (s : string) : string :=
  match s with
  | String c s' => if isWs c then skipWs s' else s
  | EmptyString => EmptyString
  end.

Definition unescape (c : ascii) : option ascii :=
  let n := nat_of_ascii c in
  if (n =? 34)%nat then Some c            (* quote *)
  else if (n =? 92)%nat then Some c       (* backslash *)
  else if (n =? 47)%nat then Some c       (* slash *)
  else if (n =? 98)%nat then Some "008"%char
  else if (n =? 102)%nat then Some "012"%char
  else if (n =? 110)%nat then Some "010"%char
  else if (n =? 114)%nat then Some "013"%char
  else if (n =? 116)%nat then Some "009"%char
  else None.

Definition consTo (c : ascii) (r : option (string * string)) : option (string * string) :=
  match r with Some (t, rest) => Some (String c t, rest) | None => None end.

(** The characters of a string literal after its opening quote. *)
Fixpoint chars (s : string) : option (string * string) :=
  match s with
  | EmptyString => None
  | String c s' =>
      let n := nat_of_ascii c in
      if (n =? 34)%nat then Some (EmptyString, s')
      else if (n =? 92)%nat then
        match s' with
        | String e s'' =>
            match unescape e with
            | Some c' => consTo c' (chars s'')
            | None => None
            end
        | EmptyString => None
        end
      else if (n <? 32)%nat then None
      else consTo c (chars s')
  end.

Fixpoint digitsOf (acc : Z) (s : string) : Z * string :=
  match s with
  | String c s' =>
      if isDigit c
      then digitsOf (acc * 10 + Z.of_nat (nat_of_ascii c - 48)) s'
      else (acc, s)
  | EmptyString => (acc, s)
  end.

(** An integer without fraction or exponent, no leading zero. *)
Definition natural (s : string) : option (Z * string) :=
  match s with
  | String c s' =>
      if isDigit c then
        let (z, rest) := digitsOf 0 s in
        let more := match rest with
                    | String d _ => Ascii.eqb d "."%char || Ascii.eqb d "e"%char
                                    || Ascii.eqb d "E"%char
                    | EmptyString => false
                    end in
        let leading := Ascii.eqb c "0"%char
                       && match s' with String d _ => isDigit d | _ => false end in
        if more || leading then None else Some (z, rest)
      else None
  | EmptyString => None
  end.

Fixpoint setField (k : string) (v : value) (fs : list (string * value))
  : list (string * value) :=
  match fs with
  | [] => [(k, v)]
  | (k', v') :: fs' => if k' =? k then (k, v) :: fs' else (k', v') :: setField k v fs'
  end.

Definition literal (lit : string) (v : value) (s : string) : option (value * string) :=
  if String.prefix lit s
  then Some (v, substring (String.length lit) (String.length s - String.length lit) s)
  else None.

Fixpoint parseValue (fuel : nat) (s : string) : option (value * string) :=
  match fuel with
  | O => None
  | S f =>
      match skipWs s with
      | EmptyString => None
      | String c r =>
          let n := nat_of_ascii c in
          if (n =? 123)%nat then            (* opening brace *)
            match skipWs r with
            | String d r' =>
                if (nat_of_ascii d =? 125)%nat then Some (VObj [], r')
                else match parseMembers f (skipWs r) [] with
                     | Some (fs, rest) => Some (VObj fs, rest)
                     | None => None
                     end
            | EmptyString => None
            end
          else if (n =? 91)%nat then        (* opening bracket *)
            match skipWs r with
            | String d r' =>
                if (nat_of_ascii d =? 93)%nat then Some (VArr [], r')
                else match parseElements f r [] with
                     | Some (l, rest) => Some (VArr l, rest)
                     | None => None
                     end
            | EmptyString => None
            end
          else if (n =? 34)%nat then
            match chars r with
            | Some (t, rest) => Some (VStr t, rest)
            | None => None
            end
          else if (n =? 45)%nat then        (* minus *)
            match natural r with
            | Some (z, rest) => Some (VNum (- z), rest)
            | None => None
            end
          else if isDigit c then
            match natural (String c r) with
            | Some (z, rest) => Some (VNum z, rest)
            | None => None
            end
          else
            match literal "true" (VBool true) (String c r) with
            | Some x => Some x
            | None =>
                match literal "false" (VBool false) (String c r) with
                | Some x => Some x
                | None => literal "null" VNull (String c r)
                end
            end
      end
  end

(** The elements of an array after its bracket or a comma. *)
with parseElements (fuel : nat) (s : string) (acc : list value)
     : option (list value * string) :=
  match fuel with
  | O => None
  | S f =>
      match parseValue f s with
      | Some (v, rest) =>
          match skipWs rest with
          | String c r =>
              if (nat_of_ascii c =? 44)%nat then parseElements f r (acc ++ [v])%list
              else if (nat_of_ascii c =? 93)%nat then Some ((acc ++ [v])%list, r)
              else None
          | EmptyString => None
          end
      | None => None
      end
  end

(** The members of an object, at the quote of a key. *)
with parseMembers (fuel : nat) (s : string) (acc : list (string * value))
     : option (list (string * value) * string) :=
  match fuel with
  | O => None
  | S f =>
      match s with
      | String q r =>
          if (nat_of_ascii q =? 34)%nat then
            match chars r with
            | Some (k, rest) =>
                match skipWs rest with
                | String colon rest' =>
                    if (nat_of_ascii colon =? 58)%nat then
                      match parseValue f rest' with
                      | Some (v, rest'') =>
                          match skipWs rest'' with
                          | String c r' =>
                              if (nat_of_ascii c =? 44)%nat
                              then parseMembers f (skipWs r') (setField k v acc)
                              else if (nat_of_ascii c =? 125)%nat
                                   then Some (setField k v acc, r')
                                   else None
                          | EmptyString => None
                          end
                      | None => None
                      end
                    else None
                | EmptyString => None
                end
            | None => None
            end
          else None
      | EmptyString => None
      end
  end.

Definition parse (s : string) : option value :=
  match parseValue (2 * String.length s + 2) s with
  | Some (v, rest) =>
      match skipWs rest with
      | EmptyString => Some v
      | _ => None
      end
  | None => None
  end.

End Json.

(** ** The state of the mock sandbox *)

(** What a scripted CLI process leaves behind. *)
Record Output : Type := mkOutput {
  out : option string;
  err : option string;
  exit : option Z
}.

Record World : Type := mkWorld {
  localFiles : list (string * string);  (* the files of /root/.clawdbot *)
  durable : list (string * string);     (* the files under the mount path *)
  mirrorWorks : bool;                   (* whether the mirror command does anything *)
  clock : string;                       (* what date -Iseconds prints *)
  cli : string -> option Output;        (* the CLI by command; None: the start is rejected *)
  gateway : option Process;             (* the gateway in the process table *)
  portOpen : bool;                      (* whether the gateway port answers *)
  bootable : bool;                      (* whether a boot succeeds *)
  mountable : bool;                     (* what mountR2Storage answers *)
  mounted : bool;                       (* whether the mount table shows the path *)
  mountError : option string            (* the failure of a mount request, if any *)
}.

Definition setDurable (w : World) (d : list (string * string)) : World :=
  {| localFiles := localFiles w; durable := d; mirrorWorks := mirrorWorks w;
     clock := clock w; cli := cli w; gateway := gateway w; portOpen := portOpen w;
     bootable := bootable w; mountable := mountable w; mounted := mounted w;
     mountError := mountError w |}.

Definition setGateway (w : World) (g : option Process) : World :=
  {| localFiles := localFiles w; durable := durable w; mirrorWorks := mirrorWorks w;
     clock := clock w; cli := cli w; gateway := g; portOpen := portOpen w;
     bootable := bootable w; mountable := mountable w; mounted := mounted w;
     mountError := mountError w |}.

Definition setMounted (w : World) (m : bool) : World :=
  {| localFiles := localFiles w; durable := durable w; mirrorWorks := mirrorWorks w;
     clock := clock w; cli := cli w; gateway := gateway w; portOpen := portOpen w;
     bootable := bootable w; mountable := mountable w; mounted := m;
     mountError := mountError w |}.

Fixpoint fileContent (name : string) (fs : list (string * string)) : option string :=
  match fs with
  | [] => None
  | (n, c) :: fs' => if n =? name then Some c else fileContent name fs'
  end.

#[global] Instance imports : Imports World := {
  R2_MOUNT_PATH := "/data/clawdbot";
  mountR2Storage := fun _ w => (inr (mountable w), w);
  findExistingClawdbotProcess := fun w => (inr (gateway w), w);
  ensureClawdbotGateway := fun _ w =>
    if bootable w then (inr tt, setGateway w (Some {| id := "gateway-1" |}))
    else (inl (ErrorObj "Gateway failed to start"), w);
  verifyAccessJWT := fun jwt _ _ w =>
    if jwt =? "valid" then (inr {| email := VStr "user@example.com"; name := VUndefined |}, w)
    else (inl (ErrorObj "Invalid token"), w);
  JSON_parse := Json.parse
}.

Definition lf : string := String "010"%char EmptyString.

(** The mock of [startProcess]: the handle is named after the command;
    the mirror command replaces the durable files by the local ones and
    writes the marker. *)
Definition start (cmd : string) (w : World) : (exn + Process) * World :=
  if cmd =? Sync.checkCmd then (inr {| id := cmd |}, w)
  else if cmd =? Sync.timestampCmd then (inr {| id := cmd |}, w)
  else if cmd =? Sync.syncCmd then
    (inr {| id := cmd |},
     if mirrorWorks w
     then setDurable w (List.app (localFiles w) [(".last-sync", clock w ++ lf)])
     else w)
  else match cli w cmd with
       | Some _ => (inr {| id := cmd |}, w)
       | None => (inl (ErrorObj "Failed to start process"), w)
       end.

Definition logsOf (p : Process) (w : World) : (exn + Logs) * World :=
  if id p =? Sync.checkCmd then
    (inr {| stdout := Some (match fileContent "clawdbot.json" (localFiles w) with
                            | Some _ => "ok" ++ lf
                            | None => ""
                            end);
            stderr := Some "" |}, w)
  else if id p =? Sync.timestampCmd then
    (inr {| stdout := Some (match fileContent ".last-sync" (durable w) with
                            | Some t => t
                            | None => ""
                            end);
            stderr := Some "" |}, w)
  else if id p =? Sync.syncCmd then (inr {| stdout := Some ""; stderr := Some "" |}, w)
  else match cli w (id p) with
       | Some o => (inr {| stdout := out o; stderr := err o |}, w)
       | None => (inl (ErrorObj "No such process"), w)
       end.

#[global] Instance sandbox : Sandbox World := {
  startProcess := start;
  status := fun _ _ => "completed";
  exitCode := fun p w => match cli w (id p) with Some o => exit o | None => Some 0%Z end;
  getLogs := logsOf;
  kill := fun _ w => (inr tt, setGateway w None);
  waitForPort := fun _ _ _ w =>
    if portOpen w then (inr tt, w) else (inl (ErrorObj "Port not ready"), w);
  sleep := fun _ w => w
}.

(** The mount table and the mount request of the mock. *)
Definition mountTableShows (w : World) : bool := mounted w.

Definition mountBucket (_ : Env) (w : World) : (exn + unit) * World :=
  match mountError w with
  | None => (inr tt, setMounted w true)
  | Some m => (inl (ErrorObj m), w)
  end.

(** A fresh sandbox: a configured local directory, nothing mirrored
    yet, no gateway, a CLI that knows no command. *)
Definition fresh : World :=
  {| localFiles := [("clawdbot.json", "{}")];
     durable := [];
     mirrorWorks := true;
     clock := "2026-01-02T03:04:05+00:00";
     cli := fun _ => None;
     gateway := None;
     portOpen := true;
     bootable := true;
     mountable := true;
     mounted := false;
     mountError := None |}.

Definition setCli (w : World) (f : string -> option Output) : World :=
  {| localFiles := localFiles w; durable := durable w; mirrorWorks := mirrorWorks w;
     clock := clock w; cli := f; gateway := gateway w; portOpen := portOpen w;
     bootable := bootable w; mountable := mountable w; mounted := mounted w;
     mountError := mountError w |}.

Definition setLocal (w : World) (fs : list (string * string)) : World :=
  {| localFiles := fs; durable := durable w; mirrorWorks := mirrorWorks w;
     clock := clock w; cli := cli w; gateway := gateway w; portOpen := portOpen w;
     bootable := bootable w; mountable := mountable w; mounted := mounted w;
     mountError := mountError w |}.

Definition r2Env : Env :=
  {| R2_ACCESS_KEY_ID := Some "test-key-id";
     R2_SECRET_ACCESS_KEY := Some "test-secret-key";
     CF_ACCOUNT_ID := Some "test-account-id";
     DEV_MODE := None; MOLTBOT_GATEWAY_TOKEN := None;
     CF_ACCESS_TEAM_DOMAIN := None; CF_ACCESS_AUD := None |}.

Definition init (w : World) : St World :=
  {| world := w; trace := []; background := [] |}.

(** ** Scenarios *)

Definition setMountError (w : World) (e : option string) : World :=
  {| localFiles := localFiles w; durable := durable w; mirrorWorks := mirrorWorks w;
     clock := clock w; cli := cli w; gateway := gateway w; portOpen := portOpen w;
     bootable := bootable w; mountable := mountable w; mounted := mounted w;
     mountError := e |}.

Definition setPortOpen (w : World) (b : bool) : World :=
  {| localFiles := localFiles w; durable := durable w; mirrorWorks := mirrorWorks w;
     clock := clock w; cli := cli w; gateway := gateway w; portOpen := b;
     bootable := bootable w; mountable := mountable w; mounted := mounted w;
     mountError := mountError w |}.

(** The script [f] with an answer for one more command. *)
Definition answer (cmd : string) (o : Output) (f : string -> option Output)
  : string -> option Output :=
  fun c => if c =? cmd then Some o else f c.

Definition said (text : string) (code : Z) : Output :=
  {| out := Some text; err := Some ""; exit := Some code |}.

Definition quoted (s : string) : string := dq ++ s ++ dq.

(** A good backup under the mount, and a local directory that lost its
    files. *)
Definition emptied : World :=
  setDurable (setLocal fresh [])
             [("clawdbot.json", "{}"); (".last-sync", "2025-12-31T00:00:00+00:00" ++ lf)].

(** The CLI prints the success keyword and exits with code 1. *)
Definition approving : World :=
  setCli fresh (answer (Routes.approveCmd "dev-1") (said "Approved device X" 1)
                       (cli fresh)).

(** The CLI prints a log line and an opening brace that is never closed. *)
Definition garbled : World :=
  setCli fresh (answer Routes.listCmd (said ("log line" ++ lf ++ "{not valid json") 0)
                       (cli fresh)).

(** The CLI prints a span of braces that is not JSON. *)
Definition braced : World :=
  setCli fresh (answer Routes.listCmd (said ("log line" ++ lf ++ "{not valid json}") 0)
                       (cli fresh)).

Definition deviceJson (requestId : string) : string :=
  "{" ++ quoted "requestId" ++ ":" ++ quoted requestId ++ "}".

Definition device (requestId : string) : value :=
  VObj [("requestId", VStr requestId)].

(** Three pending devices; the approval of the second cannot be started. *)
Definition threeDevices : World :=
  setCli fresh
    (answer Routes.listCmd
       (said ("{" ++ quoted "pending" ++ ":[" ++ deviceJson "id1" ++ ","
                ++ deviceJson "id2" ++ "," ++ deviceJson "id3" ++ "],"
                ++ quoted "paired" ++ ":[]}") 0)
       (answer (Routes.approveCmd "id1") (said "Approved id1" 0)
          (answer (Routes.approveCmd "id3") (said "Approved id3" 0)
             (cli fresh)))).


(** A gateway in the process table whose port answers, and one whose
    port does not. *)
Definition serving : World := setGateway fresh (Some {| id := "gateway-1" |}).
Definition wedged : World := setPortOpen serving false.

(** A mirror command that does nothing, under a mount without marker. *)
Definition stalled : World :=
  {| localFiles := localFiles fresh; durable := []; mirrorWorks := false;
     clock := clock fresh; cli := cli fresh; gateway := None; portOpen := true;
     bootable := true; mountable := true; mounted := false; mountError := None |}.

(** Mount requests are refused for a reason other than "already in use". *)
Definition unmountable : World := setMountError fresh (Some "Access denied").

(** Mount requests are refused because the target is in use. *)
Definition inUse : World :=
  setMountError fresh (Some "mount: /data/clawdbot: already in use").

Definition noCredentials : Env :=
  {| R2_ACCESS_KEY_ID := None; R2_SECRET_ACCESS_KEY := Some "test-secret-key";
     CF_ACCOUNT_ID := Some "test-account-id";
     DEV_MODE := None; MOLTBOT_GATEWAY_TOKEN := None;
     CF_ACCESS_TEAM_DOMAIN := None; CF_ACCESS_AUD := None |}.

Definition devEnv : Env :=
  {| R2_ACCESS_KEY_ID := None; R2_SECRET_ACCESS_KEY := None; CF_ACCOUNT_ID := None;
     DEV_MODE := Some "true"; MOLTBOT_GATEWAY_TOKEN := Some "secret";
     CF_ACCESS_TEAM_DOMAIN := None; CF_ACCESS_AUD := None |}.

(** A downstream handler that answers with the user the middleware set. *)
Definition whoami (c : Auth.Context) : M World Response :=
  ret (json (VObj [("email", match Auth.accessUser c with
                             | Some u => Auth.userEmail u
                             | None => VNull
                             end);
                   ("name", match Auth.accessUser c with
                            | Some u => Auth.userName u
                            | None => VNull
                            end)])).

(** A request without any credential. *)
Definition anonymous : Auth.Context :=
  {| Auth.env := devEnv;
     Auth.req := {| Auth.header := fun _ => None; Auth.queryToken := None |};
     Auth.accessUser := None |}.

End Mock.

(* ===================================================================== *)
(** * The storage status route *)
(* ===================================================================== *)

Module Storage.

(** [!!(R2_ACCESS_KEY_ID && R2_SECRET_ACCESS_KEY && CF_ACCOUNT_ID)] *)
Definition hasCredentials (env : Env) : bool :=
  truthyStr (R2_ACCESS_KEY_ID env)
  && truthyStr (R2_SECRET_ACCESS_KEY env)
  && truthyStr (CF_ACCOUNT_ID env).

(** The array [missing] after its three conditional pushes. *)
Definition missing (env : Env) : list string :=
  ((if negb (truthyStr (R2_ACCESS_KEY_ID env)) then ["R2_ACCESS_KEY_ID"] else [])
     ++ (if negb (truthyStr (R2_SECRET_ACCESS_KEY env)) then ["R2_SECRET_ACCESS_KEY"] else [])
     ++ (if negb (truthyStr (CF_ACCOUNT_ID env)) then ["CF_ACCOUNT_ID"] else []))%list.

Definition configuredMessage : string :=
  "R2 storage is configured. Your data will persist across container restarts.".

Definition notConfiguredMessage : string :=
  "R2 storage is not configured. Paired devices and conversations will be lost when the container restarts.".

Section Storage.
Context {W : Type} `{SB : Sandbox W} `{IM : Imports W}.

Definition markerCmd : string :=
  "cat " ++ R2_MOUNT_PATH ++ "/.last-sync 2>/dev/null || echo " ++ dq ++ dq.

(** The [try] that looks for the marker: the value of [lastSync] after
    it, [null] when nothing was read or something was thrown. *)
Definition readMarker (env : Env) : M W value :=
  try_catch
    (call EvMountR2Storage (mountR2Storage env) ;;
     proc <- call (EvStartProcess markerCmd) (startProcess markerCmd) ;;
     Routes.waitForProcess proc 5000 ;;
     logs <- call (EvGetLogs (id proc)) (getLogs proc) ;;
     let timestamp := option_map trim (stdout logs) in
     if truthyStr timestamp then ret (ofOption timestamp) else ret VNull)
    (fun _ => ret VNull).

(** [GET /api/admin/storage] *)
Definition getStorage (env : Env) : M W Response :=
  lastSync <- (if hasCredentials env then readMarker env else ret VNull) ;;
  ret (json (VObj [("configured", VBool (hasCredentials env));
                   ("missing",
                    match missing env with
                    | [] => VUndefined
                    | names => VArr (map VStr names)
                    end);
                   ("lastSync", lastSync);
                   ("message", VStr (if hasCredentials env then configuredMessage
                                     else notConfiguredMessage))])).

End Storage.
End Storage.

(* ===================================================================== *)
(** * src/index.ts *)
(* ===================================================================== *)

Module Index.

(** The bindings [src/index.ts] reads beside those of [Env]. *)
Record WorkerEnv : Type := mkWorkerEnv {
  bindings : Env;
  SANDBOX_SLEEP_AFTER : option string;
  DEBUG_ROUTES : option string;
  ANTHROPIC_API_KEY : option string
}.

(** [{ keepAlive: true }] or [{ sleepAfter }]. *)
Inductive SandboxOptions : Type :=
| KeepAlive
| SleepAfter (sleepAfter : string).

Definition buildSandboxOptions (env : WorkerEnv) : SandboxOptions :=
  let sleepAfter := orDefault (option_map toLowerCase (SANDBOX_SLEEP_AFTER env)) "never" in
  if sleepAfter =? "never" then KeepAlive else SleepAfter sleepAfter.

(** What the proxy reads of the raw request: its [Upgrade] header, and
    the path and query of its URL for the log. *)
Record RawRequest : Type := mkRaw {
  upgrade : option string;
  pathAndSearch : string
}.

(** The two proxy calls of the sandbox SDK, and the port of [../config]. *)
Class Proxy (W : Type) : Type := {
  CLAWDBOT_PORT : Z;
  wsConnect : RawRequest -> Z -> W -> (exn + Response) * W;
  containerFetch : RawRequest -> Z -> W -> (exn + Response) * W
}.

Definition keyHint : string :=
  "ANTHROPIC_API_KEY is not set. Run: wrangler secret put ANTHROPIC_API_KEY".
Definition memoryHint : string :=
  "Gateway ran out of memory. Try again or check for memory leaks.".
Definition defaultHint : string := "Check worker logs with: wrangler tail".

(** The [hint] of the catch block of the proxy route. *)
Definition hintFor (env : WorkerEnv) (errorMessage : string) : string :=
  if negb (truthyStr (ANTHROPIC_API_KEY env)) then keyHint
  else if includes errorMessage "heap out of memory" || includes errorMessage "OOM"
       then memoryHint
       else defaultHint.

(** [request.headers.get('Upgrade')?.toLowerCase() === 'websocket'] *)
Definition isWebSocket (request : RawRequest) : bool :=
  match upgrade request with
  | Some u => toLowerCase u =? "websocket"
  | None => false
  end.

Section Index.
Context {W : Type} `{SB : Sandbox W} `{IM : Imports W} `{PX : Proxy W}.

(** A call of the sandbox SDK that the trace does not record. *)
Definition perform {A} (op : W -> (exn + A) * W) : M W A :=
  fun st =>
    let (r, w') := op (world st) in
    (r, {| world := w'; trace := trace st; background := background st |}).

(** [GET /sandbox-health] *)
Definition sandboxHealth : Response :=
  json (VObj [("status", VStr "ok"); ("service", VStr "clawdbot-sandbox");
              ("gateway_port", VNum CLAWDBOT_PORT)]).

(** The middleware in front of [/debug/*]. *)
Definition debugGate (env : WorkerEnv) (next : M W Response) : M W Response :=
  if negb (match DEBUG_ROUTES env with Some s => s =? "true" | None => false end)
  then ret (jsonWith (VObj [("error", VStr "Debug routes are disabled")]) 404)
  else next.

(** A route under [/debug]: the gate, then the access middleware, then
    the handler. *)
Definition debugRoute (env : WorkerEnv) (c : Auth.Context)
           (handler : Auth.Context -> M W Response) : M W Response :=
  debugGate env
    (Auth.createAccessMiddleware
       {| Auth.type := Auth.TJson; Auth.redirectOnMissing := false |} c handler).

(** A route under [/api/admin]: the access middleware, then the handler. *)
Definition adminRoute (c : Auth.Context)
           (handler : Auth.Context -> M W Response) : M W Response :=
  Auth.createAccessMiddleware
    {| Auth.type := Auth.TJson; Auth.redirectOnMissing := false |} c handler.

(** [app.all('*', ...)]: start the gateway, then proxy. *)
Definition proxyAll (env : WorkerEnv) (request : RawRequest) : M W Response :=
  failed <-
    try_catch
      (call EvEnsureGateway (ensureClawdbotGateway (bindings env)) ;; ret None)
      (fun error =>
         log (EvConsoleError "Failed to start Clawdbot:") ;;
         let errorMessage := errorMessage error in
         ret (Some (jsonWith
                      (VObj [("error", VStr "Clawdbot gateway failed to start");
                             ("details", VStr errorMessage);
                             ("hint", VStr (hintFor env errorMessage))])
                      503))) ;;
  match failed with
  | Some r => ret r
  | None =>
      if isWebSocket request then
        log (EvConsoleLog "Proxying WebSocket connection to Clawdbot") ;;
        log (EvConsoleLog "WebSocket URL:") ;;
        log (EvConsoleLog "WebSocket search params:") ;;
        perform (wsConnect request CLAWDBOT_PORT)
      else
        log (EvConsoleLog "Proxying HTTP request:") ;;
        perform (containerFetch request CLAWDBOT_PORT)
  end.

(** The cron handler [scheduled]. *)
Definition scheduled (env : WorkerEnv) : M W unit :=
  log (EvConsoleLog "[cron] Starting backup sync to R2...") ;;
  result <- Sync.syncToR2 (bindings env) ;;
  if Sync.success result
  then log (EvConsoleLog "[cron] Backup sync completed successfully at")
  else log (EvConsoleError "[cron] Backup sync failed:").

End Index.
End Index.

(* ===================================================================== *)
(** * What a trace and a state show *)
(* ===================================================================== *)

(** The commands of the processes started, in order. *)
Fixpoint started (tr : list event) : list string :=
  match tr with
  | [] => []
  | EvStartProcess cmd :: tr' => cmd :: started tr'
  | _ :: tr' => started tr'
  end.

(** The processes killed, in order. *)
Fixpoint killed (tr : list event) : list string :=
  match tr with
  | [] => []
  | EvKill pid :: tr' => pid :: killed tr'
  | _ :: tr' => killed tr'
  end.

(** The tokens given to [verifyAccessJWT], in order. *)
Fixpoint verified (tr : list event) : list string :=
  match tr with
  | [] => []
  | EvVerifyJWT jwt :: tr' => jwt :: verified tr'
  | _ :: tr' => verified tr'
  end.

(** [n] periods of [ms] milliseconds pass. *)
Fixpoint slept {W : Type} `{Sandbox W} (n : nat) (ms : Z) (w : W) : W :=
  match n with
  | O => w
  | S k => slept k ms (sleep ms w)
  end.

(** No code unit of [s] is [c]. *)
Definition without (c : ascii) (s : string) : Prop :=
  ~ In c (list_ascii_of_string s).

(** The error texts of a failed [SyncResult]. *)
Definition failureTexts : list string :=
  ["R2 storage is not configured"; "Failed to mount R2 storage";
   "Sync aborted: source missing clawdbot.json"; "Failed to verify source files";
   "Sync failed"; "Sync error"].

(** A sandbox that is nothing but a process with [w] more periods to
    run: [status] is ['running'] until they have passed. *)
Module Ticker.

#[export] Instance sandbox : Sandbox nat := {
  startProcess := fun cmd w => (inr {| id := cmd |}, w);
  status := fun _ w => match w with O => "completed" | S _ => "running" end;
  exitCode := fun _ w => match w with O => Some 0%Z | S _ => None end;
  getLogs := fun _ w => (inr {| stdout := Some ""; stderr := Some "" |}, w);
  kill := fun _ _ => (inr tt, 0%nat);
  waitForPort := fun _ _ _ w => (inr tt, w);
  sleep := fun _ w => Nat.pred w
}.

Definition init (w : nat) : St nat := {| world := w; trace := []; background := [] |}.

End Ticker.

(** A sandbox and imported modules of which every call is rejected. *)
Module Broken.

Definition down : exn := ErrorObj "Sandbox is unavailable".

#[export] Instance sandbox : Sandbox unit := {
  startProcess := fun _ w => (inl down, w);
  status := fun _ _ => "failed";
  exitCode := fun _ _ => None;
  getLogs := fun _ w => (inl down, w);
  kill := fun _ w => (inl down, w);
  waitForPort := fun _ _ _ w => (inl down, w);
  sleep := fun _ w => w
}.

#[export] Instance imports : Imports unit := {
  R2_MOUNT_PATH := "/data/clawdbot";
  mountR2Storage := fun _ w => (inl down, w);
  findExistingClawdbotProcess := fun w => (inl down, w);
  ensureClawdbotGateway := fun _ w => (inl down, w);
  verifyAccessJWT := fun _ _ _ w => (inl down, w);
  JSON_parse := fun _ => None
}.

Definition init : St unit := {| world := tt; trace := []; background := [] |}.

End Broken.

(** A sandbox that loses the logs of the mirror process: the source is
    in place, the mirror leaves no marker, and [getLogs] of the mirror
    process is rejected. *)
Module Flaky.

#[export] Instance imports : Imports unit := {
  R2_MOUNT_PATH := "/data/clawdbot";
  mountR2Storage := fun _ w => (inr true, w);
  findExistingClawdbotProcess := fun w => (inr None, w);
  ensureClawdbotGateway := fun _ w => (inr tt, w);
  verifyAccessJWT := fun _ _ _ w => (inl (ErrorObj "Invalid token"), w);
  JSON_parse := fun _ => None
}.

Definition gone : exn := ErrorObj "Process logs are no longer available".

#[export] Instance sandbox : Sandbox unit := {
  startProcess := fun cmd w => (inr {| id := cmd |}, w);
  status := fun _ _ => "completed";
  exitCode := fun _ _ => Some 0%Z;
  getLogs := fun p w =>
    if id p =? Sync.checkCmd then (inr {| stdout := Some "ok"; stderr := Some "" |}, w)
    else if id p =? @Sync.syncCmd unit imports then (inl gone, w)
    else (inr {| stdout := Some ""; stderr := Some "" |}, w);
  kill := fun _ w => (inr tt, w);
  waitForPort := fun _ _ _ w => (inr tt, w);
  sleep := fun _ w => w
}.

Definition init : St unit := {| world := tt; trace := []; background := [] |}.

End Flaky.

(** The mock of the two proxy calls, and more scenarios. *)
Module Scene.

#[global] Instance proxy : Index.Proxy Mock.World := {
  Index.CLAWDBOT_PORT := 18789;
  Index.wsConnect := fun _ _ w =>
    (inr {| code := 101; content := Html "switching protocols" |}, w);
  Index.containerFetch := fun _ _ w =>
    (inr {| code := 200; content := Html "<html>gateway</html>" |}, w)
}.

Definition worker (bindings : Env) (key : option string) : Index.WorkerEnv :=
  {| Index.bindings := bindings; Index.SANDBOX_SLEEP_AFTER := None;
     Index.DEBUG_ROUTES := None; Index.ANTHROPIC_API_KEY := key |}.

(** A sandbox whose gateway cannot boot. *)
Definition unbootable : Mock.World :=
  {| Mock.localFiles := Mock.localFiles Mock.fresh; Mock.durable := [];
     Mock.mirrorWorks := true; Mock.clock := Mock.clock Mock.fresh;
     Mock.cli := Mock.cli Mock.fresh; Mock.gateway := None; Mock.portOpen := true;
     Mock.bootable := false; Mock.mountable := true; Mock.mounted := false;
     Mock.mountError := None |}.

(** A sandbox whose mount cannot be made. *)
Definition unmounted : Mock.World :=
  {| Mock.localFiles := Mock.localFiles Mock.fresh; Mock.durable := [];
     Mock.mirrorWorks := true; Mock.clock := Mock.clock Mock.fresh;
     Mock.cli := Mock.cli Mock.fresh; Mock.gateway := None; Mock.portOpen := true;
     Mock.bootable := true; Mock.mountable := false; Mock.mounted := false;
     Mock.mountError := None |}.

(** The CLI lists paired devices only: no [pending] in the JSON. *)
Definition pairedOnly : Mock.World :=
  Mock.setCli Mock.fresh
    (Mock.answer Routes.listCmd
       (Mock.said ("{" ++ Mock.quoted "paired" ++ ":[]}") 0) (Mock.cli Mock.fresh)).

(** The CLI prints log lines around its JSON. *)
Definition chatty : Mock.World :=
  Mock.setCli Mock.fresh
    (Mock.answer Routes.listCmd
       (Mock.said ("connecting..." ++ Mock.lf
                     ++ "{" ++ Mock.quoted "pending" ++ ":[],"
                     ++ Mock.quoted "paired" ++ ":[" ++ Mock.deviceJson "id9" ++ "]}"
                     ++ Mock.lf ++ "done") 0)
       (Mock.cli Mock.fresh)).

Definition sleepy (duration : option string) : Index.WorkerEnv :=
  {| Index.bindings := Mock.r2Env; Index.SANDBOX_SLEEP_AFTER := duration;
     Index.DEBUG_ROUTES := None; Index.ANTHROPIC_API_KEY := Some "sk-test" |}.

Definition upgrading : Index.RawRequest :=
  {| Index.upgrade := Some "WebSocket"; Index.pathAndSearch := "/ws?token=secret" |}.

Definition plain : Index.RawRequest :=
  {| Index.upgrade := None; Index.pathAndSearch := "/" |}.

(** A request whose only credential is the header [name]. *)
Definition withHeader (e : Env) (name value : string) : Auth.Context :=
  {| Auth.env := e;
     Auth.req := {| Auth.header := fun n => if n =? name then Some value else None;
                    Auth.queryToken := None |};
     Auth.accessUser := None |}.

(** A Worker with a gateway token and Cloudflare Access configured. *)
Definition guarded : Env :=
  {| R2_ACCESS_KEY_ID := None; R2_SECRET_ACCESS_KEY := None; CF_ACCOUNT_ID := None;
     DEV_MODE := None; MOLTBOT_GATEWAY_TOKEN := Some "secret";
     CF_ACCESS_TEAM_DOMAIN := Some "team.example.com";
     CF_ACCESS_AUD := Some "aud" |}.

End Scene.

(* ===================================================================== *)
(** * What the string functions compute *)
(* ===================================================================== *)

Section StringFacts.

(** [String.prefix p s] is: [s] begins with [p]. *)
Lemma prefix_split (p s : string) :
  String.prefix p s = true <-> exists post, s = p ++ post.
Proof.
  revert s; induction p as [|a p IH]; intros s.
  - split; [intros _; exists s; reflexivity|intros _; destruct s; reflexivity].
  - destruct s as [|b s]; cbn.
    + split; [discriminate|intros [post H]; discriminate H].
    + destruct (ascii_dec a b) as [->|Hne].
      * rewrite IH. split; intros [post H]; exists post; [now rewrite H|now injection H].
      * split; [discriminate|intros [post H]; injection H as H1 _; congruence].
Qed.

Lemma includes_cons (c : ascii) (s sub : string) :
  includes (String c s) sub = String.prefix sub (String c s) || includes s sub.
Proof. cbn [includes]. destruct (String.prefix sub (String c s)); reflexivity. Qed.

(** [includes s sub] is: [sub] occurs in [s]. *)
Lemma includes_split (s sub : string) :
  includes s sub = true <-> exists pre post, s = pre ++ sub ++ post.
Proof.
  induction s as [|c s IH].
  - assert (E : includes "" sub = String.prefix sub "").
    { cbn [includes]. destruct (String.prefix sub ""); reflexivity. }
    rewrite E, prefix_split. split.
    + intros [post H]. exists "", post. exact H.
    + intros (pre & post & H). destruct pre; [|discriminate H]. eauto.
  - rewrite includes_cons, orb_true_iff, IH, prefix_split. split.
    + intros [[post H]|(pre & post & ->)].
      * exists "", post. exact H.
      * exists (String c pre), post. reflexivity.
    + intros (pre & post & H). destruct pre as [|a pre]; cbn in H.
      * left. eauto.
      * right. injection H as _ ->. eauto.
Qed.

Lemma append_assoc (a b c : string) : (a ++ b) ++ c = a ++ (b ++ c).
Proof. induction a as [|x a IH]; cbn; [reflexivity|rewrite IH; reflexivity]. Qed.

Lemma fromFirst_at (c : ascii) (pre x : string) :
  exists z, fromFirst c (pre ++ String c x) = Some (String c (z ++ x)).
Proof.
  induction pre as [|a pre IH]; cbn.
  - rewrite Ascii.eqb_refl. exists "". reflexivity.
  - destruct (Ascii.eqb a c) eqn:E.
    + apply Ascii.eqb_eq in E as ->. exists (pre ++ String c ""). 
      rewrite append_assoc. reflexivity.
    + exact IH.
Qed.

Lemma uptoLast_at (c : ascii) (a b : string) :
  uptoLast c (a ++ String c b) <> None.
Proof.
  induction a as [|a0 a IH]; cbn.
  - destruct (uptoLast c b); [discriminate|]. rewrite Ascii.eqb_refl. discriminate.
  - destruct (uptoLast c (a ++ String c b)); [discriminate|contradiction].
Qed.

Lemma fromFirst_suffix (c : ascii) (s t : string) :
  fromFirst c s = Some t -> exists pre rest, s = pre ++ t /\ t = String c rest.
Proof.
  induction s as [|a s IH]; cbn; [discriminate|].
  destruct (Ascii.eqb a c) eqn:E.
  - intros H. injection H as <-. apply Ascii.eqb_eq in E as ->.
    exists "", s. split; reflexivity.
  - intros H. destruct (IH H) as (pre & rest & -> & ->).
    exists (String a pre), rest. split; reflexivity.
Qed.

Lemma uptoLast_prefix (c : ascii) (s r : string) :
  uptoLast c s = Some r -> exists mid post, s = r ++ post /\ r = mid ++ String c "".
Proof.
  revert r; induction s as [|a s IH]; cbn; intros r; [discriminate|].
  destruct (uptoLast c s) as [r'|].
  - intros H. injection H as <-. destruct (IH r' eq_refl) as (mid & post & -> & ->).
    exists (String a mid), post. split; reflexivity.
  - destruct (Ascii.eqb a c) eqn:E; [|discriminate].
    intros H. injection H as <-. apply Ascii.eqb_eq in E as ->.
    exists "", s. split; reflexivity.
Qed.

(** A match of [/\{[\s\S]*\}/] is a part of the text that opens with a
    brace and closes with one. *)
Lemma matchBraces_span (s m : string) :
  matchBraces s = Some m ->
  exists pre mid post, s = pre ++ m ++ post /\ m = "{" ++ mid ++ "}".
Proof.
  unfold matchBraces. destruct (fromFirst "{" s) as [[|a rest]|] eqn:E; try discriminate.
  destruct (uptoLast "}" rest) as [r|] eqn:E'; [|discriminate].
  intros H. injection H as <-.
  destruct (fromFirst_suffix _ _ E) as (pre & rest' & -> & H). injection H as -> <-.
  destruct (uptoLast_prefix _ _ E') as (mid & post & -> & ->).
  exists pre, mid, post. split; reflexivity.
Qed.

(** There is no match exactly when no opening brace of the text is
    followed by a closing one. *)
Lemma matchBraces_none (s : string) :
  matchBraces s = None <->
  forall pre mid post, s <> pre ++ "{" ++ mid ++ "}" ++ post.
Proof.
  split.
  - intros H pre mid post ->. unfold matchBraces in H.
    destruct (fromFirst_at "{" pre (mid ++ "}" ++ post)) as [z Hz].
    cbn in Hz. cbn in H. rewrite Hz in H.
    rewrite <- append_assoc in H.
    pose proof (uptoLast_at "}" (z ++ mid) post) as Hl.
    cbn in H. destruct (uptoLast "}" ((z ++ mid) ++ String "}" post)); [discriminate|contradiction].
  - intros H. destruct (matchBraces s) as [m|] eqn:E; [|reflexivity].
    destruct (matchBraces_span _ E) as (pre & mid & post & -> & ->).
    exfalso. apply (H pre mid post). cbn.
    rewrite !append_assoc. reflexivity.
Qed.



Lemma digits_split (n : nat) (s r : string) :
  digits n s = Some r <-> exists x, s = x ++ r /\ allDigits n x.
Proof.
  revert s; induction n as [|n IH]; intros s; cbn [digits].
  - split.
    + intros H. injection H as ->. exists "". repeat split. intros c [].
    + intros (x & -> & Hlen & _). destruct x; [reflexivity|discriminate Hlen].
  - destruct s as [|c s].
    + split; [discriminate|]. intros (x & H & Hlen & _).
      destruct x; [discriminate Hlen|discriminate H].
    + destruct (isDigit c) eqn:E.
      * rewrite IH. split.
        -- intros (x & -> & Hlen & Hall). exists (String c x). split; [reflexivity|].
           split; [cbn; now rewrite Hlen|].
           intros a [<-|Ha]; [exact E|exact (Hall a Ha)].
        -- intros (x & H & Hlen & Hall). destruct x as [|a x]; [discriminate Hlen|].
           injection H as <- ->. exists x. split; [reflexivity|].
           split; [now injection Hlen|]. intros b Hb. apply Hall. now right.
      * split; [discriminate|]. intros (x & H & Hlen & Hall).
        destruct x as [|a x]; [discriminate Hlen|]. injection H as <- _.
        rewrite (Hall c) in E; [discriminate E|now left].
Qed.

Lemma hyphen_split (s r : string) : hyphen s = Some r <-> s = "-" ++ r.
Proof.
  destruct s as [|c s]; cbn.
  - split; discriminate.
  - destruct (Ascii.eqb c "-") eqn:E.
    + apply Ascii.eqb_eq in E as ->. split; intros H; injection H as ->; reflexivity.
    + split; [discriminate|]. intros H. injection H as -> _. discriminate E.
Qed.

(** [matchIsoDate] is the pattern: four digits, a hyphen, two digits, a
    hyphen, two digits, then anything. *)
Lemma matchIsoDate_shape (s : string) :
  matchIsoDate s = true <->
  exists y m d rest,
    s = y ++ "-" ++ m ++ "-" ++ d ++ rest
    /\ allDigits 4 y /\ allDigits 2 m /\ allDigits 2 d.
Proof.
  unfold matchIsoDate. split.
  - destruct (digits 4 s) as [s1|] eqn:E1; [|discriminate].
    destruct (hyphen s1) as [s2|] eqn:E2; [|discriminate].
    destruct (digits 2 s2) as [s3|] eqn:E3; [|discriminate].
    destruct (hyphen s3) as [s4|] eqn:E4; [|discriminate].
    destruct (digits 2 s4) as [s5|] eqn:E5; [|discriminate].
    intros _.
    apply digits_split in E1 as (y & -> & Hy). apply hyphen_split in E2 as ->.
    apply digits_split in E3 as (m & -> & Hm). apply hyphen_split in E4 as ->.
    apply digits_split in E5 as (d & -> & Hd).
    exists y, m, d, s5. repeat split; try apply Hy; try apply Hm; try apply Hd.
  - intros (y & m & d & rest & -> & Hy & Hm & Hd).
    assert (E1 : digits 4 (y ++ "-" ++ m ++ "-" ++ d ++ rest)
                 = Some ("-" ++ m ++ "-" ++ d ++ rest))
      by (apply digits_split; eauto).
    rewrite E1. cbn [append hyphen Ascii.eqb Bool.eqb].
    assert (E3 : digits 2 (m ++ String "-" (d ++ rest)) = Some (String "-" (d ++ rest)))
      by (apply digits_split; eauto).
    rewrite E3. cbn [hyphen Ascii.eqb Bool.eqb].
    assert (E5 : digits 2 (d ++ rest) = Some rest) by (apply digits_split; eauto).
    rewrite E5. reflexivity.
Qed.

Lemma list_ascii_app (a b : string) :
  list_ascii_of_string (a ++ b)
  = (list_ascii_of_string a ++ list_ascii_of_string b)%list.
Proof. induction a as [|c a IH]; cbn; [reflexivity|]. rewrite IH. reflexivity. Qed.

(** The class [\d] is the ten characters 0 to 9. *)
Lemma isDigit_decimal (c : ascii) :
  isDigit c = true <-> In c (list_ascii_of_string "0123456789").
Proof.
  split.
  - destruct c as [[] [] [] [] [] [] [] []]; intros H;
      first [discriminate H | cbn; repeat first [left; reflexivity | right]].
  - cbn. intros H. repeat destruct H as [<-|H]; try reflexivity. destruct H.
Qed.

(** [matchIsoDate] spelled out on the characters of the text. *)
Lemma matchIsoDate_decimal (s : string) :
  matchIsoDate s = true <->
  exists y m d rest : string,
    s = y ++ "-" ++ m ++ "-" ++ d ++ rest
    /\ String.length y = 4%nat /\ String.length m = 2%nat /\ String.length d = 2%nat
    /\ forall c, In c (list_ascii_of_string (y ++ m ++ d)) ->
                 In c (list_ascii_of_string "0123456789").
Proof.
  rewrite matchIsoDate_shape. split.
  - intros (y & m & d & rest & -> & [Ly Hy] & [Lm Hm] & [Ld Hd]).
    exists y, m, d, rest. repeat split; try assumption.
    intros c Hc. apply isDigit_decimal.
    rewrite !list_ascii_app in Hc.
    apply in_app_or in Hc as [Hc|Hc]; [auto|].
    apply in_app_or in Hc as [Hc|Hc]; auto.
  - intros (y & m & d & rest & -> & Ly & Lm & Ld & Hall).
    exists y, m, d, rest. split; [reflexivity|].
    repeat split; try assumption.
    all: intros c Hc; apply isDigit_decimal, Hall; rewrite !list_ascii_app.
    + apply in_or_app. now left.
    + apply in_or_app. right. apply in_or_app. now left.
    + apply in_or_app. right. apply in_or_app. now right.
Qed.

End StringFacts.

(* ===================================================================== *)
(** * Properties of the sync engine *)
(* ===================================================================== *)

(** Replace a computation by its known outcome and go on. *)
Ltac reduce := cbn [negb fst snd world trace background].

Ltac step H := rewrite H; reduce.

Ltac run := unfold liftE, bind, try_catch, call, spawn, resume, read, pass, log,
                   waitUntil, ret, throw;
            reduce.

Section MonadFacts.
Context {W : Type}.

Lemma bind_run {A B} (c : M W A) (k : A -> M W B) (st st' : St W) (a : A) :
  c st = (inr a, st') -> bind c k st = k a st'.
Proof. intros H. unfold bind. rewrite H. reflexivity. Qed.

Lemma bind_thrown {A B} (c : M W A) (k : A -> M W B) (st st' : St W) (e : exn) :
  c st = (inl e, st') -> bind c k st = (inl e, st').
Proof. intros H. unfold bind. rewrite H. reflexivity. Qed.

Lemma call_run {A} (ev : event) (op : W -> (exn + A) * W)
      (st : St W) (r : exn + A) (w' : W) :
  op (world st) = (r, w') ->
  call ev op st = (r, {| world := w'; trace := (trace st ++ [ev])%list;
                         background := background st |}).
Proof. intros H. unfold call. rewrite H. reflexivity. Qed.

End MonadFacts.

(** The observers of a trace over a trace in two parts. *)
Lemma started_app (a b : list event) :
  started (a ++ b)%list = (started a ++ started b)%list.
Proof.
  induction a as [|ev a IH]; [reflexivity|].
  destruct ev; cbn; rewrite IH; reflexivity.
Qed.

Lemma boots_app (a b : list event) : boots (a ++ b)%list = (boots a + boots b)%nat.
Proof.
  induction a as [|ev a IH]; [reflexivity|].
  destruct ev; cbn; rewrite IH; reflexivity.
Qed.

Lemma killed_app (a b : list event) :
  killed (a ++ b)%list = (killed a ++ killed b)%list.
Proof.
  induction a as [|ev a IH]; [reflexivity|].
  destruct ev; cbn; rewrite IH; reflexivity.
Qed.

Section SyncProperties.
Context {W : Type} `{SB : Sandbox W} `{IM : Imports W}.

Lemma sync_waitLoop_run (n : nat) (p : Process) (st : St W) :
  Sync.waitLoop n p st =
    (inr tt, {| world := Sync.waitedLoop n p (world st);
                trace := trace st; background := background st |}).
Proof.
  revert st; induction n as [|n IH]; intros [w tr bg]; cbn.
  - reflexivity.
  - run. destruct (status p w =? "running").
    + rewrite IH. reflexivity.
    + reflexivity.
Qed.

(** Waiting never throws and is seen in the sandbox state only. *)
Lemma sync_waitForProcess_run (p : Process) (t : Z) (st : St W) :
  Sync.waitForProcess p t st =
    (inr tt, {| world := Sync.waited p t (world st);
                trace := trace st; background := background st |}).
Proof. apply sync_waitLoop_run. Qed.

(** A process that does not run when the wait begins is not waited for. *)
Lemma sync_waited_not_running (p : Process) (t : Z) (w : W) :
  status p w <> "running" -> Sync.waited p t w = w.
Proof.
  intros H. unfold Sync.waited. destruct (ceilDiv t 500); cbn; [reflexivity|].
  apply String.eqb_neq in H. rewrite H. reflexivity.
Qed.

(** The mirror command is not the check command, whatever the mount
    path is. *)
Lemma syncCmd_not_checkCmd : Sync.checkCmd <> Sync.syncCmd.
Proof. unfold Sync.checkCmd, Sync.syncCmd. cbn. discriminate. Qed.

Lemma syncCmd_not_timestampCmd : Sync.timestampCmd <> Sync.syncCmd.
Proof. unfold Sync.timestampCmd, Sync.syncCmd. cbn. discriminate. Qed.

(** The sanity check when the check process ran and its logs were read. *)
Lemma sanityCheck_run (st : St W) (p : Process) (w2 w3 : W) (logs : Logs) :
  startProcess Sync.checkCmd (world st) = (inr p, w2) ->
  getLogs p (Sync.waited p 5000 w2) = (inr logs, w3) ->
  Sync.sanityCheck st =
    (inr (if Sync.seesOk logs then None else Some Sync.sourceMissing),
     {| world := w3;
        trace := trace st ++ [EvStartProcess Sync.checkCmd] ++ [EvGetLogs (id p)];
        background := background st |}).
Proof.
  intros Hs Hl. unfold Sync.sanityCheck. run. step Hs.
  rewrite sync_waitForProcess_run. cbn [fst snd world trace background].
  step Hl. rewrite <- app_assoc.
  destruct (Sync.seesOk logs); reflexivity.
Qed.

(** Waiting changes nothing that the passing of time leaves alone. *)
Lemma sync_waited_frame (D : Type) (f : W -> D) (p : Process) (t : Z) (w : W) :
  (forall ms w, f (sleep ms w) = f w) ->
  f (Sync.waited p t w) = f w.
Proof.
  intros Hsleep. unfold Sync.waited.
  generalize (ceilDiv t 500); intros n; revert w.
  induction n as [|n IH]; intros w; cbn.
  - reflexivity.
  - destruct (status p w =? "running"); [|reflexivity].
    rewrite IH. apply Hsleep.
Qed.

(** C1.  When the sanity check of the source does not see the critical
    file (the standard output of the check process does not contain
    "ok"), [syncToR2] returns the failure 'Sync aborted: source missing
    clawdbot.json', the mirror command is never started, and the content
    under the durable mount is what it was before the call, in every
    sandbox where that content is written by no operation other than
    the start of the mirror command. *)
Theorem sync_aborts_when_source_missing
  (env : Env) (st : St W) (w1 w2 w3 : W) (p : Process) (logs : Logs)
  (D : Type) (durableContent : W -> D)
  (Hmount : forall e w r w',
      mountR2Storage e w = (r, w') -> durableContent w' = durableContent w)
  (Hstart : forall cmd w r w',
      cmd <> Sync.syncCmd ->
      startProcess cmd w = (r, w') -> durableContent w' = durableContent w)
  (Hlogs : forall q w r w',
      getLogs q w = (r, w') -> durableContent w' = durableContent w)
  (Hsleep : forall ms w, durableContent (sleep ms w) = durableContent w) :
  Sync.credentialMissing env = false ->
  mountR2Storage env (world st) = (inr true, w1) ->
  startProcess Sync.checkCmd w1 = (inr p, w2) ->
  getLogs p (Sync.waited p 5000 w2) = (inr logs, w3) ->
  Sync.seesOk logs = false ->
  exists (r : Sync.SyncResult) (st' : St W) (added : list event),
    Sync.syncToR2 env st = (inr r, st')
    /\ Sync.success r = false
    /\ Sync.error r = Some "Sync aborted: source missing clawdbot.json"
    /\ trace st' = (trace st ++ added)%list
    /\ ~ In (EvStartProcess Sync.syncCmd) added
    /\ durableContent (world st') = durableContent (world st).
Proof.
  intros Hcfg Hm Hs Hl Hok.
  exists Sync.sourceMissing.
  eexists. exists [EvMountR2Storage; EvStartProcess Sync.checkCmd; EvGetLogs (id p)].
  unfold Sync.syncToR2. rewrite Hcfg. run. step Hm.
  rewrite (@sanityCheck_run _ p w2 w3 logs); reduce; [|exact Hs|exact Hl].
  step Hok.
  split; [reflexivity|]. split; [reflexivity|]. split; [reflexivity|].
  split; [rewrite <- !app_assoc; reflexivity|]. split.
  - intros [H|[H|[H|[]]]]; try discriminate H.
    all: injection H as H; exact (syncCmd_not_checkCmd H).
  - reduce. rewrite (Hlogs _ _ _ _ Hl), sync_waited_frame by exact Hsleep.
    rewrite (Hstart _ _ _ _ syncCmd_not_checkCmd Hs).
    exact (Hmount _ _ _ _ Hm).
Qed.

(** The test of the marker, spelled out on the characters of the text:
    four digits, a hyphen, two digits, a hyphen, two digits, then
    anything. *)
Lemma markerOk_decimal (t : option string) :
  Sync.markerOk t = true <->
  exists y m d rest : string,
    t = Some (y ++ "-" ++ m ++ "-" ++ d ++ rest)
    /\ String.length y = 4%nat /\ String.length m = 2%nat
    /\ String.length d = 2%nat
    /\ forall c, In c (list_ascii_of_string (y ++ m ++ d)) ->
                 In c (list_ascii_of_string "0123456789").
Proof.
  unfold Sync.markerOk. destruct t as [text|].
  - rewrite andb_true_iff, matchIsoDate_decimal. split.
    + intros (_ & y & m & d & rest & -> & H). exists y, m, d, rest.
      split; [reflexivity|exact H].
    + intros (y & m & d & rest & Ht' & Ly & H). injection Ht' as ->. split.
      * destruct y; [discriminate Ly|reflexivity].
      * exists y, m, d, rest. split; [reflexivity|]. split; assumption.
  - split; [discriminate|]. intros (y & m & d & rest & Ht' & _). discriminate Ht'.
Qed.

(** The mirror step when its two processes start and the logs of the
    re-read are obtained. *)
Lemma mirror_run (st : St W) (p tp : Process) (w4 w5 w6 : W) (tlogs : Logs) :
  startProcess Sync.syncCmd (world st) = (inr p, w4) ->
  startProcess Sync.timestampCmd (Sync.waited p 30000 w4) = (inr tp, w5) ->
  getLogs tp (Sync.waited tp 5000 w5) = (inr tlogs, w6) ->
  let t := option_map trim (stdout tlogs) in
  let st6 := {| world := w6;
                trace := (trace st ++ [EvStartProcess Sync.syncCmd;
                                       EvStartProcess Sync.timestampCmd;
                                       EvGetLogs (id tp)])%list;
                background := background st |} in
  Sync.mirror st =
    if Sync.markerOk t then (inr (Sync.succeeded t), st6)
    else
      match getLogs p w6 with
      | (inr logs, w7) =>
          (inr {| Sync.success := false; Sync.lastSync := None;
                  Sync.error := Some "Sync failed";
                  Sync.details :=
                    Some (orDefault (orStr (stderr logs) (stdout logs))
                                    "No timestamp file created") |},
           {| world := w7; trace := (trace st6 ++ [EvGetLogs (id p)])%list;
              background := background st |})
      | (inl e, w7) =>
          (inr {| Sync.success := false; Sync.lastSync := None;
                  Sync.error := Some "Sync error";
                  Sync.details := Some (errorMessage e) |},
           {| world := w7; trace := (trace st6 ++ [EvGetLogs (id p)])%list;
              background := background st |})
      end.
Proof.
  intros Hs Ht Hl t st6. unfold Sync.mirror. run. step Hs.
  rewrite sync_waitForProcess_run. reduce. step Ht.
  rewrite sync_waitForProcess_run. reduce. step Hl.
  fold t. subst st6. rewrite <- !app_assoc. cbn [app].
  destruct (Sync.markerOk t); [reflexivity|].
  reduce. destruct (getLogs p w6) as [[e|logs] w7]; reflexivity.
Qed.

(** C2.  When [syncToR2] reaches the mirror step and re-reads the marker
    file, it returns success exactly when the trimmed text [t] it read
    begins with four digits, a hyphen, two digits, a hyphen and two
    digits (so is not empty), and the success carries [t] as [lastSync].
    When [t] fails the pattern the logs of the mirror process are asked
    for: the result is the failure 'Sync failed', whatever those logs
    say, when they are obtained, and the failure 'Sync error' when
    [getLogs] is rejected. *)
Theorem sync_succeeds_iff_marker_valid
  (env : Env) (st : St W) (w1 w2 w3 w4 w5 w6 : W)
  (cp p tp : Process) (clogs tlogs : Logs) :
  Sync.credentialMissing env = false ->
  mountR2Storage env (world st) = (inr true, w1) ->
  startProcess Sync.checkCmd w1 = (inr cp, w2) ->
  getLogs cp (Sync.waited cp 5000 w2) = (inr clogs, w3) ->
  Sync.seesOk clogs = true ->
  startProcess Sync.syncCmd w3 = (inr p, w4) ->
  startProcess Sync.timestampCmd (Sync.waited p 30000 w4) = (inr tp, w5) ->
  getLogs tp (Sync.waited tp 5000 w5) = (inr tlogs, w6) ->
  let t := option_map trim (stdout tlogs) in
  exists (r : Sync.SyncResult) (st' : St W),
    Sync.syncToR2 env st = (inr r, st')
    /\ (Sync.success r = true <->
        exists y m d rest : string,
          t = Some (y ++ "-" ++ m ++ "-" ++ d ++ rest)
          /\ String.length y = 4%nat /\ String.length m = 2%nat
          /\ String.length d = 2%nat
          /\ forall c, In c (list_ascii_of_string (y ++ m ++ d)) ->
                       In c (list_ascii_of_string "0123456789"))
    /\ (Sync.success r = true ->
        r = {| Sync.success := true; Sync.lastSync := t;
               Sync.error := None; Sync.details := None |})
    /\ (Sync.success r = false ->
        match getLogs p w6 with
        | (inr logs, _) =>
            r = {| Sync.success := false; Sync.lastSync := None;
                   Sync.error := Some "Sync failed";
                   Sync.details :=
                     Some (orDefault (orStr (stderr logs) (stdout logs))
                                     "No timestamp file created") |}
        | (inl e, _) =>
            r = {| Sync.success := false; Sync.lastSync := None;
                   Sync.error := Some "Sync error";
                   Sync.details := Some (errorMessage e) |}
        end).
Proof.
  intros Hcfg Hm Hc Hcl Hok Hs Ht Hl t.
  unfold Sync.syncToR2. rewrite Hcfg. run. step Hm.
  rewrite (@sanityCheck_run _ cp w2 w3 clogs); reduce; [|exact Hc|exact Hcl].
  step Hok.
  rewrite (@mirror_run _ p tp w4 w5 w6 tlogs); reduce; [|exact Hs|exact Ht|exact Hl].
  fold t.
  pose proof (markerOk_decimal t) as Hiff.
  destruct (Sync.markerOk t) eqn:Hmk.
  - do 2 eexists. split; [reflexivity|]. cbn. split; [|split].
    + split; [intros _; apply Hiff; reflexivity|reflexivity].
    + reflexivity.
    + discriminate.
  - destruct (getLogs p w6) as [[e|logs] w7] eqn:Hg.
    + do 2 eexists. split; [reflexivity|]. cbn. split; [|split].
      * split; [discriminate|intros H; apply Hiff in H; discriminate H].
      * discriminate.
      * reflexivity.
    + do 2 eexists. split; [reflexivity|]. cbn. split; [|split].
      * split; [discriminate|intros H; apply Hiff in H; discriminate H].
      * discriminate.
      * reflexivity.
Qed.

End SyncProperties.

(* ===================================================================== *)
(** * Properties of the API routes *)
(* ===================================================================== *)

Section RoutesProperties.
Context {W : Type} `{SB : Sandbox W} `{IM : Imports W}.

Lemma routes_waitLoop_run (n : nat) (p : Process) (st : St W) :
  Routes.waitLoop n p st =
    (inr tt, {| world := Routes.waitedLoop n p (world st);
                trace := trace st; background := background st |}).
Proof.
  revert st; induction n as [|n IH]; intros [w tr bg]; cbn.
  - reflexivity.
  - run. destruct (status p (sleep Routes.CLI_POLL_INTERVAL_MS w) =? "running"); reduce.
    + rewrite IH. reflexivity.
    + reflexivity.
Qed.

(** Waiting for a CLI process never throws and is seen in the sandbox
    state only. *)
Lemma routes_waitForProcess_run (p : Process) (t : Z) (st : St W) :
  Routes.waitForProcess p t st =
    (inr tt, {| world := Routes.waited p t (world st);
                trace := trace st; background := background st |}).
Proof. apply routes_waitLoop_run. Qed.

(** The wait of the routes sleeps once before it looks at the process. *)
Lemma routes_waited_not_running (p : Process) (t : Z) (w : W) :
  (0 < t)%Z ->
  status p (sleep Routes.CLI_POLL_INTERVAL_MS w) <> "running" ->
  Routes.waited p t w = sleep Routes.CLI_POLL_INTERVAL_MS w.
Proof.
  intros Ht H. unfold Routes.waited.
  assert (Hpos : (0 < ceilDiv t Routes.CLI_POLL_INTERVAL_MS)%nat).
  { unfold ceilDiv, Routes.CLI_POLL_INTERVAL_MS.
    assert (1 <= (t + 500 - 1) / 500)%Z by (apply Z.div_le_lower_bound; lia).
    lia. }
  destruct (ceilDiv t Routes.CLI_POLL_INTERVAL_MS); [lia|]. cbn.
  apply String.eqb_neq in H. rewrite H. reflexivity.
Qed.

(** C4.  A single-device approval that captures the output of the CLI
    reports success exactly when the lowercased standard output
    contains 'approved' or the exit code is zero; standard output
    "Approved device X" with exit code 1 is reported as success. *)
Theorem approve_success_is_keyword_or_exit_zero
  (env : Env) (rid : string) (st : St W) (w1 w2 w3 : W)
  (p : Process) (logs : Logs) :
  rid <> "" ->
  ensureClawdbotGateway env (world st) = (inr tt, w1) ->
  startProcess (Routes.approveCmd rid) w1 = (inr p, w2) ->
  getLogs p (Routes.waited p Routes.CLI_TIMEOUT_MS w2) = (inr logs, w3) ->
  let out := orDefault (stdout logs) "" in
  exists (resp : Response) (st' : St W),
    Routes.postApprove env (Some rid) st = (inr resp, st')
    /\ code resp = 200%Z
    /\ (field "success" resp = VBool true \/ field "success" resp = VBool false)
    /\ (field "success" resp = VBool true <->
        includes (toLowerCase out) "approved" = true \/ exitCode p w3 = Some 0%Z)
    /\ (stdout logs = Some "Approved device X" ->
        exitCode p w3 = Some 1%Z ->
        field "success" resp = VBool true).
Proof.
  intros Hrid He Hs Hl out.
  unfold Routes.postApprove.
  assert (Ht : truthyStr (Some rid) = true).
  { cbn. apply negb_true_iff, String.eqb_neq, Hrid. }
  rewrite Ht. reduce.
  assert (Hd : orDefault (Some rid) "" = rid).
  { cbn. apply String.eqb_neq in Hrid. rewrite Hrid. reflexivity. }
  rewrite Hd. run. step He. step Hs.
  rewrite routes_waitForProcess_run. reduce. step Hl. fold out.
  do 2 eexists. split; [reflexivity|]. split; [reflexivity|].
  unfold field, bodyOf. cbn [content json lookup String.eqb Ascii.eqb Bool.eqb].
  unfold Routes.approved. split; [|split].
  - destruct (_ || _); auto.
  - split.
    + intros H. injection H as H. apply orb_true_iff in H as [H|H]; [left; exact H|].
      right. destruct (exitCode p w3) as [z|]; [|discriminate].
      apply Z.eqb_eq in H. subst z. reflexivity.
    + intros [H|H]; rewrite H; [reflexivity|].
      rewrite orb_true_r. reflexivity.
  - intros Hout _. subst out. rewrite Hout. reflexivity.
Qed.

(** The listing never throws: every failure becomes a response. *)
Lemma getDevices_total (env : Env) (st : St W) :
  exists (resp : Response) (st' : St W),
    Routes.getDevices env st = (inr resp, st').
Proof.
  unfold Routes.getDevices. run.
  destruct (ensureClawdbotGateway env (world st)) as [[e|[]] w1]; reduce;
    [do 2 eexists; reflexivity|].
  destruct (startProcess Routes.listCmd w1) as [[e|p] w2]; reduce;
    [do 2 eexists; reflexivity|].
  rewrite routes_waitForProcess_run. reduce.
  destruct (getLogs p _) as [[e|logs] w3]; reduce; do 2 eexists; reflexivity.
Qed.

(** C5, as the code has it.  The listing never throws.  When the
    captured standard output has no span from an opening to a closing
    brace, the response has empty [pending] and [paired], the raw
    output and [stderr], and no [parseError]; when it has such a span
    and the span does not decode, the response has the same fields and
    [parseError] set. *)
Theorem listing_of_undecodable_output (env : Env) (st : St W) :
  (exists (resp : Response) (st' : St W),
      Routes.getDevices env st = (inr resp, st'))
  /\ (forall (w1 w2 w3 : W) (p : Process) (logs : Logs),
        ensureClawdbotGateway env (world st) = (inr tt, w1) ->
        startProcess Routes.listCmd w1 = (inr p, w2) ->
        getLogs p (Routes.waited p Routes.CLI_TIMEOUT_MS w2) = (inr logs, w3) ->
        let out := orDefault (stdout logs) "" in
        let err := orDefault (stderr logs) "" in
        (matchBraces out = None ->
         fst (Routes.getDevices env st) =
           inr (json (VObj [("pending", VArr []); ("paired", VArr []);
                            ("raw", VStr out); ("stderr", VStr err)])))
        /\ (forall m : string,
              matchBraces out = Some m ->
              JSON_parse m = None ->
              fst (Routes.getDevices env st) =
                inr (json (VObj [("pending", VArr []); ("paired", VArr []);
                                 ("raw", VStr out); ("stderr", VStr err);
                                 ("parseError", VStr "Failed to parse CLI output")])))).
Proof.
  split; [apply getDevices_total|].
  intros w1 w2 w3 p logs He Hs Hl out err.
  unfold Routes.getDevices. run. step He. step Hs.
  rewrite routes_waitForProcess_run. reduce. step Hl.
  fold out. fold err. unfold Routes.listingOf. split.
  - intros Hm. rewrite Hm. reflexivity.
  - intros m Hm Hp. rewrite Hm, Hp. reflexivity.
Qed.

(** C6.  The health endpoint answers [not_running] without a process
    id when no process is found; [not_responding] with the id of the
    process when one is found and the wait for its port fails;
    [running] with the id when the port answers. *)
Theorem status_reports_process_state (st : St W) :
  (forall w1 : W,
      findExistingClawdbotProcess (world st) = (inr None, w1) ->
      exists resp : Response,
        fst (Routes.getStatus st) = inr resp
        /\ resp = json (VObj [("ok", VBool false); ("status", VStr "not_running")])
        /\ hasKey "processId" resp = false)
  /\ (forall (p : Process) (w1 w2 : W) (e : exn),
        findExistingClawdbotProcess (world st) = (inr (Some p), w1) ->
        waitForPort p 18789 5000 w1 = (inl e, w2) ->
        fst (Routes.getStatus st) =
          inr (json (VObj [("ok", VBool false); ("status", VStr "not_responding");
                           ("processId", VStr (id p))])))
  /\ (forall (p : Process) (w1 w2 : W),
        findExistingClawdbotProcess (world st) = (inr (Some p), w1) ->
        waitForPort p 18789 5000 w1 = (inr tt, w2) ->
        fst (Routes.getStatus st) =
          inr (json (VObj [("ok", VBool true); ("status", VStr "running");
                           ("processId", VStr (id p))]))).
Proof.
  unfold Routes.getStatus. run. repeat split.
  - intros w1 Hf. step Hf. eexists. repeat split.
  - intros p w1 w2 e Hf Hw. step Hf. step Hw. reflexivity.
  - intros p w1 w2 Hf Hw. step Hf. step Hw. reflexivity.
Qed.

(** C8.  A restart while no gateway process exists answers at once with
    [success: true] and [previousProcessId: undefined]: nothing is
    killed, the handler calls [ensureClawdbotGateway] exactly once and
    does not await it (the sandbox is as the lookup left it, the boot
    has not yet acted on it), and the one promise of that call is handed
    to [waitUntil].  In the background that promise does the work of
    the boot on the sandbox without a second call, and is never
    rejected: a failed boot is logged by its [.catch]. *)
Theorem restart_without_process (env : Env) (st : St W) (w1 : W) :
  findExistingClawdbotProcess (world st) = (inr None, w1) ->
  exists (resp : Response) (st' : St W),
    Routes.postRestart env st = (inr resp, st')
    /\ st' = {| world := w1;
                trace := (trace st ++ [EvFindProcess; EvEnsureGateway])%list;
                background := (background st ++ [BootGateway env])%list |}
    /\ boots (trace st') = S (boots (trace st))
    /\ killed (trace st') = killed (trace st)
    /\ resp = json (VObj [("success", VBool true);
                          ("message",
                           VStr "No existing process found, starting new instance...");
                          ("previousProcessId", VUndefined)])
    /\ code resp = 200%Z
    /\ field "success" resp = VBool true
    /\ hasKey "previousProcessId" resp = true
    /\ field "previousProcessId" resp = VUndefined
    /\ forall st1 : St W,
        exists (outcome : exn + unit) (w2 : W) (st2 : St W),
          ensureClawdbotGateway env (world st1) = (outcome, w2)
          /\ Routes.settle (BootGateway env) st1 = (inr tt, st2)
          /\ world st2 = w2
          /\ background st2 = background st1
          /\ boots (trace st2) = boots (trace st1)
          /\ trace st2 =
               (trace st1 ++ match outcome with
                             | inr _ => []
                             | inl _ => [EvConsoleError "Gateway restart failed:"]
                             end)%list.
Proof.
  intros Hf. unfold Routes.postRestart. run. step Hf.
  rewrite <- app_assoc. cbn [app].
  do 2 eexists. split; [reflexivity|]. split; [reflexivity|].
  split; [cbn [trace]; rewrite boots_app; cbn; lia|].
  split; [cbn [trace]; rewrite killed_app; cbn; apply app_nil_r|].
  repeat (split; [reflexivity|]).
  intros st1. unfold Routes.settle. run.
  destruct (ensureClawdbotGateway env (world st1)) as [[e|[]] w2]; reduce.
  - do 3 eexists. split; [reflexivity|]. split; [reflexivity|].
    repeat split. cbn [trace]. rewrite boots_app. cbn. lia.
  - do 3 eexists. split; [reflexivity|]. split; [reflexivity|].
    repeat split. cbn [trace]. symmetry. apply app_nil_r.
Qed.





End RoutesProperties.

(* ===================================================================== *)
(** * Properties of the storage mount manager *)
(* ===================================================================== *)

Section MountProperties.
Context {W : Type}.
Variable mountTableShows : W -> bool.
Variable mountBucket : Env -> W -> (exn + unit) * W.

(** One call issues at most one mount request. *)
Lemma ensureMounted_at_most_one (c : Env) (w : W) :
  (List.length (snd (Mount.ensureMounted mountTableShows mountBucket c w)) <= 1)%nat.
Proof.
  unfold Mount.ensureMounted.
  destruct (mountTableShows w); cbn; [lia|].
  destruct (mountBucket c w) as [[e|[]] w']; cbn; [|lia].
  destruct (includes (errorMessage e) "already in use"); cbn; lia.
Qed.

(** C9, as the manager of section 4.3 has it.  When the mount table
    shows the path, [ensureMounted] returns success and neither changes
    the state nor issues a mount request, and so does a second call.
    Otherwise it issues one mount request: a request that succeeds is
    success, a request that fails with "already in use" is success, and
    any other failure is surfaced as it is.  Two calls in succession
    both return success and issue one mount request in all when the
    first request succeeds or is answered "already in use" and the
    mount table then shows the path; and whatever the first call did,
    when the table shows the path after it the second call returns
    success and the two calls issue at most one request. *)
Theorem ensureMounted_idempotent_once_mounted (c : Env) (w : W) :
  (mountTableShows w = true ->
   Mount.ensureMounted mountTableShows mountBucket c w = (inr true, w, [])
   /\ Mount.ensureMountedTwice mountTableShows mountBucket c w
      = (inr true, inr true, w, []))
  /\ (forall w1 : W,
        mountTableShows w = false ->
        mountBucket c w = (inr tt, w1) ->
        Mount.ensureMounted mountTableShows mountBucket c w
        = (inr true, w1, [Mount.EvMountBucket]))
  /\ (forall (pre post : string) (w1 : W),
        mountTableShows w = false ->
        mountBucket c w = (inl (ErrorObj (pre ++ "already in use" ++ post)), w1) ->
        Mount.ensureMounted mountTableShows mountBucket c w
        = (inr true, w1, [Mount.EvMountBucket]))
  /\ (forall (e : exn) (w1 : W),
        mountTableShows w = false ->
        mountBucket c w = (inl e, w1) ->
        (forall pre post : string,
            errorMessage e <> pre ++ "already in use" ++ post) ->
        Mount.ensureMounted mountTableShows mountBucket c w
        = (inl e, w1, [Mount.EvMountBucket]))
  /\ (forall (r : exn + unit) (w1 : W),
        mountTableShows w = false ->
        mountBucket c w = (r, w1) ->
        r = inr tt
        \/ (exists pre post : string,
               r = inl (ErrorObj (pre ++ "already in use" ++ post))) ->
        mountTableShows w1 = true ->
        Mount.ensureMountedTwice mountTableShows mountBucket c w
        = (inr true, inr true, w1, [Mount.EvMountBucket]))
  /\ (forall (r1 r2 : exn + bool) (w1 w2 : W) (first requests : list Mount.mountEvent),
        Mount.ensureMounted mountTableShows mountBucket c w = (r1, w1, first) ->
        Mount.ensureMountedTwice mountTableShows mountBucket c w
        = (r1, r2, w2, requests) ->
        mountTableShows w1 = true ->
        r2 = inr true /\ w2 = w1 /\ requests = first
        /\ (List.length requests <= 1)%nat).
Proof.
  assert (Hin : forall pre post : string,
             includes (pre ++ "already in use" ++ post) "already in use" = true)
    by (intros; apply includes_split; eauto).
  split; [|split; [|split; [|split; [|split]]]].
  - intros H. unfold Mount.ensureMountedTwice, Mount.ensureMounted.
    rewrite H. cbv iota beta. rewrite H. split; reflexivity.
  - intros w1 Hn Hm. unfold Mount.ensureMounted. rewrite Hn, Hm. reflexivity.
  - intros pre post w1 Hn Hm. unfold Mount.ensureMounted.
    rewrite Hn, Hm. cbn [errorMessage]. rewrite Hin. reflexivity.
  - intros e w1 Hn Hm Hnot. unfold Mount.ensureMounted. rewrite Hn, Hm.
    destruct (includes (errorMessage e) "already in use") eqn:E; [|reflexivity].
    apply includes_split in E as (pre & post & E). destruct (Hnot pre post E).
  - intros r w1 Hn Hm Hr Hshown.
    unfold Mount.ensureMountedTwice, Mount.ensureMounted. rewrite Hn, Hm.
    destruct Hr as [->|(pre & post & ->)]; cbv iota beta.
    + rewrite Hshown. reflexivity.
    + cbn [errorMessage]. rewrite Hin. cbv iota beta. rewrite Hshown. reflexivity.
  - intros r1 r2 w1 w2 first requests H1 H2 Hshown.
    unfold Mount.ensureMountedTwice in H2. rewrite H1 in H2.
    unfold Mount.ensureMounted in H2 at 1. rewrite Hshown in H2.
    rewrite app_nil_r in H2. injection H2 as <- <- <-.
    repeat split.
    pose proof (ensureMounted_at_most_one c w) as Hle.
    rewrite H1 in Hle. exact Hle.
Qed.

End MountProperties.

(* ===================================================================== *)
(** * Properties of the access middleware *)
(* ===================================================================== *)

Section AuthProperties.
Context {W : Type} `{IM : Imports W}.

(** C10.  When [DEV_MODE] is the string 'true', the middleware sets the
    user [dev@localhost] / [Dev User] and runs the rest of the chain,
    whatever the request carries and whatever the other bindings are:
    it compares no gateway token and verifies no JWT, so that over a
    handler that does nothing the state and the trace are unchanged. *)
Theorem dev_mode_skips_authentication
  (options : Auth.AccessMiddlewareOptions) (c : Auth.Context)
  (next : Auth.Context -> M W Response) :
  DEV_MODE (Auth.env c) = Some "true" ->
  Auth.createAccessMiddleware options c next =
    next {| Auth.env := Auth.env c; Auth.req := Auth.req c;
            Auth.accessUser := Some {| Auth.userEmail := VStr "dev@localhost";
                                       Auth.userName := VStr "Dev User" |} |}
  /\ forall (resp : Response) (st : St W),
      Auth.createAccessMiddleware options c (fun _ => ret resp) st = (inr resp, st).
Proof.
  intros H. unfold Auth.createAccessMiddleware, Auth.isDevMode.
  rewrite H. cbn. split; reflexivity.
Qed.

End AuthProperties.

(* ===================================================================== *)
(** * The theorems on the mock sandbox *)
(* ===================================================================== *)

(** In the mock, the files under the mount path are written by the
    mirror command alone. *)
Lemma mock_mount_frame (e : Env) (w : Mock.World) (r : exn + bool) (w' : Mock.World) :
  mountR2Storage e w = (r, w') -> Mock.durable w' = Mock.durable w.
Proof. cbn. intros H. injection H as _ <-. reflexivity. Qed.

Lemma mock_start_frame (cmd : string) (w : Mock.World) (r : exn + Process) (w' : Mock.World) :
  cmd <> Sync.syncCmd ->
  startProcess cmd w = (r, w') -> Mock.durable w' = Mock.durable w.
Proof.
  intros Hne. change (startProcess cmd w) with (Mock.start cmd w).
  unfold Mock.start.
  destruct (cmd =? Sync.checkCmd); [intros H; injection H as _ <-; reflexivity|].
  destruct (cmd =? Sync.timestampCmd); [intros H; injection H as _ <-; reflexivity|].
  destruct (cmd =? Sync.syncCmd) eqn:E; [apply String.eqb_eq in E; contradiction|].
  destruct (Mock.cli w cmd); intros H; injection H as _ <-; reflexivity.
Qed.

Lemma mock_logs_frame (q : Process) (w : Mock.World) (r : exn + Logs) (w' : Mock.World) :
  getLogs q w = (r, w') -> Mock.durable w' = Mock.durable w.
Proof.
  change (getLogs q w) with (Mock.logsOf q w). unfold Mock.logsOf.
  destruct (id q =? Sync.checkCmd); [intros H; injection H as _ <-; reflexivity|].
  destruct (id q =? Sync.timestampCmd); [intros H; injection H as _ <-; reflexivity|].
  destruct (id q =? Sync.syncCmd); [intros H; injection H as _ <-; reflexivity|].
  destruct (Mock.cli w (id q)); intros H; injection H as _ <-; reflexivity.
Qed.

Lemma mock_sleep_frame (ms : Z) (w : Mock.World) :
  Mock.durable (sleep ms w) = Mock.durable w.
Proof. reflexivity. Qed.

(** C1 on a sandbox whose local directory lost its files while a good
    backup is under the mount: the sync aborts and the backup stays. *)
Lemma sync_aborts_when_source_missing_witness :
  exists (r : Sync.SyncResult) (st' : St Mock.World) (added : list event),
    Sync.syncToR2 Mock.r2Env (Mock.init Mock.emptied) = (inr r, st')
    /\ Sync.success r = false
    /\ Sync.error r = Some "Sync aborted: source missing clawdbot.json"
    /\ trace st' = (trace (Mock.init Mock.emptied) ++ added)%list
    /\ ~ In (EvStartProcess Sync.syncCmd) added
    /\ Mock.durable (world st') = Mock.durable (world (Mock.init Mock.emptied)).
Proof.
  eapply (@sync_aborts_when_source_missing
            Mock.World Mock.sandbox Mock.imports Mock.r2Env (Mock.init Mock.emptied)
            _ _ _ _ _ _ Mock.durable
            mock_mount_frame mock_start_frame mock_logs_frame mock_sleep_frame);
    reflexivity.
Defined.

(** C2 on a fresh sandbox, where the marker the mirror wrote is re-read
    and the sync succeeds with it, and on a sandbox whose mirror leaves
    no marker, where the sync is 'Sync failed'. *)
Lemma sync_succeeds_iff_marker_valid_witness :
  fst (Sync.syncToR2 Mock.r2Env (Mock.init Mock.fresh)) =
    inr {| Sync.success := true;
           Sync.lastSync := Some "2026-01-02T03:04:05+00:00";
           Sync.error := None; Sync.details := None |}
  /\ fst (Sync.syncToR2 Mock.r2Env (Mock.init Mock.stalled)) =
       inr {| Sync.success := false; Sync.lastSync := None;
              Sync.error := Some "Sync failed";
              Sync.details := Some "No timestamp file created" |}.
Proof.
  split.
  - destruct (@sync_succeeds_iff_marker_valid
                Mock.World Mock.sandbox Mock.imports Mock.r2Env (Mock.init Mock.fresh)
                _ _ _ _ _ _ _ _ _ _ _
                eq_refl eq_refl eq_refl eq_refl eq_refl eq_refl eq_refl eq_refl)
      as (r & st' & Hrun & Hiff & Hshape & _).
    rewrite Hrun. cbn [fst]. f_equal. apply Hshape, Hiff.
    exists "2026", "01", "02", "T03:04:05+00:00". split; [reflexivity|].
    repeat split.
    cbn. intros c Hc. repeat destruct Hc as [<-|Hc]; cbn; tauto.
  - destruct (@sync_succeeds_iff_marker_valid
                Mock.World Mock.sandbox Mock.imports Mock.r2Env (Mock.init Mock.stalled)
                _ _ _ _ _ _ _ _ _ _ _
                eq_refl eq_refl eq_refl eq_refl eq_refl eq_refl eq_refl eq_refl)
      as (r & st' & Hrun & Hiff & _ & Hfail).
    rewrite Hrun. cbn [fst]. f_equal. apply Hfail.
    destruct (Sync.success r); [|reflexivity].
    destruct (proj1 Hiff eq_refl) as (y & m & d & rest & Ht & Ly & _).
    destruct y; [discriminate Ly|discriminate Ht].
Defined.

(** C2 as stated fails where the logs of the mirror process cannot be
    read: the mirror step is reached, the marker that is re-read is
    empty and so fails the pattern, and the result is 'Sync error', not
    'Sync failed'. *)
Lemma sync_error_when_mirror_logs_are_lost :
  exists st' : St unit,
    @Sync.syncToR2 unit Flaky.sandbox Flaky.imports Mock.r2Env Flaky.init =
      (inr {| Sync.success := false; Sync.lastSync := None;
              Sync.error := Some "Sync error";
              Sync.details := Some "Process logs are no longer available" |}, st')
    /\ started (trace st')
       = [Sync.checkCmd; @Sync.syncCmd unit Flaky.imports;
          @Sync.timestampCmd unit Flaky.imports]
    /\ fst (@getLogs unit Flaky.sandbox
                     {| id := @Sync.timestampCmd unit Flaky.imports |} tt)
       = inr {| stdout := Some ""; stderr := Some "" |}.
Proof. eexists. repeat split. Qed.

(** With the source in place the mirror does write under the mount. *)
Example sync_mirrors_when_source_present :
  Mock.durable (world (snd (Sync.syncToR2 Mock.r2Env (Mock.init Mock.fresh)))) =
    [("clawdbot.json", "{}"); (".last-sync", "2026-01-02T03:04:05+00:00" ++ Mock.lf)]
  /\ trace (snd (Sync.syncToR2 Mock.r2Env (Mock.init Mock.fresh))) =
       [EvMountR2Storage;
        EvStartProcess Sync.checkCmd; EvGetLogs Sync.checkCmd;
        EvStartProcess Sync.syncCmd;
        EvStartProcess Sync.timestampCmd; EvGetLogs Sync.timestampCmd].
Proof. split; reflexivity. Qed.

(** The other side of C2, run: a mirror that leaves no marker is a
    failure although the mirror process reported nothing. *)
Example sync_fails_without_marker :
  fst (Sync.syncToR2 Mock.r2Env (Mock.init Mock.stalled)) =
    inr {| Sync.success := false; Sync.lastSync := None;
           Sync.error := Some "Sync failed";
           Sync.details := Some "No timestamp file created" |}.
Proof. reflexivity. Qed.

(** The server-error side of C3, run: an aborted sync is answered 500. *)
Example sync_abort_is_server_error :
  option_map code
    (match fst (Routes.postStorageSync Mock.r2Env (Mock.init Mock.emptied)) with
     | inr resp => Some resp
     | inl _ => None
     end) = Some 500%Z.
Proof. reflexivity. Qed.

(** C4 on the example of the specification: "Approved device X" with
    exit code 1. *)
Lemma approve_success_is_keyword_or_exit_zero_witness :
  exists (resp : Response) (st' : St Mock.World),
    Routes.postApprove Mock.r2Env (Some "dev-1") (Mock.init Mock.approving)
      = (inr resp, st')
    /\ code resp = 200%Z
    /\ field "success" resp = VBool true.
Proof.
  destruct (@approve_success_is_keyword_or_exit_zero
              Mock.World Mock.sandbox Mock.imports Mock.r2Env "dev-1"
              (Mock.init Mock.approving) _ _ _ _ _
              ltac:(discriminate) eq_refl eq_refl eq_refl)
    as (resp & st' & Hrun & Hcode & _ & _ & Hexample).
  exists resp, st'. split; [exact Hrun|]. split; [exact Hcode|].
  exact (Hexample eq_refl eq_refl).
Defined.

(** C5 as stated fails on the example of the specification: for the
    standard output "log line\n{not valid json" the response has the raw
    text and no [parseError]. *)
Lemma listing_without_braces_has_no_parse_error :
  exists resp : Response,
    fst (Routes.getDevices Mock.r2Env (Mock.init Mock.garbled)) = inr resp
    /\ field "pending" resp = VArr []
    /\ field "paired" resp = VArr []
    /\ field "raw" resp = VStr ("log line" ++ Mock.lf ++ "{not valid json")
    /\ hasKey "parseError" resp = false
    /\ field "parseError" resp = VUndefined.
Proof. eexists. split; [reflexivity|]. repeat split. Qed.

(** C5 as the code has it, on an opening brace that is never closed and
    on a span of braces that is not JSON. *)
Lemma listing_of_undecodable_output_witness :
  fst (Routes.getDevices Mock.r2Env (Mock.init Mock.garbled)) =
    inr (json (VObj [("pending", VArr []); ("paired", VArr []);
                     ("raw", VStr ("log line" ++ Mock.lf ++ "{not valid json"));
                     ("stderr", VStr "")]))
  /\ fst (Routes.getDevices Mock.r2Env (Mock.init Mock.braced)) =
       inr (json (VObj [("pending", VArr []); ("paired", VArr []);
                        ("raw", VStr ("log line" ++ Mock.lf ++ "{not valid json}"));
                        ("stderr", VStr "");
                        ("parseError", VStr "Failed to parse CLI output")])).
Proof.
  split.
  - destruct (@listing_of_undecodable_output
                Mock.World Mock.sandbox Mock.imports Mock.r2Env (Mock.init Mock.garbled))
      as [_ H].
    destruct (H _ _ _ _ _ eq_refl eq_refl eq_refl) as [Hnone _].
    exact (Hnone eq_refl).
  - destruct (@listing_of_undecodable_output
                Mock.World Mock.sandbox Mock.imports Mock.r2Env (Mock.init Mock.braced))
      as [_ H].
    destruct (H _ _ _ _ _ eq_refl eq_refl eq_refl) as [_ Hbraces].
    exact (Hbraces "{not valid json}" eq_refl eq_refl).
Defined.

(** C6 on the three states of the mock: no gateway, a gateway whose port
    is closed, a gateway whose port answers. *)
Lemma status_reports_process_state_witness :
  fst (Routes.getStatus (Mock.init Mock.fresh)) =
    inr (json (VObj [("ok", VBool false); ("status", VStr "not_running")]))
  /\ fst (Routes.getStatus (Mock.init Mock.wedged)) =
       inr (json (VObj [("ok", VBool false); ("status", VStr "not_responding");
                        ("processId", VStr "gateway-1")]))
  /\ fst (Routes.getStatus (Mock.init Mock.serving)) =
       inr (json (VObj [("ok", VBool true); ("status", VStr "running");
                        ("processId", VStr "gateway-1")])).
Proof.
  split; [|split].
  - destruct (@status_reports_process_state
                Mock.World Mock.sandbox Mock.imports (Mock.init Mock.fresh))
      as [H _].
    destruct (H _ eq_refl) as (resp & Hrun & -> & _). exact Hrun.
  - destruct (@status_reports_process_state
                Mock.World Mock.sandbox Mock.imports (Mock.init Mock.wedged))
      as (_ & H & _).
    exact (H _ _ _ _ eq_refl eq_refl).
  - destruct (@status_reports_process_state
                Mock.World Mock.sandbox Mock.imports (Mock.init Mock.serving))
      as (_ & _ & H).
    exact (H _ _ _ eq_refl eq_refl).
Defined.




(** C8 on a fresh sandbox: the handler has made the call and queued its
    promise, the gateway is not yet in the process table; it is there
    once the promise has settled, with no further call. *)
Lemma restart_without_process_witness :
  exists resp : Response,
    Routes.postRestart Mock.r2Env (Mock.init Mock.fresh) =
      (inr resp, {| world := Mock.fresh; trace := [EvFindProcess; EvEnsureGateway];
                    background := [BootGateway Mock.r2Env] |})
    /\ field "success" resp = VBool true
    /\ field "previousProcessId" resp = VUndefined
    /\ Mock.gateway Mock.fresh = None
    /\ Routes.settle (BootGateway Mock.r2Env)
                     {| world := Mock.fresh; trace := [EvFindProcess; EvEnsureGateway];
                        background := [BootGateway Mock.r2Env] |} =
         (inr tt,
          {| world := Mock.setGateway Mock.fresh (Some {| id := "gateway-1" |});
             trace := [EvFindProcess; EvEnsureGateway];
             background := [BootGateway Mock.r2Env] |}).
Proof.
  destruct (@restart_without_process
              Mock.World Mock.sandbox Mock.imports Mock.r2Env (Mock.init Mock.fresh)
              _ eq_refl)
    as (resp & st' & Hrun & Hst & _ & _ & _ & _ & Hsuccess & _ & Hprev & Hboot).
  exists resp. rewrite Hst in Hrun.
  split; [exact Hrun|]. split; [exact Hsuccess|]. split; [exact Hprev|].
  split; [reflexivity|].
  destruct (Hboot {| world := Mock.fresh; trace := [EvFindProcess; EvEnsureGateway];
                     background := [BootGateway Mock.r2Env] |})
    as (outcome & w2 & st2 & Hens & Hsettle & Hw & Hb & _ & Htr).
  injection Hens as <- <-. rewrite Hsettle. f_equal.
  destruct st2 as [w tr bg]. cbn in Hw, Hb, Htr. subst. reflexivity.
Defined.

(** C9 as stated fails where the mount request is refused for another
    reason than "already in use": neither call succeeds, and each issues
    its own mount request. *)
Lemma ensureMounted_twice_refused :
  Mount.ensureMountedTwice Mock.mountTableShows Mock.mountBucket
                           Mock.r2Env Mock.unmountable =
    (inl (ErrorObj "Access denied"), inl (ErrorObj "Access denied"),
     Mock.unmountable, [Mount.EvMountBucket; Mount.EvMountBucket]).
Proof. reflexivity. Qed.

(** Where the request is refused with "already in use" and the mount
    table goes on not showing the path, both calls succeed and each
    issues a mount request. *)
Example ensureMounted_twice_in_use :
  Mount.ensureMountedTwice Mock.mountTableShows Mock.mountBucket
                           Mock.r2Env Mock.inUse =
    (inr true, inr true, Mock.inUse, [Mount.EvMountBucket; Mount.EvMountBucket]).
Proof. reflexivity. Qed.

(** C9 as the manager has it, on the mock: a mounted path, a request
    refused with "already in use", and two calls on a fresh sandbox,
    whose one mount request succeeds. *)
Lemma ensureMounted_idempotent_once_mounted_witness :
  Mount.ensureMountedTwice Mock.mountTableShows Mock.mountBucket Mock.r2Env
                           (Mock.setMounted Mock.fresh true)
    = (inr true, inr true, Mock.setMounted Mock.fresh true, [])
  /\ Mount.ensureMounted Mock.mountTableShows Mock.mountBucket Mock.r2Env Mock.inUse
     = (inr true, Mock.inUse, [Mount.EvMountBucket])
  /\ Mount.ensureMounted Mock.mountTableShows Mock.mountBucket Mock.r2Env Mock.fresh
     = (inr true, Mock.setMounted Mock.fresh true, [Mount.EvMountBucket])
  /\ Mount.ensureMountedTwice Mock.mountTableShows Mock.mountBucket Mock.r2Env Mock.fresh
     = (inr true, inr true, Mock.setMounted Mock.fresh true, [Mount.EvMountBucket]).
Proof.
  split; [|split; [|split]].
  - destruct (ensureMounted_idempotent_once_mounted
                Mock.mountTableShows Mock.mountBucket Mock.r2Env
                (Mock.setMounted Mock.fresh true)) as [H _].
    exact (proj2 (H eq_refl)).
  - destruct (ensureMounted_idempotent_once_mounted
                Mock.mountTableShows Mock.mountBucket Mock.r2Env Mock.inUse)
      as (_ & _ & H & _).
    exact (H "mount: /data/clawdbot: " "" _ eq_refl eq_refl).
  - destruct (ensureMounted_idempotent_once_mounted
                Mock.mountTableShows Mock.mountBucket Mock.r2Env Mock.fresh)
      as (_ & H & _).
    exact (H _ eq_refl eq_refl).
  - destruct (ensureMounted_idempotent_once_mounted
                Mock.mountTableShows Mock.mountBucket Mock.r2Env Mock.fresh)
      as (_ & _ & _ & _ & H & _).
    exact (H _ _ eq_refl eq_refl (or_introl eq_refl) eq_refl).
Defined.

(** C10 on a request without credentials, to a Worker whose gateway
    token is set and whose Access bindings are not: the handler behind
    the middleware runs and sees the development user. *)
Lemma dev_mode_skips_authentication_witness :
  Auth.createAccessMiddleware
    {| Auth.type := Auth.TJson; Auth.redirectOnMissing := false |}
    Mock.anonymous Mock.whoami (Mock.init Mock.fresh) =
  (inr (json (VObj [("email", VStr "dev@localhost"); ("name", VStr "Dev User")])),
   Mock.init Mock.fresh).
Proof.
  rewrite (proj1 (@dev_mode_skips_authentication
                    Mock.World Mock.imports
                    {| Auth.type := Auth.TJson; Auth.redirectOnMissing := false |}
                    Mock.anonymous Mock.whoami eq_refl)).
  reflexivity.
Defined.

(* ===================================================================== *)
(** * Further properties: polling *)
(* ===================================================================== *)

Section Polling.
Context {W : Type} `{SB : Sandbox W} `{IM : Imports W}.

Lemma sync_waitedLoop_slept (n : nat) (p : Process) (w : W) :
  exists k : nat,
    (k <= n)%nat
    /\ Sync.waitedLoop n p w = slept k 500 w
    /\ (forall j : nat, (j < k)%nat -> status p (slept j 500 w) = "running")
    /\ ((k < n)%nat -> status p (slept k 500 w) <> "running").
Proof.
  revert w; induction n as [|n IH]; intros w.
  - exists 0%nat. cbn. repeat split; [lia|intros j Hj; lia|lia].
  - cbn [Sync.waitedLoop]. destruct (status p w =? "running") eqn:E.
    + destruct (IH (sleep 500 w)) as (k & Hk & Heq & Hrun & Hstop).
      exists (S k). split; [lia|]. split; [exact Heq|]. split.
      * intros [|j] Hj; cbn; [now apply String.eqb_eq|apply Hrun; lia].
      * intros Hlt. cbn. apply Hstop. lia.
    + exists 0%nat. split; [lia|]. split; [reflexivity|]. split; [intros j Hj; lia|].
      intros _. cbn. now apply String.eqb_neq.
Qed.

Lemma ceilDiv_ge (t : Z) (k : nat) :
  (0 <= t)%Z ->
  (k <= ceilDiv t 500)%nat <-> (Z.of_nat k * 500 < t + 500)%Z.
Proof.
  intros Ht. unfold ceilDiv.
  assert (Hq : (0 <= (t + 500 - 1) / 500)%Z) by (apply Z.div_pos; lia).
  pose proof (Z.mul_div_le (t + 500 - 1) 500 ltac:(lia)) as Hle.
  pose proof (Z.mul_succ_div_gt (t + 500 - 1) 500 ltac:(lia)) as Hgt.
  split; intros H; [|apply Nat2Z.inj_le; rewrite Z2Nat.id by lia]; nia.
Qed.

(** X1.  [waitForProcess] of the sync engine never throws and leaves the
    trace alone; it sleeps [k] periods of 500 ms, the process was running
    before each of them, the time slept exceeds the timeout by less than
    one period, and when it stops before the bound the process is no
    longer running. *)
Theorem sync_wait_bounded (p : Process) (t : Z) (st : St W) :
  (0 <= t)%Z ->
  exists k : nat,
    Sync.waitForProcess p t st =
      (inr tt, {| world := slept k 500 (world st); trace := trace st;
                  background := background st |})
    /\ (Z.of_nat k * 500 < t + 500)%Z
    /\ (forall j : nat, (j < k)%nat -> status p (slept j 500 (world st)) = "running")
    /\ ((Z.of_nat (S k) * 500 < t + 500)%Z ->
        status p (slept k 500 (world st)) <> "running").
Proof.
  intros Ht.
  destruct (sync_waitedLoop_slept (ceilDiv t 500) p (world st))
    as (k & Hk & Heq & Hrun & Hstop).
  exists k. split.
  - rewrite sync_waitForProcess_run. unfold Sync.waited. rewrite Heq. reflexivity.
  - split; [apply ceilDiv_ge; assumption|]. split; [exact Hrun|].
    intros Hlt. apply Hstop. apply (ceilDiv_ge (S k) Ht) in Hlt. lia.
Qed.

Lemma routes_waitedLoop_slept (n : nat) (p : Process) (w : W) :
  exists k : nat,
    (k <= n)%nat
    /\ ((0 < n)%nat -> (0 < k)%nat)
    /\ Routes.waitedLoop n p w = slept k 500 w
    /\ (forall j : nat, (0 < j < k)%nat -> status p (slept j 500 w) = "running")
    /\ ((k < n)%nat -> status p (slept k 500 w) <> "running").
Proof.
  revert w; induction n as [|n IH]; intros w.
  - exists 0%nat. cbn. repeat split; lia.
  - cbn [Routes.waitedLoop]. unfold Routes.CLI_POLL_INTERVAL_MS at 1. cbv zeta.
    destruct (status p (sleep 500 w) =? "running") eqn:E; cbn [negb].
    + destruct (IH (sleep 500 w)) as (k & Hk & Hpos & Heq & Hrun & Hstop).
      exists (S k). split; [lia|]. split; [lia|]. split; [exact Heq|]. split.
      * intros [|[|j]] Hj; cbn; [lia|now apply String.eqb_eq|].
        apply (Hrun (S j)). lia.
      * intros Hlt. cbn. apply Hstop. lia.
    + exists 1%nat. split; [lia|]. split; [lia|]. split; [reflexivity|].
      split; [intros j Hj; lia|]. intros _. cbn. now apply String.eqb_neq.
Qed.

(** X2.  [waitForProcess] of the routes never throws and leaves the
    trace alone; with a positive timeout it sleeps at least one period
    of 500 ms before it looks at the process, the process was running
    after each period but the last, the time slept exceeds the timeout by
    less than one period, and when it stops before the bound the process
    is no longer running. *)
Theorem routes_wait_bounded (p : Process) (t : Z) (st : St W) :
  (0 < t)%Z ->
  exists k : nat,
    Routes.waitForProcess p t st =
      (inr tt, {| world := slept k 500 (world st); trace := trace st;
                  background := background st |})
    /\ (0 < k)%nat
    /\ (Z.of_nat k * 500 < t + 500)%Z
    /\ (forall j : nat, (0 < j < k)%nat -> status p (slept j 500 (world st)) = "running")
    /\ ((Z.of_nat (S k) * 500 < t + 500)%Z ->
        status p (slept k 500 (world st)) <> "running").
Proof.
  intros Ht.
  destruct (routes_waitedLoop_slept (ceilDiv t 500) p (world st))
    as (k & Hk & Hpos & Heq & Hrun & Hstop).
  assert (H1 : (1 <= ceilDiv t 500)%nat) by (apply ceilDiv_ge; lia).
  exists k. split.
  - rewrite routes_waitForProcess_run. unfold Routes.waited, Routes.CLI_POLL_INTERVAL_MS.
    rewrite Heq. reflexivity.
  - split; [apply Hpos; lia|]. split; [apply ceilDiv_ge; [lia|assumption]|].
    split; [exact Hrun|].
    intros Hlt. apply Hstop. apply (ceilDiv_ge (S k)) in Hlt; lia.
Qed.

End Polling.

(** X1 on a process that runs for three more periods: three sleeps. *)
Lemma sync_wait_bounded_witness :
  exists k : nat,
    @Sync.waitForProcess nat Ticker.sandbox {| id := "p" |} 5000 (Ticker.init 3) =
      (inr tt, {| world := @slept nat Ticker.sandbox k 500 3%nat;
                  trace := []; background := [] |})
    /\ (Z.of_nat k * 500 < 5000 + 500)%Z
    /\ (forall j : nat,
          (j < k)%nat ->
          @status nat Ticker.sandbox {| id := "p" |}
                  (@slept nat Ticker.sandbox j 500 3%nat) = "running")
    /\ ((Z.of_nat (S k) * 500 < 5000 + 500)%Z ->
        @status nat Ticker.sandbox {| id := "p" |}
                (@slept nat Ticker.sandbox k 500 3%nat) <> "running").
Proof.
  exact (@sync_wait_bounded nat Ticker.sandbox {| id := "p" |} 5000 (Ticker.init 3)
                            ltac:(lia)).
Defined.

(** X2 on a process that runs for three more periods. *)
Lemma routes_wait_bounded_witness :
  exists k : nat,
    @Routes.waitForProcess nat Ticker.sandbox {| id := "p" |} 20000 (Ticker.init 3) =
      (inr tt, {| world := @slept nat Ticker.sandbox k 500 3%nat;
                  trace := []; background := [] |})
    /\ (0 < k)%nat
    /\ (Z.of_nat k * 500 < 20000 + 500)%Z
    /\ (forall j : nat,
          (0 < j < k)%nat ->
          @status nat Ticker.sandbox {| id := "p" |}
                  (@slept nat Ticker.sandbox j 500 3%nat) = "running")
    /\ ((Z.of_nat (S k) * 500 < 20000 + 500)%Z ->
        @status nat Ticker.sandbox {| id := "p" |}
                (@slept nat Ticker.sandbox k 500 3%nat) <> "running").
Proof.
  exact (@routes_wait_bounded nat Ticker.sandbox {| id := "p" |} 20000 (Ticker.init 3)
                              ltac:(lia)).
Defined.

(** The two waits differ on a process that has already ended and on one
    that outlives the timeout: the sync engine does not sleep for a
    finished process, the routes sleep one period. *)
Example waits_compared :
  world (snd (@Sync.waitForProcess nat Ticker.sandbox {| id := "p" |} 5000
                                   (Ticker.init 0))) = 0%nat
  /\ trace (snd (@Routes.waitForProcess nat Ticker.sandbox {| id := "p" |} 5000
                                        (Ticker.init 0))) = []
  /\ world (snd (@Sync.waitForProcess nat Ticker.sandbox {| id := "p" |} 5000
                                      (Ticker.init 30))) = 20%nat
  /\ world (snd (@Routes.waitForProcess nat Ticker.sandbox {| id := "p" |} 5000
                                        (Ticker.init 30))) = 20%nat
  /\ world (snd (@Routes.waitForProcess nat Ticker.sandbox {| id := "p" |} 5000
                                        (Ticker.init 3))) = 0%nat.
Proof. repeat split. Qed.

(* ===================================================================== *)
(** * Further properties: the sync engine *)
(* ===================================================================== *)

(** Case analysis on every call and test a handler meets. *)
Ltac crunch :=
  repeat (reduce;
          first
            [ rewrite sync_waitForProcess_run
            | rewrite routes_waitForProcess_run
            | match goal with
              | |- context [match ?x with _ => _ end] =>
                  lazymatch x with
                  | context [match _ with _ => _ end] => fail
                  | _ =>
                      lazymatch type of x with
                      | ((_ + _) * _)%type => destruct x as [[?|?] ?] eqn:?
                      | _ => destruct x eqn:?
                      end
                  end
              end ]).

Section SyncInvariants.
Context {W : Type} `{SB : Sandbox W} `{IM : Imports W}.

(** X3.  [syncToR2] throws only what [mountR2Storage] throws; every
    other failure is a result.  A successful result carries a
    [lastSync] that begins with four digits, a hyphen, two digits, a
    hyphen and two digits, and no error; a failed one carries no
    [lastSync] and one of six error texts. *)
Theorem sync_result_shape (env : Env) (st : St W) :
  (forall (e : exn) (st' : St W),
      Sync.syncToR2 env st = (inl e, st') <->
      Sync.credentialMissing env = false
      /\ exists w', mountR2Storage env (world st) = (inl e, w')
                    /\ st' = {| world := w'; trace := (trace st ++ [EvMountR2Storage])%list;
                                background := background st |})
  /\ (forall (r : Sync.SyncResult) (st' : St W),
        Sync.syncToR2 env st = (inr r, st') ->
        (Sync.success r = true ->
         (exists y m d rest : string,
             Sync.lastSync r = Some (y ++ "-" ++ m ++ "-" ++ d ++ rest)
             /\ String.length y = 4%nat /\ String.length m = 2%nat
             /\ String.length d = 2%nat
             /\ forall c, In c (list_ascii_of_string (y ++ m ++ d)) ->
                          In c (list_ascii_of_string "0123456789"))
         /\ Sync.error r = None /\ Sync.details r = None)
        /\ (Sync.success r = false ->
            Sync.lastSync r = None
            /\ exists text, Sync.error r = Some text /\ In text failureTexts)).
Proof.
  split.
  - intros e st'. split.
    + unfold Sync.syncToR2, Sync.sanityCheck, Sync.mirror. run.
      crunch; intros H; try discriminate H.
      injection H as <- <-. split; [reflexivity|]. eexists. split; reflexivity.
    + intros (Hc & w' & Hm & ->). unfold Sync.syncToR2. rewrite Hc. run.
      rewrite Hm. reflexivity.
  - intros r st'. unfold Sync.syncToR2, Sync.sanityCheck, Sync.mirror. run.
    crunch; intros H; try discriminate H; injection H as <- <-.
    all: split; intros Hs; try discriminate Hs.
    all: try (split; [reflexivity|]; eexists; split; [reflexivity|]; cbn; tauto).
    split; [|split; reflexivity]. cbn [Sync.succeeded Sync.lastSync].
    apply markerOk_decimal. assumption.
Qed.

(** X4.  Whatever happens, [syncToR2] only adds to the trace, gives
    nothing to the background, and starts its processes in the order
    check, mirror, re-read, stopping after none, one, two or three of
    them; the mirror command is started only when the credentials are
    there, the mount succeeded, and the logs of the check process were
    read and contain "ok". *)
Theorem sync_process_order (env : Env) (st st' : St W) (res : exn + Sync.SyncResult) :
  Sync.syncToR2 env st = (res, st') ->
  exists added : list event,
    trace st' = (trace st ++ added)%list
    /\ background st' = background st
    /\ (started added = []
        \/ started added = [Sync.checkCmd]
        \/ started added = [Sync.checkCmd; Sync.syncCmd]
        \/ started added = [Sync.checkCmd; Sync.syncCmd; Sync.timestampCmd])
    /\ (In Sync.syncCmd (started added) ->
        exists (w1 w2 w3 : W) (p : Process) (logs : Logs),
          Sync.credentialMissing env = false
          /\ mountR2Storage env (world st) = (inr true, w1)
          /\ startProcess Sync.checkCmd w1 = (inr p, w2)
          /\ getLogs p (Sync.waited p 5000 w2) = (inr logs, w3)
          /\ Sync.seesOk logs = true).
Proof.
  unfold Sync.syncToR2, Sync.sanityCheck, Sync.mirror. run.
  crunch; intros H; injection H as <- <-; reduce;
    rewrite <- ?app_assoc; cbn [app]; 
    (eexists; split; [first [reflexivity | symmetry; apply app_nil_r]|]);
    (split; [reflexivity|]); cbn [started].
  all: split; [auto 6|]; intros Hin.
  all: try (exfalso;
            repeat (destruct Hin as [Hin|Hin]; [exact (syncCmd_not_checkCmd Hin)|]);
            exact Hin).
  all: repeat match goal with
         | H : negb ?b = _ |- _ => destruct b eqn:?; cbn in H; try discriminate H; clear H
         end.
  all: do 5 eexists; repeat split; reflexivity || eassumption.
Qed.

End SyncInvariants.

Section SyncBackup.
Context {W : Type} `{SB : Sandbox W} `{IM : Imports W}.

(** X5.  In a sandbox where the content under the mount is written by
    no operation other than the start of the mirror command, every call
    of [syncToR2] that changes that content had all three credentials,
    a mount that returned true, and read "ok" from the check process.
    So a missing credential, a failed or throwing mount, a check that
    throws and a check that does not see the file all leave the backup
    as it was. *)
Theorem sync_keeps_backup_unless_checked
  (env : Env) (st st' : St W) (res : exn + Sync.SyncResult)
  (D : Type) (durableContent : W -> D)
  (Hmount : forall e w r w',
      mountR2Storage e w = (r, w') -> durableContent w' = durableContent w)
  (Hstart : forall cmd w r w',
      cmd <> Sync.syncCmd ->
      startProcess cmd w = (r, w') -> durableContent w' = durableContent w)
  (Hlogs : forall q w r w',
      getLogs q w = (r, w') -> durableContent w' = durableContent w)
  (Hsleep : forall ms w, durableContent (sleep ms w) = durableContent w) :
  Sync.syncToR2 env st = (res, st') ->
  (durableContent (world st') <> durableContent (world st) ->
   Sync.credentialMissing env = false
   /\ exists (w1 w2 w3 : W) (p : Process) (logs : Logs),
       mountR2Storage env (world st) = (inr true, w1)
       /\ startProcess Sync.checkCmd w1 = (inr p, w2)
       /\ getLogs p (Sync.waited p 5000 w2) = (inr logs, w3)
       /\ Sync.seesOk logs = true)
  /\ (Sync.credentialMissing env = true -> st' = st)
  /\ (forall (r : exn + bool) (w1 : W),
        mountR2Storage env (world st) = (r, w1) ->
        r <> inr true ->
        durableContent (world st') = durableContent (world st))
  /\ (forall (w1 w2 : W) (e : exn),
        mountR2Storage env (world st) = (inr true, w1) ->
        startProcess Sync.checkCmd w1 = (inl e, w2) ->
        durableContent (world st') = durableContent (world st))
  /\ (forall (w1 w2 w3 : W) (p : Process) (r : exn + Logs),
        mountR2Storage env (world st) = (inr true, w1) ->
        startProcess Sync.checkCmd w1 = (inr p, w2) ->
        getLogs p (Sync.waited p 5000 w2) = (r, w3) ->
        (forall logs, r = inr logs -> Sync.seesOk logs = false) ->
        durableContent (world st') = durableContent (world st)).
Proof.
  intros Hrun.
  assert (Hmain :
            durableContent (world st') <> durableContent (world st) ->
            Sync.credentialMissing env = false
            /\ exists (w1 w2 w3 : W) (p : Process) (logs : Logs),
                mountR2Storage env (world st) = (inr true, w1)
                /\ startProcess Sync.checkCmd w1 = (inr p, w2)
                /\ getLogs p (Sync.waited p 5000 w2) = (inr logs, w3)
                /\ Sync.seesOk logs = true);
    [|split; [exact Hmain|]].
  2:{ split; [|split; [|split]].
      - intros Hc. revert Hrun. unfold Sync.syncToR2. rewrite Hc.
        intros H. injection H as _ <-. reflexivity.
      - intros r w1 Hm Hr. revert Hrun. unfold Sync.syncToR2.
        destruct (Sync.credentialMissing env);
          [intros H; injection H as _ <-; reflexivity|].
        run. rewrite Hm. destruct r as [e|[]]; reduce.
        + intros H. injection H as _ <-. exact (Hmount _ _ _ _ Hm).
        + destruct (Hr eq_refl).
        + intros H. injection H as _ <-. exact (Hmount _ _ _ _ Hm).
      - intros w1 w2 e Hm Hs. revert Hrun. unfold Sync.syncToR2.
        destruct (Sync.credentialMissing env);
          [intros H; injection H as _ <-; reflexivity|].
        unfold Sync.sanityCheck. run. rewrite Hm. reduce. rewrite Hs. reduce.
        intros H. injection H as _ <-. reduce.
        rewrite (Hstart _ _ _ _ syncCmd_not_checkCmd Hs). exact (Hmount _ _ _ _ Hm).
      - intros w1 w2 w3 p r Hm Hs Hl Hno. revert Hrun. unfold Sync.syncToR2.
        destruct (Sync.credentialMissing env);
          [intros H; injection H as _ <-; reflexivity|].
        unfold Sync.sanityCheck. run. rewrite Hm. reduce. rewrite Hs. reduce.
        rewrite sync_waitForProcess_run. reduce. rewrite Hl.
        destruct r as [e|logs]; reduce.
        + intros H. injection H as _ <-. reduce.
          rewrite (Hlogs _ _ _ _ Hl), sync_waited_frame by exact Hsleep.
          rewrite (Hstart _ _ _ _ syncCmd_not_checkCmd Hs). exact (Hmount _ _ _ _ Hm).
        + rewrite (Hno logs eq_refl). reduce.
          intros H. injection H as _ <-. reduce.
          rewrite (Hlogs _ _ _ _ Hl), sync_waited_frame by exact Hsleep.
          rewrite (Hstart _ _ _ _ syncCmd_not_checkCmd Hs). exact (Hmount _ _ _ _ Hm). }
  revert Hrun.
  unfold Sync.syncToR2, Sync.sanityCheck, Sync.mirror. run.
  crunch; intros H; injection H as <- <-; reduce; intros Hchanged.
  all: repeat match goal with
         | H : negb ?b = _ |- _ => destruct b eqn:?; cbn in H; try discriminate H; clear H
         end.
  all: first
         [ solve [split; [reflexivity || assumption|];
                  do 5 eexists; repeat split; reflexivity || eassumption]
         | exfalso; apply Hchanged;
           repeat match goal with
             | H : mountR2Storage _ _ = _ |- _ => apply Hmount in H
             | H : getLogs _ _ = _ |- _ => apply Hlogs in H
             | H : startProcess Sync.checkCmd _ = _ |- _ =>
                 apply (Hstart _ _ _ _ syncCmd_not_checkCmd) in H
             end;
           rewrite ?sync_waited_frame in * by exact Hsleep;
           congruence ].
Qed.

End SyncBackup.

Section SyncEndpoint.
Context {W : Type} `{SB : Sandbox W} `{IM : Imports W}.

(** A credential fails the test of [syncToR2] when it is absent or the
    empty string. *)
Lemma credentialMissing_absent (env : Env) :
  Sync.credentialMissing env = true <->
  R2_ACCESS_KEY_ID env = None \/ R2_ACCESS_KEY_ID env = Some ""
  \/ R2_SECRET_ACCESS_KEY env = None \/ R2_SECRET_ACCESS_KEY env = Some ""
  \/ CF_ACCOUNT_ID env = None \/ CF_ACCOUNT_ID env = Some "".
Proof.
  assert (Hone : forall o : option string,
             negb (truthyStr o) = true <-> o = None \/ o = Some "").
  { intros [s|]; cbn; [|tauto]. rewrite negb_involutive, String.eqb_eq.
    split; [intros ->; auto|intros [H|H]; [discriminate H|now injection H]]. }
  unfold Sync.credentialMissing. rewrite !orb_true_iff, !Hone. tauto.
Qed.

(** Of the failures [syncToR2] returns, the one of the missing
    credentials is the only one whose text contains 'not configured'. *)
Lemma sync_failure_not_configured (env : Env) (st st' : St W) (r : Sync.SyncResult) :
  Sync.syncToR2 env st = (inr r, st') ->
  Sync.success r = false ->
  Sync.errorIncludes "not configured" r = Sync.credentialMissing env.
Proof.
  unfold Sync.syncToR2, Sync.sanityCheck, Sync.mirror. run.
  crunch; intros H; try discriminate H; injection H as <- <-;
    intros Hs; try discriminate Hs; reflexivity.
Qed.

(** C3.  When one of the three credentials is absent, [syncToR2]
    returns the failure 'R2 storage is not configured' at once: the
    state is untouched, nothing is mounted and no process is started.
    The sync endpoint answers every failure of [syncToR2] with its error
    and details and with status 400 or 500: 400 exactly when the error
    text contains 'not configured', which is exactly when a credential
    is absent or empty, and 500 for every other failure. *)
Theorem not_configured_is_client_error (env : Env) :
  (R2_ACCESS_KEY_ID env = None \/ R2_SECRET_ACCESS_KEY env = None
   \/ CF_ACCOUNT_ID env = None ->
   forall st : St W,
     Sync.syncToR2 env st =
       (inr {| Sync.success := false; Sync.lastSync := None;
               Sync.error := Some "R2 storage is not configured";
               Sync.details := None |}, st))
  /\ (forall (st st' : St W) (r : Sync.SyncResult),
        Sync.syncToR2 env st = (inr r, st') ->
        Sync.success r = false ->
        exists resp : Response,
          Routes.postStorageSync env st = (inr resp, st')
          /\ bodyOf resp = VObj [("success", VBool false);
                                 ("error", ofOption (Sync.error r));
                                 ("details", ofOption (Sync.details r))]
          /\ (code resp = 400 \/ code resp = 500)%Z
          /\ (code resp = 400%Z <->
              exists text pre post : string,
                Sync.error r = Some text
                /\ text = pre ++ "not configured" ++ post)
          /\ (code resp = 400%Z <->
              R2_ACCESS_KEY_ID env = None \/ R2_ACCESS_KEY_ID env = Some ""
              \/ R2_SECRET_ACCESS_KEY env = None
              \/ R2_SECRET_ACCESS_KEY env = Some ""
              \/ CF_ACCOUNT_ID env = None \/ CF_ACCOUNT_ID env = Some "")).
Proof.
  split.
  - intros H st. unfold Sync.syncToR2, Sync.credentialMissing.
    destruct H as [H|[H|H]]; rewrite H; cbn;
      rewrite ?orb_true_r; reflexivity.
  - intros st st' r Hr Hf.
    pose proof (sync_failure_not_configured _ _ Hr Hf) as Htext.
    assert (Hin : Sync.errorIncludes "not configured" r = true <->
                  exists text pre post : string,
                    Sync.error r = Some text
                    /\ text = pre ++ "not configured" ++ post).
    { unfold Sync.errorIncludes. destruct (Sync.error r) as [text|].
      - rewrite includes_split. split.
        + intros (pre & post & ->). exists (pre ++ "not configured" ++ post), pre, post.
          split; reflexivity.
        + intros (text' & pre & post & H & ->). injection H as ->.
          exists pre, post. reflexivity.
      - split; [discriminate|]. intros (text & _ & _ & H & _). discriminate H. }
    unfold Routes.postStorageSync. run. step Hr. rewrite Hf.
    eexists. split; [reflexivity|]. split; [reflexivity|].
    cbn [code jsonWith]. rewrite <- credentialMissing_absent, <- Hin, <- Htext.
    destruct (Sync.errorIncludes "not configured" r).
    + split; [auto|]. split; (split; [reflexivity|discriminate]) || tauto.
    + split; [auto|]. split; split; discriminate.
Qed.

End SyncEndpoint.

(** C3 without the access key, where the sync fails at once and the
    endpoint answers 400, and with the credentials on a sandbox whose
    source is missing, where the endpoint answers 500. *)
Lemma not_configured_is_client_error_witness :
  Sync.syncToR2 Mock.noCredentials (Mock.init Mock.fresh) =
    (inr {| Sync.success := false; Sync.lastSync := None;
            Sync.error := Some "R2 storage is not configured";
            Sync.details := None |}, Mock.init Mock.fresh)
  /\ (exists resp : Response,
        Routes.postStorageSync Mock.noCredentials (Mock.init Mock.fresh)
          = (inr resp, Mock.init Mock.fresh)
        /\ code resp = 400%Z)
  /\ (exists (resp : Response) (st' : St Mock.World),
        Routes.postStorageSync Mock.r2Env (Mock.init Mock.emptied) = (inr resp, st')
        /\ field "error" resp = VStr "Sync aborted: source missing clawdbot.json"
        /\ code resp = 500%Z).
Proof.
  destruct (@not_configured_is_client_error
              Mock.World Mock.sandbox Mock.imports Mock.noCredentials) as [Hsync Hroute].
  split; [|split].
  - exact (Hsync (or_introl eq_refl) (Mock.init Mock.fresh)).
  - destruct (Hroute (Mock.init Mock.fresh) (Mock.init Mock.fresh) _
                     (Hsync (or_introl eq_refl) (Mock.init Mock.fresh)) eq_refl)
      as (resp & Hrun & _ & _ & _ & Hcode).
    exists resp. split; [exact Hrun|]. apply Hcode. left. reflexivity.
  - destruct (@not_configured_is_client_error
                Mock.World Mock.sandbox Mock.imports Mock.r2Env) as [_ Hroute'].
    destruct (Hroute' (Mock.init Mock.emptied) _ _ eq_refl eq_refl)
      as (resp & Hrun & Hbody & [Hcode|Hcode] & Htext & _).
    + exfalso. apply Htext in Hcode as (text & pre & post & Herr & Htxt).
      injection Herr as <-. 
      assert (Hno : includes "Sync aborted: source missing clawdbot.json"
                             "not configured" = true)
        by (apply includes_split; eauto).
      discriminate Hno.
    + exists resp. eexists. split; [exact Hrun|]. split; [|exact Hcode].
      unfold field. rewrite Hbody. reflexivity.
Defined.

(** X3 on the mock, where the sync succeeds with the date the mirror
    wrote, and on a sandbox whose mount throws. *)
Lemma sync_result_shape_witness :
  (exists y m d rest : string,
      Some "2026-01-02T03:04:05+00:00" = Some (y ++ "-" ++ m ++ "-" ++ d ++ rest)
      /\ String.length y = 4%nat /\ String.length m = 2%nat
      /\ String.length d = 2%nat
      /\ forall c, In c (list_ascii_of_string (y ++ m ++ d)) ->
                   In c (list_ascii_of_string "0123456789"))
  /\ @Sync.syncToR2 unit Broken.sandbox Broken.imports Mock.r2Env Broken.init
     = (inl Broken.down, {| world := tt; trace := [EvMountR2Storage]; background := [] |}).
Proof.
  split.
  - destruct (@sync_result_shape Mock.World Mock.sandbox Mock.imports
                                 Mock.r2Env (Mock.init Mock.fresh)) as [_ Hshape].
    exact (proj1 (proj1 (Hshape _ _ eq_refl) eq_refl)).
  - destruct (@sync_result_shape unit Broken.sandbox Broken.imports
                                 Mock.r2Env Broken.init) as [Hthrow _].
    apply Hthrow. split; [reflexivity|]. exists tt. split; reflexivity.
Defined.

(** X4 on the mock: a full sync starts the three processes in order, an
    aborted one only the check. *)
Lemma sync_process_order_witness :
  (exists added : list event,
      trace (snd (Sync.syncToR2 Mock.r2Env (Mock.init Mock.fresh))) = ([] ++ added)%list
      /\ (In Sync.syncCmd (started added) ->
          exists (w1 w2 w3 : Mock.World) (p : Process) (logs : Logs),
            Sync.credentialMissing Mock.r2Env = false
            /\ mountR2Storage Mock.r2Env Mock.fresh = (inr true, w1)
            /\ startProcess Sync.checkCmd w1 = (inr p, w2)
            /\ getLogs p (Sync.waited p 5000 w2) = (inr logs, w3)
            /\ Sync.seesOk logs = true))
  /\ started (trace (snd (Sync.syncToR2 Mock.r2Env (Mock.init Mock.fresh))))
     = [Sync.checkCmd; Sync.syncCmd; Sync.timestampCmd]
  /\ started (trace (snd (Sync.syncToR2 Mock.r2Env (Mock.init Mock.emptied))))
     = [Sync.checkCmd].
Proof.
  split; [|split; reflexivity].
  destruct (@sync_process_order Mock.World Mock.sandbox Mock.imports
                                Mock.r2Env (Mock.init Mock.fresh) _ _ eq_refl)
    as (added & Htrace & _ & _ & Hguard).
  exists added. split; [exact Htrace|exact Hguard].
Defined.

(** X5 on the mock: the sync of a fresh sandbox writes under the mount,
    so it had the credentials and its check process printed "ok"; a
    sync without the access key leaves a sandbox with a good backup
    untouched. *)
Lemma sync_keeps_backup_unless_checked_witness :
  (Sync.credentialMissing Mock.r2Env = false
   /\ exists (w1 w2 w3 : Mock.World) (p : Process) (logs : Logs),
       mountR2Storage Mock.r2Env Mock.fresh = (inr true, w1)
       /\ startProcess Sync.checkCmd w1 = (inr p, w2)
       /\ getLogs p (Sync.waited p 5000 w2) = (inr logs, w3)
       /\ Sync.seesOk logs = true)
  /\ snd (Sync.syncToR2 Mock.noCredentials (Mock.init Mock.emptied))
     = Mock.init Mock.emptied.
Proof.
  split.
  - destruct (@sync_keeps_backup_unless_checked
                Mock.World Mock.sandbox Mock.imports Mock.r2Env (Mock.init Mock.fresh)
                _ _ _ Mock.durable
                mock_mount_frame mock_start_frame mock_logs_frame mock_sleep_frame
                eq_refl) as [H _].
    apply H. discriminate.
  - destruct (@sync_keeps_backup_unless_checked
                Mock.World Mock.sandbox Mock.imports Mock.noCredentials
                (Mock.init Mock.emptied)
                _ _ _ Mock.durable
                mock_mount_frame mock_start_frame mock_logs_frame mock_sleep_frame
                eq_refl) as (_ & H & _).
    exact (H eq_refl).
Defined.

(* ===================================================================== *)
(** * Further properties: the storage status route *)
(* ===================================================================== *)

Section StorageProperties.
Context {W : Type} `{SB : Sandbox W} `{IM : Imports W}.

Lemma hasCredentials_credentialMissing (env : Env) :
  Storage.hasCredentials env = negb (Sync.credentialMissing env).
Proof.
  unfold Storage.hasCredentials, Sync.credentialMissing.
  destruct (truthyStr (R2_ACCESS_KEY_ID env)), (truthyStr (R2_SECRET_ACCESS_KEY env)),
    (truthyStr (CF_ACCOUNT_ID env)); reflexivity.
Qed.

(** The marker is read without ever throwing; what is read is [null] or
    a trimmed text that is not empty. *)
Lemma readMarker_total (env : Env) (st : St W) :
  exists (v : value) (st' : St W),
    Storage.readMarker env st = (inr v, st')
    /\ (v = VNull \/ exists raw, v = VStr (trim raw) /\ trim raw <> "").
Proof.
  unfold Storage.readMarker. run. crunch.
  all: do 2 eexists; split; [reflexivity|]; auto.
  right. destruct (stdout l) as [raw|]; [|discriminate].
  exists raw. split; [reflexivity|].
  cbn in *. intros E. rewrite E in *. discriminate.
Qed.

(** X6.  The storage status route never throws, also when the mount or
    a process does, and answers 200.  Its [configured] is true exactly
    when [syncToR2] would get past its credential check; [missing] is
    left out exactly then, and otherwise names exactly the credentials
    that are absent or empty; [lastSync] is [null] or a trimmed text that
    is not empty.  Without the credentials the sandbox is not touched and
    [lastSync] is [null]. *)
Theorem storage_status_is_consistent (env : Env) (st : St W) :
  exists (resp : Response) (st' : St W),
    Storage.getStorage env st = (inr resp, st')
    /\ code resp = 200%Z
    /\ field "configured" resp = VBool (negb (Sync.credentialMissing env))
    /\ (field "missing" resp = VUndefined <-> Sync.credentialMissing env = false)
    /\ (Sync.credentialMissing env = true ->
        field "missing" resp = VArr (map VStr (Storage.missing env))
        /\ st' = st
        /\ field "lastSync" resp = VNull)
    /\ (forall name : string,
           In name (Storage.missing env) <->
           (name = "R2_ACCESS_KEY_ID" /\ truthyStr (R2_ACCESS_KEY_ID env) = false)
           \/ (name = "R2_SECRET_ACCESS_KEY"
               /\ truthyStr (R2_SECRET_ACCESS_KEY env) = false)
           \/ (name = "CF_ACCOUNT_ID" /\ truthyStr (CF_ACCOUNT_ID env) = false))
    /\ (field "lastSync" resp = VNull
        \/ exists raw, field "lastSync" resp = VStr (trim raw) /\ trim raw <> "").
Proof.
  unfold Storage.getStorage.
  assert (Hnames : forall name : string,
             In name (Storage.missing env) <->
             (name = "R2_ACCESS_KEY_ID" /\ truthyStr (R2_ACCESS_KEY_ID env) = false)
             \/ (name = "R2_SECRET_ACCESS_KEY"
                 /\ truthyStr (R2_SECRET_ACCESS_KEY env) = false)
             \/ (name = "CF_ACCOUNT_ID" /\ truthyStr (CF_ACCOUNT_ID env) = false)).
  { intros name. unfold Storage.missing.
    destruct (truthyStr (R2_ACCESS_KEY_ID env)), (truthyStr (R2_SECRET_ACCESS_KEY env)),
      (truthyStr (CF_ACCOUNT_ID env)); cbn; intuition congruence. }
  assert (Hnil : Storage.missing env = [] <-> Sync.credentialMissing env = false).
  { unfold Storage.missing, Sync.credentialMissing.
    destruct (truthyStr (R2_ACCESS_KEY_ID env)), (truthyStr (R2_SECRET_ACCESS_KEY env)),
      (truthyStr (CF_ACCOUNT_ID env)); cbn; split; congruence. }
  rewrite hasCredentials_credentialMissing.
  destruct (Sync.credentialMissing env) eqn:Hc; cbn [negb].
  - exists (json (VObj [("configured", VBool false);
                        ("missing", match Storage.missing env with
                                    | [] => VUndefined
                                    | names => VArr (map VStr names)
                                    end);
                        ("lastSync", VNull);
                        ("message", VStr Storage.notConfiguredMessage)])), st.
    assert (Hm : match Storage.missing env with
                 | [] => VUndefined
                 | names => VArr (map VStr names)
                 end = VArr (map VStr (Storage.missing env))).
    { destruct (Storage.missing env) eqn:E; [|reflexivity].
      destruct Hnil as [Hn _]. discriminate (Hn eq_refl). }
    split; [reflexivity|]. split; [reflexivity|]. split; [reflexivity|].
    unfold field, bodyOf. cbn [content json lookup String.eqb Ascii.eqb Bool.eqb].
    rewrite Hm. split; [split; discriminate|]. split; [auto|]. split; [exact Hnames|].
    left. reflexivity.
  - destruct (readMarker_total env st) as (v & st' & Hrun & Hv).
    exists (json (VObj [("configured", VBool true);
                        ("missing", match Storage.missing env with
                                    | [] => VUndefined
                                    | names => VArr (map VStr names)
                                    end);
                        ("lastSync", v);
                        ("message", VStr Storage.configuredMessage)])), st'.
    split; [unfold bind; rewrite Hrun; reflexivity|].
    split; [reflexivity|]. split; [reflexivity|].
    unfold field, bodyOf. cbn [content json lookup String.eqb Ascii.eqb Bool.eqb].
    assert (Hm : match Storage.missing env with
                 | [] => VUndefined
                 | names => VArr (map VStr names)
                 end = VUndefined)
      by (rewrite (proj2 Hnil eq_refl); reflexivity).
    rewrite Hm.
    split; [split; reflexivity|]. split; [discriminate|]. split; [exact Hnames|].
    exact Hv.
Qed.

End StorageProperties.

(** X6 on the mock: without the access key the route names it and leaves
    the sandbox alone. *)
Lemma storage_status_is_consistent_witness :
  exists resp : Response,
    Storage.getStorage Mock.noCredentials (Mock.init Mock.fresh)
      = (inr resp, Mock.init Mock.fresh)
    /\ field "configured" resp = VBool false
    /\ field "missing" resp = VArr [VStr "R2_ACCESS_KEY_ID"]
    /\ field "lastSync" resp = VNull.
Proof.
  destruct (@storage_status_is_consistent Mock.World Mock.sandbox Mock.imports
                                          Mock.noCredentials (Mock.init Mock.fresh))
    as (resp & st' & Hrun & _ & Hconf & _ & Hmissing & _).
  destruct (Hmissing eq_refl) as (Hm & -> & Hnull).
  exists resp. split; [exact Hrun|]. split; [exact Hconf|]. split; [exact Hm|exact Hnull].
Defined.

(* ===================================================================== *)
(** * Further properties: the API routes *)
(* ===================================================================== *)

Section RoutesInvariants.
Context {W : Type} `{SB : Sandbox W} `{IM : Imports W}.

(** A handler whose body is one [try] with a [catch] that answers
    returns a response. *)
Lemma try_catch_total {A} (c : M W A) (h : exn -> M W A) (st : St W) :
  (forall e s, exists a s', h e s = (inr a, s')) ->
  exists a s', try_catch c h st = (inr a, s').
Proof.
  intros Hh. unfold try_catch. destruct (c st) as [[e|a] s]; [apply Hh|eauto].
Qed.

(** X7.  The status, listing, approval, bulk approval and restart
    handlers never throw: whatever the sandbox, the gateway or the CLI
    do, the caller gets a response.  The sync endpoint has no [catch]:
    it throws exactly what [syncToR2] throws. *)
Theorem admin_handlers_never_throw (env : Env) (rid : option string) (st : St W) :
  (exists r s, Routes.getStatus st = (inr r, s))
  /\ (exists r s, Routes.getDevices env st = (inr r, s))
  /\ (exists r s, Routes.postApprove env rid st = (inr r, s))
  /\ (exists r s, Routes.postApproveAll env st = (inr r, s))
  /\ (exists r s, Routes.postRestart env st = (inr r, s))
  /\ (forall (e : exn) (st' : St W),
         Routes.postStorageSync env st = (inl e, st') <->
         Sync.syncToR2 env st = (inl e, st')).
Proof.
  repeat split.
  - apply try_catch_total. intros e s. do 2 eexists. reflexivity.
  - apply try_catch_total. intros e s. do 2 eexists. reflexivity.
  - unfold Routes.postApprove. destruct (negb (truthyStr rid)).
    + do 2 eexists. reflexivity.
    + apply try_catch_total. intros e s. do 2 eexists. reflexivity.
  - apply try_catch_total. intros e s. do 2 eexists. reflexivity.
  - apply try_catch_total. intros e s. do 2 eexists. reflexivity.
  - unfold Routes.postStorageSync, bind.
    destruct (Sync.syncToR2 env st) as [[e'|r] s]; [intros H; injection H as -> ->; reflexivity|].
    unfold ret. destruct (Sync.success r); discriminate.
  - unfold Routes.postStorageSync, bind. intros H. rewrite H. reflexivity.
Qed.

(** X8.  The health endpoint always answers HTTP 200, with one of the
    four statuses; [ok] is true exactly for [running], and the process id
    is given exactly for [running] and [not_responding]. *)
Theorem status_always_200 (st : St W) :
  exists (resp : Response) (st' : St W),
    Routes.getStatus st = (inr resp, st')
    /\ code resp = 200%Z
    /\ In (field "status" resp)
          [VStr "not_running"; VStr "running"; VStr "not_responding"; VStr "error"]
    /\ (field "ok" resp = VBool true <-> field "status" resp = VStr "running")
    /\ (hasKey "processId" resp = true <->
        field "status" resp = VStr "running"
        \/ field "status" resp = VStr "not_responding")
    /\ background st' = background st
    /\ started (trace st') = started (trace st).
Proof.
  unfold Routes.getStatus. run. crunch.
  all: do 2 eexists; split; [reflexivity|]; split; [reflexivity|].
  all: unfold field, hasKey, bodyOf;
    cbn [content json lookup existsb fst String.eqb Ascii.eqb Bool.eqb orb].
  all: reduce; rewrite ?started_app; cbn [started]; rewrite ?app_nil_r.
  all: split; [cbn; tauto|].
  all: split; [split; congruence|].
  all: split; [|split; reflexivity].
  all: split; [intros H; try discriminate H; auto|intros [H|H]; congruence].
Qed.

(** X9.  A single approval answers 400 exactly when the request id is
    absent or empty, and then the sandbox is not touched.  With a
    request id it answers 500 with the message of the failure exactly
    when the boot of the gateway, the start of the approve command or
    the reading of its logs throws, and nothing further is called after
    the call that threw; when none of them throws it answers 200 with
    the request id, the captured output and a success field.  It starts
    at most one process, the approve command of that id. *)
Theorem approve_answers (env : Env) (rid : option string) (st : St W) :
  (rid = None \/ rid = Some "" ->
   Routes.postApprove env rid st =
     (inr (jsonWith (VObj [("error", VStr "requestId is required")]) 400), st))
  /\ (forall rid0 : string,
        rid = Some rid0 -> rid0 <> "" ->
        (forall (e : exn) (w1 : W),
            ensureClawdbotGateway env (world st) = (inl e, w1) ->
            Routes.postApprove env rid st =
              (inr (jsonWith (VObj [("error", VStr (errorMessage e))]) 500),
               {| world := w1; trace := (trace st ++ [EvEnsureGateway])%list;
                  background := background st |}))
        /\ (forall (w1 w2 : W) (e : exn),
              ensureClawdbotGateway env (world st) = (inr tt, w1) ->
              startProcess (Routes.approveCmd rid0) w1 = (inl e, w2) ->
              Routes.postApprove env rid st =
                (inr (jsonWith (VObj [("error", VStr (errorMessage e))]) 500),
                 {| world := w2;
                    trace := (trace st ++ [EvEnsureGateway;
                                           EvStartProcess (Routes.approveCmd rid0)])%list;
                    background := background st |}))
        /\ (forall (w1 w2 w3 : W) (p : Process) (e : exn),
              ensureClawdbotGateway env (world st) = (inr tt, w1) ->
              startProcess (Routes.approveCmd rid0) w1 = (inr p, w2) ->
              getLogs p (Routes.waited p Routes.CLI_TIMEOUT_MS w2) = (inl e, w3) ->
              Routes.postApprove env rid st =
                (inr (jsonWith (VObj [("error", VStr (errorMessage e))]) 500),
                 {| world := w3;
                    trace := (trace st ++ [EvEnsureGateway;
                                           EvStartProcess (Routes.approveCmd rid0);
                                           EvGetLogs (id p)])%list;
                    background := background st |}))
        /\ (forall (w1 w2 w3 : W) (p : Process) (logs : Logs),
              ensureClawdbotGateway env (world st) = (inr tt, w1) ->
              startProcess (Routes.approveCmd rid0) w1 = (inr p, w2) ->
              getLogs p (Routes.waited p Routes.CLI_TIMEOUT_MS w2) = (inr logs, w3) ->
              exists success : bool,
                Routes.postApprove env rid st =
                  (inr (json (VObj [("success", VBool success);
                                    ("requestId", VStr rid0);
                                    ("message",
                                     VStr (if success then "Device approved"
                                           else "Approval may have failed"));
                                    ("stdout", VStr (orDefault (stdout logs) ""));
                                    ("stderr", VStr (orDefault (stderr logs) ""))])),
                   {| world := w3;
                      trace := (trace st ++ [EvEnsureGateway;
                                             EvStartProcess (Routes.approveCmd rid0);
                                             EvGetLogs (id p)])%list;
                      background := background st |})))
  /\ (exists (resp : Response) (st' : St W) (added : list event),
        Routes.postApprove env rid st = (inr resp, st')
        /\ trace st' = (trace st ++ added)%list
        /\ (code resp = 200 \/ code resp = 400 \/ code resp = 500)%Z
        /\ (code resp = 400%Z <-> rid = None \/ rid = Some "")
        /\ (started added = []
            \/ started added = [Routes.approveCmd (orDefault rid "")])).
Proof.
  assert (Hrid : truthyStr rid = false <-> rid = None \/ rid = Some "").
  { destruct rid as [x|]; cbn; [|tauto]. rewrite negb_false_iff, String.eqb_eq.
    split; [intros ->; auto|intros [H|H]; [discriminate H|now injection H]]. }
  split; [|split].
  - intros H. apply Hrid in H. unfold Routes.postApprove. rewrite H. reflexivity.
  - intros rid0 -> Hne. unfold Routes.postApprove.
    apply String.eqb_neq in Hne. cbn [truthyStr orDefault]. rewrite Hne. cbn [negb].
    run. repeat split.
    + intros e w1 He. rewrite He. reflexivity.
    + intros w1 w2 e He Hs. rewrite He. reduce. rewrite Hs. reduce.
      rewrite <- app_assoc. reflexivity.
    + intros w1 w2 w3 p e He Hs Hl. rewrite He. reduce. rewrite Hs. reduce.
      rewrite routes_waitForProcess_run. reduce. rewrite Hl. reduce.
      rewrite <- !app_assoc. reflexivity.
    + intros w1 w2 w3 p logs He Hs Hl. rewrite He. reduce. rewrite Hs. reduce.
      rewrite routes_waitForProcess_run. reduce. rewrite Hl. reduce.
      rewrite <- !app_assoc. eexists. reflexivity.
  - unfold Routes.postApprove. destruct (truthyStr rid) eqn:Ht; cbn [negb].
    + assert (Hno : ~ (rid = None \/ rid = Some ""))
        by (intros H; apply Hrid in H; congruence).
      run. crunch.
      all: do 2 eexists; rewrite <- ?app_assoc; cbn [app];
        eexists; split; [reflexivity|]; split; [reflexivity|].
      all: cbn [code json jsonWith Routes.serverError started].
      all: split; [auto|]; split; [split; [discriminate|intros H; destruct (Hno H)]|auto].
    + exists (jsonWith (VObj [("error", VStr "requestId is required")]) 400), st, [].
      rewrite app_nil_r. cbn. repeat split; auto. intros _. apply Hrid. reflexivity.
Qed.

End RoutesInvariants.

Section KeywordFacts.

Lemma toLowerCase_app (a b : string) :
  toLowerCase (a ++ b) = toLowerCase a ++ toLowerCase b.
Proof. induction a as [|c a IH]; cbn; [reflexivity|rewrite IH; reflexivity]. Qed.

Lemma toLowerCase_split (s a b : string) :
  toLowerCase s = a ++ b ->
  exists s1 s2, s = s1 ++ s2 /\ toLowerCase s1 = a /\ toLowerCase s2 = b.
Proof.
  revert s; induction a as [|c a IH]; intros s H.
  - exists "", s. repeat split. exact H.
  - destruct s as [|d s]; [discriminate H|]. cbn in H. injection H as Hd H.
    destruct (IH s H) as (s1 & s2 & -> & H1 & H2).
    exists (String d s1), s2. cbn. rewrite Hd, H1. repeat split. exact H2.
Qed.

(** X10.  An approval counts as successful exactly when the exit code is
    zero or the standard output contains the word "approved" in any mix
    of upper and lower case, anywhere in the text. *)
Theorem approved_iff_keyword_or_zero (out : string) (exit : option Z) :
  Routes.approved out exit = true <->
  exit = Some 0%Z
  \/ exists pre kw post, out = pre ++ kw ++ post /\ toLowerCase kw = "approved".
Proof.
  unfold Routes.approved. rewrite orb_true_iff, includes_split. split.
  - intros [(a & b & H)|H].
    + right. apply toLowerCase_split in H as (pre & rest & -> & _ & H).
      apply toLowerCase_split in H as (kw & post & -> & Hkw & _).
      exists pre, kw, post. split; [reflexivity|exact Hkw].
    + left. destruct exit as [z|]; [|discriminate].
      apply Z.eqb_eq in H. now subst.
  - intros [->|(pre & kw & post & -> & Hkw)].
    + right. reflexivity.
    + left. exists (toLowerCase pre), (toLowerCase post).
      rewrite !toLowerCase_app, Hkw. reflexivity.
Qed.

End KeywordFacts.

Section BulkInvariants.
Context {W : Type} `{SB : Sandbox W} `{IM : Imports W}.

(** One approval starts one process, the approve command of its device,
    adds to the trace only, and boots nothing. *)
Lemma approveOne_trace (device : value) (st : St W) :
  Routes.isDevice device ->
  exists (r : Routes.ApproveResult) (st' : St W) (added : list event),
    Routes.approveOne device st = (inr r, st')
    /\ trace st' = (trace st ++ added)%list
    /\ background st' = background st
    /\ started added = [Routes.approveCmd (toStr (Routes.requestIdOf device))]
    /\ boots added = 0%nat
    /\ Routes.requestId r = Routes.requestIdOf device.
Proof.
  intros [fs ->]. unfold Routes.approveOne. run. cbn [getProp Routes.requestIdOf].
  crunch.
  all: do 2 eexists; rewrite <- ?app_assoc; cbn [app];
    eexists; split; [reflexivity|]; split; [reflexivity|]; repeat split.
Qed.

(** X11.  Over devices that are objects whose request id is a string or
    a safe integer, the loop of the bulk approval never throws: it
    starts exactly one approve command per pending device, in the order
    of the list and with the request id of each as a template literal
    prints it (a string as it is, an integer in decimal), leaves one
    result per device in the same order, and boots nothing. *)
Theorem approveEach_one_command_per_device (devices : list value) (st : St W) :
  Forall (fun d => Routes.isDevice d /\ Routes.plainId (Routes.requestIdOf d)) devices ->
  exists (results : list Routes.ApproveResult) (st' : St W) (added : list event),
    Routes.approveEach devices st = (inr results, st')
    /\ trace st' = (trace st ++ added)%list
    /\ background st' = background st
    /\ started added =
         map (fun d => Routes.approveCmd
                         (match Routes.requestIdOf d with
                          | VStr s => s
                          | VNum z => ofZ z
                          | _ => ""
                          end)) devices
    /\ map Routes.requestId results = map Routes.requestIdOf devices
    /\ boots added = 0%nat.
Proof.
  intros H. revert st. induction H as [|d ds [Hd Hid] _ IH]; intros st.
  - exists [], st, []. rewrite app_nil_r. repeat split.
  - cbn [Routes.approveEach].
    destruct (approveOne_trace st Hd) as (r & st1 & a1 & Hr & Ht1 & Hb1 & Hs1 & Hz1 & Hrid).
    destruct (IH st1) as (rs & st2 & a2 & Hrs & Ht2 & Hb2 & Hs2 & Hids & Hz2).
    exists (r :: rs), st2, (a1 ++ a2)%list.
    split; [erewrite bind_run by exact Hr; erewrite bind_run by exact Hrs; reflexivity|].
    split; [rewrite Ht2, Ht1, app_assoc; reflexivity|].
    split; [congruence|].
    split; [rewrite started_app, Hs1, Hs2; cbn [map app]; f_equal; f_equal;
            destruct Hid as [[s ->]|(z & -> & _)]; reflexivity|].
    split; [cbn [map]; rewrite Hrid, Hids; reflexivity|].
    rewrite boots_app, Hz1, Hz2. reflexivity.
Qed.

(** X12.  The aggregate of a bulk approval splits the results in two:
    every result is among the approved ids or among the failed entries
    and never in both counts, so the two lists together are as long as
    the list of results; every failed entry says [success: false]. *)
Theorem aggregate_partitions (results : list Routes.ApproveResult) (total : value) :
  exists approved failed : list value,
    field "approved" (Routes.aggregate results total) = VArr approved
    /\ field "failed" (Routes.aggregate results total) = VArr failed
    /\ (List.length approved + List.length failed = List.length results)%nat
    /\ approved = map Routes.requestId (filter Routes.success results)
    /\ (forall r, In r results -> Routes.success r = false ->
                  In (Routes.resultObj r) failed)
    /\ (forall v, In v failed ->
                  exists fs, v = VObj fs /\ lookup "success" fs = VBool false).
Proof.
  exists (map Routes.requestId (filter Routes.success results)),
    (map Routes.resultObj (filter (fun r => negb (Routes.success r)) results)).
  split; [reflexivity|]. split; [reflexivity|]. split; [|split; [reflexivity|split]].
  - rewrite !length_map. induction results as [|r rs IH]; [reflexivity|].
    cbn. destruct (Routes.success r); cbn; lia.
  - intros r Hin Hf. apply in_map. apply filter_In. split; [exact Hin|].
    rewrite Hf. reflexivity.
  - intros v Hv. apply in_map_iff in Hv as (r & <- & Hr).
    apply filter_In in Hr as [_ Hr]. apply negb_true_iff in Hr.
    eexists. split; [reflexivity|]. cbn. rewrite Hr. reflexivity.
Qed.

(** X13.  A bulk approval whose listing has no span of braces, or whose
    listing decodes to an object whose [pending] is absent, falsy or the
    empty array, answers 200 'No pending devices to approve'; one whose
    span does not decode answers 500 'Failed to parse device list' with
    the raw output.  In all these cases the list command is the only
    process started. *)
Theorem bulk_approve_without_devices
  (env : Env) (st : St W) (w1 w2 w3 : W) (lp : Process) (llogs : Logs) :
  ensureClawdbotGateway env (world st) = (inr tt, w1) ->
  startProcess Routes.listCmd w1 = (inr lp, w2) ->
  getLogs lp (Routes.waited lp Routes.CLI_TIMEOUT_MS w2) = (inr llogs, w3) ->
  let out := orDefault (stdout llogs) "" in
  let st3 := {| world := w3;
                trace := (trace st ++ [EvEnsureGateway;
                                       EvStartProcess Routes.listCmd;
                                       EvGetLogs (id lp)])%list;
                background := background st |} in
  let none := json (VObj [("approved", VArr []);
                          ("message", VStr "No pending devices to approve")]) in
  (matchBraces out = None -> Routes.postApproveAll env st = (inr none, st3))
  /\ (forall m fs,
        matchBraces out = Some m -> JSON_parse m = Some (VObj fs) ->
        truthy (lookup "pending" fs) = false \/ lookup "pending" fs = VArr [] ->
        Routes.postApproveAll env st = (inr none, st3))
  /\ (forall m,
        matchBraces out = Some m -> JSON_parse m = None ->
        Routes.postApproveAll env st =
          (inr (jsonWith (VObj [("error", VStr "Failed to parse device list");
                                ("raw", VStr out)]) 500), st3)).
Proof.
  intros He Hs Hl out st3 none.
  unfold Routes.postApproveAll, try_catch.
  erewrite bind_run by (apply call_run; exact He).
  erewrite bind_run by (apply call_run; exact Hs).
  erewrite bind_run by apply routes_waitForProcess_run.
  erewrite bind_run by (apply call_run; exact Hl).
  reduce. rewrite <- !app_assoc. cbn [app]. fold out. fold st3.
  unfold Routes.pendingOf. repeat split.
  - intros Hm. rewrite Hm. reflexivity.
  - intros m fs Hm Hp [Hf|Hf]; rewrite Hm, Hp; cbn [getProp]; rewrite Hf; reflexivity.
  - intros m Hm Hp. rewrite Hm, Hp. reflexivity.
Qed.

(** X14.  A restart that finds a process logs a line, kills that
    process exactly once, logs a kill that threw and goes on, waits two
    seconds in either case, and only then calls [ensureClawdbotGateway],
    once and without awaiting it: the sandbox is as the wait left it and
    the promise of the call is handed to [waitUntil].  It answers with
    the id of the killed process.  A lookup that throws is answered 500
    with the message of the failure: nothing is killed, no boot is
    called for and nothing is handed to [waitUntil]. *)
Theorem restart_kills_then_boots (env : Env) (st : St W) :
  (forall (p : Process) (w1 w2 : W) (r : exn + unit),
      findExistingClawdbotProcess (world st) = (inr (Some p), w1) ->
      kill p w1 = (r, w2) ->
      Routes.postRestart env st =
        (inr (json (VObj [("success", VBool true);
                          ("message",
                           VStr "Gateway process killed, new instance starting...");
                          ("previousProcessId", VStr (id p))])),
         {| world := sleep 2000 w2;
            trace := (trace st
                        ++ [EvFindProcess;
                            EvConsoleLog "Killing existing gateway process:";
                            EvKill (id p)]
                        ++ match r with
                           | inr _ => []
                           | inl _ => [EvConsoleError "Error killing process:"]
                           end
                        ++ [EvEnsureGateway])%list;
            background := (background st ++ [BootGateway env])%list |}))
  /\ (forall (e : exn) (w1 : W),
        findExistingClawdbotProcess (world st) = (inl e, w1) ->
        Routes.postRestart env st =
          (inr (jsonWith (VObj [("error", VStr (errorMessage e))]) 500),
           {| world := w1; trace := (trace st ++ [EvFindProcess])%list;
              background := background st |})).
Proof.
  split.
  - intros p w1 w2 r Hf Hk. unfold Routes.postRestart. run. step Hf. step Hk.
    destruct r as [e|[]]; reduce; rewrite <- !app_assoc; reflexivity.
  - intros e w1 Hf. unfold Routes.postRestart. run. step Hf. reflexivity.
Qed.

End BulkInvariants.

(* ===================================================================== *)
(** * Further properties: the access middleware *)
(* ===================================================================== *)

Section TokenFacts.

Lemma substring_all (s : string) : substring 0 (String.length s) s = s.
Proof. induction s as [|c s IH]; cbn; [reflexivity|rewrite IH; reflexivity]. Qed.

Lemma length_append (a b : string) :
  String.length (a ++ b) = (String.length a + String.length b)%nat.
Proof. induction a as [|c a IH]; cbn; [reflexivity|rewrite IH; reflexivity]. Qed.

(** Removing a pattern that heads the text leaves the rest of it. *)
Lemma removeFirst_prefix (p t : string) : removeFirst (p ++ t) p = t.
Proof.
  assert (Hp : String.prefix p (p ++ t) = true) by (apply prefix_split; eauto).
  assert (Hs : substring (String.length p) (String.length (p ++ t) - String.length p)
                         (p ++ t) = t).
  { rewrite length_append. replace (String.length p + String.length t - String.length p)%nat
      with (String.length t) by lia.
    clear Hp. induction p as [|c p IH]; cbn; [apply substring_all|exact IH]. }
  destruct p as [|c p]; cbn [append removeFirst] in *.
  - destruct t; cbn in *; rewrite ?Hs; reflexivity.
  - rewrite Hp. exact Hs.
Qed.

(** X16.  Without a configured gateway token no request carries a valid
    one.  With a token configured, the [token] parameter of the query,
    the header [X-Gateway-Token], or, when that header is absent or
    empty, the header [Authorization: Bearer <token>] are each enough;
    a non-empty [X-Gateway-Token] that is wrong hides the [Authorization]
    header. *)
Theorem gateway_token_rules (c : Auth.Context) :
  (truthyStr (MOLTBOT_GATEWAY_TOKEN (Auth.env c)) = false ->
   Auth.hasValidGatewayToken c = false)
  /\ (forall tok : string,
        MOLTBOT_GATEWAY_TOKEN (Auth.env c) = Some tok -> tok <> "" ->
        (Auth.queryToken (Auth.req c) = Some tok ->
         Auth.hasValidGatewayToken c = true)
        /\ (Auth.header (Auth.req c) "X-Gateway-Token" = Some tok ->
            Auth.hasValidGatewayToken c = true)
        /\ (truthyStr (Auth.header (Auth.req c) "X-Gateway-Token") = false ->
            Auth.header (Auth.req c) "Authorization" = Some ("Bearer " ++ tok) ->
            Auth.hasValidGatewayToken c = true)
        /\ (forall x : string,
              Auth.header (Auth.req c) "X-Gateway-Token" = Some x ->
              x <> "" -> x <> tok ->
              Auth.queryToken (Auth.req c) <> Some tok ->
              Auth.hasValidGatewayToken c = false)).
Proof.
  unfold Auth.hasValidGatewayToken. split.
  - destruct (MOLTBOT_GATEWAY_TOKEN (Auth.env c)) as [tok|]; [|reflexivity].
    cbn. intros H. apply negb_false_iff in H. rewrite H. reflexivity.
  - intros tok -> Hne. apply String.eqb_neq in Hne. rewrite Hne. repeat split.
    + intros ->. cbn. rewrite String.eqb_refl. reflexivity.
    + intros ->. unfold orStr. cbn [truthyStr]. rewrite Hne. cbn.
      rewrite String.eqb_refl. apply orb_true_r.
    + intros Hx ->. unfold orStr. rewrite Hx. cbn [option_map].
      rewrite (removeFirst_prefix "Bearer " tok). cbn.
      rewrite String.eqb_refl. apply orb_true_r.
    + intros x -> Hx Hxt Hq. unfold orStr. cbn [truthyStr].
      apply String.eqb_neq in Hx. rewrite Hx. cbn [negb Auth.eqOpt].
      apply String.eqb_neq in Hxt. rewrite Hxt, orb_false_r.
      destruct (Auth.queryToken (Auth.req c)) as [q|]; [|reflexivity].
      cbn. apply String.eqb_neq. congruence.
Qed.

End TokenFacts.

Section CookieFacts.

Lemma trimEnd_cons (c : ascii) (s : string) :
  isWhiteSpace c = false -> trimEnd (String c s) = String c (trimEnd s).
Proof. intros H. cbn [trimEnd]. rewrite H. destruct (trimEnd s); reflexivity. Qed.

Lemma trimStart_cons (c : ascii) (s : string) :
  isWhiteSpace c = false -> trimStart (String c s) = String c s.
Proof. intros H. cbn [trimStart]. rewrite H. reflexivity. Qed.

Lemma without_cons (c a : ascii) (s : string) :
  without c (String a s) <-> a <> c /\ without c s.
Proof. unfold without. cbn. tauto. Qed.

(** A text without the separator is its only part. *)
Lemma split_without (c : ascii) (s : string) : without c s -> split c s = [s].
Proof.
  induction s as [|a s IH]; [reflexivity|].
  intros H. apply without_cons in H as [Hne H]. cbn [split]. rewrite (IH H).
  apply Ascii.eqb_neq in Hne. rewrite Hne. reflexivity.
Qed.

Lemma split_nonempty (c : ascii) (s : string) : split c s <> [].
Proof.
  induction s as [|a s IH]; cbn; [discriminate|].
  destruct (split c s); [contradiction|]. destruct (Ascii.eqb a c); discriminate.
Qed.

(** The first separator ends the first part. *)
Lemma split_at (c : ascii) (a b : string) :
  without c a -> split c (a ++ String c b) = a :: split c b.
Proof.
  induction a as [|x a IH]; intros H.
  - cbn. rewrite Ascii.eqb_refl.
    destruct (split c b) eqn:E; [destruct (split_nonempty _ _ E)|reflexivity].
  - apply without_cons in H as [Hne H]. cbn [append split]. rewrite (IH H).
    apply Ascii.eqb_neq in Hne. rewrite Hne. reflexivity.
Qed.

(** X17.  The assertion header, when it is there and not empty, is the
    token, whatever the cookies are; the token is never the empty text;
    without header and without cookies there is none.  From a [Cookie]
    header that is the single cookie [CF_Authorization=v], the token is
    the part of [v] before its first [=], and none when that part is
    empty. *)
Theorem extractJWT_rules (c : Auth.Context) :
  (forall h : string,
      Auth.header (Auth.req c) "CF-Access-JWT-Assertion" = Some h -> h <> "" ->
      Auth.extractJWT c = Some h)
  /\ Auth.extractJWT c <> Some ""
  /\ (truthyStr (Auth.header (Auth.req c) "CF-Access-JWT-Assertion") = false ->
      Auth.header (Auth.req c) "Cookie" = None ->
      Auth.extractJWT c = None)
  /\ (forall v : string,
        truthyStr (Auth.header (Auth.req c) "CF-Access-JWT-Assertion") = false ->
        Auth.header (Auth.req c) "Cookie" = Some ("CF_Authorization=" ++ v) ->
        without ";" v ->
        Auth.extractJWT c =
          match split "=" v with
          | first :: _ => if first =? "" then None else Some first
          | [] => None
          end).
Proof.
  unfold Auth.extractJWT. repeat split.
  - intros h -> Hne. unfold orStr. cbn [truthyStr].
    apply String.eqb_neq in Hne. rewrite Hne. cbn. rewrite Hne. reflexivity.
  - destruct (truthyStr (orStr _ _)) eqn:E; [|discriminate].
    intros H. rewrite H in E. discriminate E.
  - intros Hh ->. unfold orStr. rewrite Hh. reflexivity.
  - intros v Hh -> Hv. unfold orStr. rewrite Hh.
    assert (Hsplit : split ";" ("CF_Authorization=" ++ v) = ["CF_Authorization=" ++ v]).
    { apply split_without. unfold without in *. cbn. intuition discriminate. }
    rewrite Hsplit. cbn [find].
    assert (Hstart : startsWith (trim ("CF_Authorization=" ++ v)) "CF_Authorization=" = true).
    { unfold trim, startsWith. cbn [append].
      rewrite trimStart_cons by reflexivity.
      rewrite !trimEnd_cons by reflexivity.
      apply prefix_split. exists (trimEnd v). reflexivity. }
    rewrite Hstart. unfold Auth.secondPart.
    change ("CF_Authorization=" ++ v) with ("CF_Authorization" ++ String "=" v).
    rewrite split_at by (unfold without; cbn; intuition discriminate).
    cbn [nth_error].
    destruct (split "=" v) as [|first rest] eqn:E; [destruct (split_nonempty _ _ E)|].
    cbn. destruct (first =? ""); reflexivity.
Qed.

End CookieFacts.

Section MiddlewareInvariants.
Context {W : Type} `{IM : Imports W}.

(** X18.  Outside development mode and without a valid gateway token,
    a request is turned away before the handler in three cases, with
    the same answer whatever the handler is.  When a binding of
    Cloudflare Access is absent or empty the answer is 500, and the
    state is untouched.  When Access is configured and the request
    carries no token the answer is 401, or for the HTML type with
    [redirectOnMissing] the redirect 302 to the team domain, and the
    state is untouched.  When the verification of the token throws the
    answer is 401 with the message of the failure, after the one call of
    [verifyAccessJWT] and one line of error log.  With the JSON type
    every one of these answers is JSON. *)
Theorem middleware_turns_away
  (options : Auth.AccessMiddlewareOptions) (c : Auth.Context) (st : St W) :
  Auth.isDevMode (Auth.env c) = false ->
  Auth.hasValidGatewayToken c = false ->
  (truthyStr (CF_ACCESS_TEAM_DOMAIN (Auth.env c)) = false
   \/ truthyStr (CF_ACCESS_AUD (Auth.env c)) = false ->
   forall next : Auth.Context -> M W Response,
     Auth.createAccessMiddleware options c next st =
       (inr {| code := 500;
               content :=
                 match Auth.type options with
                 | Auth.TJson =>
                     Json (VObj [("error", VStr "Cloudflare Access not configured");
                                 ("hint", VStr "Set CF_ACCESS_TEAM_DOMAIN and CF_ACCESS_AUD environment variables")])
                 | Auth.THtml => Html Auth.pageNotConfigured
                 end |}, st))
  /\ (forall team aud : string,
        CF_ACCESS_TEAM_DOMAIN (Auth.env c) = Some team -> team <> "" ->
        CF_ACCESS_AUD (Auth.env c) = Some aud -> aud <> "" ->
        (Auth.extractJWT c = None ->
         forall next : Auth.Context -> M W Response,
           Auth.createAccessMiddleware options c next st =
             (inr match Auth.type options, Auth.redirectOnMissing options with
                  | Auth.THtml, true =>
                      {| code := 302; content := Redirect ("https://" ++ team) |}
                  | Auth.THtml, false =>
                      {| code := 401; content := Html (Auth.pageMissing team) |}
                  | Auth.TJson, _ =>
                      {| code := 401;
                         content :=
                           Json (VObj [("error", VStr "Unauthorized");
                                       ("hint", VStr "Missing Cloudflare Access JWT. Ensure this route is protected by Cloudflare Access.")]) |}
                  end, st))
        /\ (forall (jwt : string) (e : exn) (w' : W),
              Auth.extractJWT c = Some jwt ->
              verifyAccessJWT jwt team aud (world st) = (inl e, w') ->
              forall next : Auth.Context -> M W Response,
                Auth.createAccessMiddleware options c next st =
                  (inr {| code := 401;
                          content :=
                            match Auth.type options with
                            | Auth.TJson =>
                                Json (VObj [("error", VStr "Unauthorized");
                                            ("details",
                                             VStr match e with
                                                  | ErrorObj m => m
                                                  | Thrown _ => "JWT verification failed"
                                                  end)])
                            | Auth.THtml => Html (Auth.pageInvalid team)
                            end |},
                   {| world := w';
                      trace := (trace st
                                  ++ [EvVerifyJWT jwt;
                                      EvConsoleError "Access JWT verification failed:"])%list;
                      background := background st |}))).
Proof.
  intros Hdev Htok. unfold Auth.createAccessMiddleware. rewrite Hdev, Htok. split.
  - intros Hcfg next.
    assert (E : negb (truthyStr (CF_ACCESS_TEAM_DOMAIN (Auth.env c)))
                || negb (truthyStr (CF_ACCESS_AUD (Auth.env c))) = true)
      by (destruct Hcfg as [-> | ->]; cbn; rewrite ?orb_true_r; reflexivity).
    rewrite E. destruct (Auth.type options); reflexivity.
  - intros team aud Hteam Hne1 Haud Hne2. rewrite Hteam, Haud.
    apply String.eqb_neq in Hne1. apply String.eqb_neq in Hne2.
    cbn [truthyStr orDefault]. rewrite Hne1, Hne2. cbn [negb orb]. split.
    + intros Hjwt next. rewrite Hjwt.
      destruct (Auth.type options), (Auth.redirectOnMissing options); reflexivity.
    + intros jwt e w' Hjwt Hv next. rewrite Hjwt. run. rewrite Hv. reduce.
      rewrite <- app_assoc. destruct (Auth.type options); reflexivity.
Qed.

(** X19.  Outside development mode, a valid gateway token lets the
    request through as the CLI user without any verification of a JWT,
    also when Access is configured and a JWT is present.  Without a valid
    token, with Access configured and a token that [verifyAccessJWT]
    accepts, the handler runs after the verification and sees the email
    and the name of the verified payload. *)
Theorem middleware_lets_through
  (options : Auth.AccessMiddlewareOptions) (c : Auth.Context)
  (next : Auth.Context -> M W Response) (st : St W) :
  Auth.isDevMode (Auth.env c) = false ->
  (Auth.hasValidGatewayToken c = true ->
   Auth.createAccessMiddleware options c next st =
     next {| Auth.env := Auth.env c; Auth.req := Auth.req c;
             Auth.accessUser := Some {| Auth.userEmail := VStr "gateway-token@cli";
                                        Auth.userName := VStr "CLI User" |} |} st)
  /\ (forall (team aud jwt : string) (payload : JWTPayload) (w' : W)
             (resp : Response) (st' : St W),
        Auth.hasValidGatewayToken c = false ->
        CF_ACCESS_TEAM_DOMAIN (Auth.env c) = Some team -> team <> "" ->
        CF_ACCESS_AUD (Auth.env c) = Some aud -> aud <> "" ->
        Auth.extractJWT c = Some jwt ->
        verifyAccessJWT jwt team aud (world st) = (inr payload, w') ->
        next {| Auth.env := Auth.env c; Auth.req := Auth.req c;
                Auth.accessUser := Some {| Auth.userEmail := email payload;
                                           Auth.userName := name payload |} |}
             {| world := w'; trace := (trace st ++ [EvVerifyJWT jwt])%list;
                background := background st |} = (inr resp, st') ->
        Auth.createAccessMiddleware options c next st = (inr resp, st')).
Proof.
  intros Hdev. unfold Auth.createAccessMiddleware. rewrite Hdev. split.
  - intros ->. reflexivity.
  - intros team aud jwt payload w' resp st' -> Hteam Hne1 Haud Hne2 Hjwt Hv Hnext.
    rewrite Hteam, Haud, Hjwt.
    apply String.eqb_neq in Hne1. apply String.eqb_neq in Hne2.
    cbn [truthyStr orDefault]. rewrite Hne1, Hne2. cbn [negb orb].
    run. rewrite Hv. reduce. unfold Auth.setAccessUser. rewrite Hnext. reflexivity.
Qed.

End MiddlewareInvariants.

(* ===================================================================== *)
(** * Further properties: src/index.ts *)
(* ===================================================================== *)

Section OptionsFacts.

Lemma lowerChar_idempotent (c : ascii) : lowerChar (lowerChar c) = lowerChar c.
Proof. destruct c as [[] [] [] [] [] [] [] []]; reflexivity. Qed.

(** Lowercasing twice is lowercasing once. *)
Lemma toLowerCase_idempotent (s : string) : toLowerCase (toLowerCase s) = toLowerCase s.
Proof.
  induction s as [|c s IH]; cbn; [reflexivity|].
  rewrite lowerChar_idempotent, IH. reflexivity.
Qed.

(** X20.  The sandbox is kept alive when [SANDBOX_SLEEP_AFTER] is
    absent, empty, or "never" in any mix of upper and lower case.  For
    every other setting it sleeps after the given duration in lower
    case; that duration is never empty and never "never". *)
Theorem sandbox_options_rules (env : Index.WorkerEnv) :
  (truthyStr (Index.SANDBOX_SLEEP_AFTER env) = false ->
   Index.buildSandboxOptions env = Index.KeepAlive)
  /\ (forall s : string,
        Index.SANDBOX_SLEEP_AFTER env = Some s -> toLowerCase s = "never" ->
        Index.buildSandboxOptions env = Index.KeepAlive)
  /\ (forall s : string,
        Index.SANDBOX_SLEEP_AFTER env = Some s ->
        s <> "" -> toLowerCase s <> "never" ->
        Index.buildSandboxOptions env = Index.SleepAfter (toLowerCase s))
  /\ (forall d : string,
        Index.buildSandboxOptions env = Index.SleepAfter d ->
        d <> "" /\ d <> "never" /\ toLowerCase d = d
        /\ exists s, Index.SANDBOX_SLEEP_AFTER env = Some s /\ d = toLowerCase s).
Proof.
  unfold Index.buildSandboxOptions. repeat split.
  - destruct (Index.SANDBOX_SLEEP_AFTER env) as [s|]; [|reflexivity].
    cbn. intros H. apply negb_false_iff, String.eqb_eq in H. subst s. reflexivity.
  - intros s -> Hs. cbn. rewrite Hs. reflexivity.
  - intros s -> Hne Hnever. cbn [option_map orDefault].
    destruct (toLowerCase s =? "") eqn:E.
    + apply String.eqb_eq in E. destruct s; [destruct (Hne eq_refl)|discriminate E].
    + apply String.eqb_neq in Hnever. rewrite Hnever. reflexivity.
  - destruct (Index.SANDBOX_SLEEP_AFTER env) as [s|]; [|discriminate].
    cbn [option_map orDefault] in *.
    destruct (toLowerCase s =? "") eqn:E; [discriminate|].
    destruct (toLowerCase s =? "never"); [discriminate|].
    injection H as <-. apply String.eqb_neq. exact E.
  - destruct (Index.SANDBOX_SLEEP_AFTER env) as [s|]; [|discriminate].
    cbn [option_map orDefault] in *.
    destruct (toLowerCase s =? "") eqn:E; [discriminate|].
    destruct (toLowerCase s =? "never") eqn:E'; [discriminate|].
    injection H as <-. apply String.eqb_neq. exact E'.
  - destruct (Index.SANDBOX_SLEEP_AFTER env) as [s|]; [|discriminate].
    cbn [option_map orDefault] in *.
    destruct (toLowerCase s =? "") eqn:E; [discriminate|].
    destruct (toLowerCase s =? "never"); [discriminate|].
    injection H as <-. apply toLowerCase_idempotent.
  - destruct (Index.SANDBOX_SLEEP_AFTER env) as [s|]; [|discriminate].
    cbn [option_map orDefault] in *.
    destruct (toLowerCase s =? "") eqn:E; [discriminate|].
    destruct (toLowerCase s =? "never"); [discriminate|].
    injection H as <-. exists s. split; reflexivity.
Qed.

End OptionsFacts.

Section IndexInvariants.
Context {W : Type} `{SB : Sandbox W} `{IM : Imports W} `{PX : Index.Proxy W}.

(** X21.  When the gateway cannot be started the proxy route answers
    503 with the message of the failure and forwards nothing: the sandbox
    is left as the failed start left it, whatever the request is.  The
    hint names the missing API key whenever the key is absent or empty,
    also when the message speaks of memory; with the key set it names
    memory exactly when the message contains 'heap out of memory' or
    'OOM'. *)
Theorem proxy_answers_503_when_boot_fails
  (env : Index.WorkerEnv) (request : Index.RawRequest) (st : St W)
  (e : exn) (w1 : W) :
  ensureClawdbotGateway (Index.bindings env) (world st) = (inl e, w1) ->
  exists resp : Response,
    Index.proxyAll env request st =
      (inr resp, {| world := w1;
                    trace := (trace st ++ [EvEnsureGateway;
                                           EvConsoleError "Failed to start Clawdbot:"])%list;
                    background := background st |})
    /\ code resp = 503%Z
    /\ field "error" resp = VStr "Clawdbot gateway failed to start"
    /\ field "details" resp = VStr (errorMessage e)
    /\ (truthyStr (Index.ANTHROPIC_API_KEY env) = false ->
        field "hint" resp = VStr Index.keyHint)
    /\ (truthyStr (Index.ANTHROPIC_API_KEY env) = true ->
        (field "hint" resp = VStr Index.memoryHint <->
         includes (errorMessage e) "heap out of memory" = true
         \/ includes (errorMessage e) "OOM" = true)
        /\ (field "hint" resp = VStr Index.memoryHint
            \/ field "hint" resp = VStr Index.defaultHint)).
Proof.
  intros He. unfold Index.proxyAll. run. step He. rewrite <- app_assoc. cbn [app].
  eexists. split; [reflexivity|]. split; [reflexivity|].
  unfold field, bodyOf.
  cbn [content jsonWith lookup String.eqb Ascii.eqb Bool.eqb].
  split; [reflexivity|]. split; [reflexivity|]. unfold Index.hintFor. split.
  - intros ->. reflexivity.
  - intros ->. cbn [negb].
    destruct (includes (errorMessage e) "heap out of memory" || includes (errorMessage e) "OOM")
      eqn:E.
    + split; [|auto]. split; [intros _|reflexivity]. apply orb_true_iff. exact E.
    + split; [|auto]. apply orb_false_iff in E as [E1 E2]. split.
      * intros H. discriminate H.
      * intros [H|H]; congruence.
Qed.

(** X22.  Once the gateway is there, the proxy route hands the request
    to [wsConnect] exactly when the [Upgrade] header is "websocket" in
    any mix of upper and lower case, and to [containerFetch] otherwise;
    it returns the response, or throws the failure, of that call
    unchanged. *)
Theorem proxy_routes_by_upgrade
  (env : Index.WorkerEnv) (request : Index.RawRequest) (st : St W) (w1 : W) :
  ensureClawdbotGateway (Index.bindings env) (world st) = (inr tt, w1) ->
  (forall u : string,
      Index.upgrade request = Some u -> toLowerCase u = "websocket" ->
      fst (Index.proxyAll env request st)
        = fst (Index.wsConnect request Index.CLAWDBOT_PORT w1)
      /\ world (snd (Index.proxyAll env request st))
         = snd (Index.wsConnect request Index.CLAWDBOT_PORT w1))
  /\ ((forall u : string, Index.upgrade request = Some u -> toLowerCase u <> "websocket") ->
      fst (Index.proxyAll env request st)
        = fst (Index.containerFetch request Index.CLAWDBOT_PORT w1)
      /\ world (snd (Index.proxyAll env request st))
         = snd (Index.containerFetch request Index.CLAWDBOT_PORT w1)).
Proof.
  intros He. unfold Index.proxyAll, Index.isWebSocket. split.
  - intros u -> Hu. rewrite Hu, String.eqb_refl. run. step He.
    unfold Index.perform. reduce.
    destruct (Index.wsConnect request Index.CLAWDBOT_PORT w1) as [r w2].
    split; reflexivity.
  - intros Hno.
    assert (Hws : match Index.upgrade request with
                  | Some u => toLowerCase u =? "websocket"
                  | None => false
                  end = false).
    { destruct (Index.upgrade request) as [u|]; [|reflexivity].
      apply String.eqb_neq. apply Hno. reflexivity. }
    rewrite Hws. run. step He. unfold Index.perform. reduce.
    destruct (Index.containerFetch request Index.CLAWDBOT_PORT w1) as [r w2].
    split; reflexivity.
Qed.

(** X23.  Unless [DEBUG_ROUTES] is the string 'true', a debug route
    answers 404 before any authentication: the state is untouched and the
    answer is the same in development mode, with a valid gateway token,
    and for every handler.  With [DEBUG_ROUTES] 'true' a debug route is
    guarded like an admin route. *)
Theorem debug_routes_are_gated
  (env : Index.WorkerEnv) (c : Auth.Context)
  (handler : Auth.Context -> M W Response) (st : St W) :
  (Index.DEBUG_ROUTES env <> Some "true" ->
   Index.debugRoute env c handler st =
     (inr (jsonWith (VObj [("error", VStr "Debug routes are disabled")]) 404), st))
  /\ (Index.DEBUG_ROUTES env = Some "true" ->
      Index.debugRoute env c handler st = Index.adminRoute c handler st).
Proof.
  unfold Index.debugRoute, Index.debugGate, Index.adminRoute. split.
  - intros H. destruct (Index.DEBUG_ROUTES env) as [s|]; [|reflexivity].
    destruct (s =? "true") eqn:E; [|reflexivity].
    apply String.eqb_eq in E. congruence.
  - intros ->. reflexivity.
Qed.

(** What [syncToR2] does and returns does not depend on the trace and
    the background it starts from. *)
Lemma sync_trace_independent (env : Env) (w : W)
      (tr1 tr2 : list event) (bg1 bg2 : list task) :
  exists (res : exn + Sync.SyncResult) (w' : W) (added : list event),
    Sync.syncToR2 env {| world := w; trace := tr1; background := bg1 |}
      = (res, {| world := w'; trace := (tr1 ++ added)%list; background := bg1 |})
    /\ Sync.syncToR2 env {| world := w; trace := tr2; background := bg2 |}
       = (res, {| world := w'; trace := (tr2 ++ added)%list; background := bg2 |}).
Proof.
  unfold Sync.syncToR2, Sync.sanityCheck, Sync.mirror. run. crunch.
  all: rewrite <- ?app_assoc; cbn [app].
  all: do 2 eexists.
  all: first [ exists []; rewrite !app_nil_r; split; reflexivity
             | eexists; split; reflexivity ].
Qed.

(** X24.  The cron handler does to the sandbox what [syncToR2] does and
    nothing more: same final state of the sandbox, same processes
    started.  It throws exactly when [syncToR2] throws; otherwise the
    last thing it does is to write one line to the console, an error
    line exactly when the sync failed. *)
Theorem scheduled_is_one_sync (env : Index.WorkerEnv) (st : St W) :
  world (snd (Index.scheduled env st))
    = world (snd (Sync.syncToR2 (Index.bindings env) st))
  /\ started (trace (snd (Index.scheduled env st)))
     = started (trace (snd (Sync.syncToR2 (Index.bindings env) st)))
  /\ (forall e : exn,
        fst (Index.scheduled env st) = inl e <->
        fst (Sync.syncToR2 (Index.bindings env) st) = inl e)
  /\ (forall r : Sync.SyncResult,
        fst (Sync.syncToR2 (Index.bindings env) st) = inr r ->
        exists before : list event,
          fst (Index.scheduled env st) = inr tt
          /\ trace (snd (Index.scheduled env st)) =
               (before ++
                  [if Sync.success r
                   then EvConsoleLog "[cron] Backup sync completed successfully at"
                   else EvConsoleError "[cron] Backup sync failed:"])%list).
Proof.
  destruct st as [w tr bg].
  destruct (sync_trace_independent (Index.bindings env) w
              (tr ++ [EvConsoleLog "[cron] Starting backup sync to R2..."])%list tr bg bg)
    as (res & w' & added & H1 & H2).
  unfold Index.scheduled. run. rewrite H1, H2. reduce.
  destruct res as [e|r]; reduce.
  - rewrite !started_app. cbn [started]. rewrite app_nil_r.
    repeat split; try discriminate; auto.
    all: intros H; injection H as ->; reflexivity.
  - destruct (Sync.success r) eqn:Hs; reduce;
      rewrite !started_app; cbn [started]; rewrite ?app_nil_r;
      (split; [reflexivity|]); (split; [reflexivity|]);
      (split; [split; discriminate|]);
      intros r' Hr; injection Hr as <-; rewrite Hs; eexists; split; reflexivity.
Qed.

End IndexInvariants.

(* ===================================================================== *)
(** * The further properties on the mock sandboxes *)
(* ===================================================================== *)

(** X7 where every call of the sandbox is rejected: the handlers still
    answer, and the sync endpoint throws what the mount threw. *)
Lemma admin_handlers_never_throw_witness :
  (exists r s, @Routes.postRestart unit Broken.sandbox Broken.imports
                                   Mock.r2Env Broken.init = (inr r, s))
  /\ @Routes.postStorageSync unit Broken.sandbox Broken.imports Mock.r2Env Broken.init
     = (inl Broken.down, {| world := tt; trace := [EvMountR2Storage]; background := [] |}).
Proof.
  destruct (@admin_handlers_never_throw unit Broken.sandbox Broken.imports
                                        Mock.r2Env None Broken.init)
    as (_ & _ & _ & _ & Hrestart & Hsync).
  split; [exact Hrestart|]. apply Hsync. reflexivity.
Defined.

(** X8 on a gateway whose port is closed: still HTTP 200. *)
Lemma status_always_200_witness :
  exists (resp : Response) (st' : St Mock.World),
    Routes.getStatus (Mock.init Mock.wedged) = (inr resp, st')
    /\ code resp = 200%Z
    /\ field "ok" resp <> VBool true.
Proof.
  destruct (@status_always_200 Mock.World Mock.sandbox Mock.imports
                               (Mock.init Mock.wedged))
    as (resp & st' & Hrun & Hcode & _ & Hok & _).
  exists resp, st'. split; [exact Hrun|]. split; [exact Hcode|].
  intros H. apply Hok in H. vm_compute in Hrun. injection Hrun as <- _.
  discriminate H.
Defined.

(** X9 without a request id (400 and an untouched sandbox), on a
    sandbox where every call is rejected (500 after the one call of the
    boot), and on the mock CLI (200). *)
Lemma approve_answers_witness :
  Routes.postApprove Mock.r2Env None (Mock.init Mock.approving)
    = (inr (jsonWith (VObj [("error", VStr "requestId is required")]) 400),
       Mock.init Mock.approving)
  /\ @Routes.postApprove unit Broken.sandbox Broken.imports Mock.r2Env (Some "dev-1")
                         Broken.init
     = (inr (jsonWith (VObj [("error", VStr "Sandbox is unavailable")]) 500),
        {| world := tt; trace := [EvEnsureGateway]; background := [] |})
  /\ exists success : bool,
      fst (Routes.postApprove Mock.r2Env (Some "dev-1") (Mock.init Mock.approving))
      = inr (json (VObj [("success", VBool success);
                         ("requestId", VStr "dev-1");
                         ("message", VStr (if success then "Device approved"
                                           else "Approval may have failed"));
                         ("stdout", VStr "Approved device X");
                         ("stderr", VStr "")])).
Proof.
  split; [|split].
  - destruct (@approve_answers Mock.World Mock.sandbox Mock.imports
                               Mock.r2Env None (Mock.init Mock.approving)) as [H _].
    exact (H (or_introl eq_refl)).
  - destruct (@approve_answers unit Broken.sandbox Broken.imports
                               Mock.r2Env (Some "dev-1") Broken.init) as (_ & H & _).
    destruct (H "dev-1" eq_refl ltac:(discriminate)) as [Hboot _].
    exact (Hboot _ _ eq_refl).
  - destruct (@approve_answers Mock.World Mock.sandbox Mock.imports
                               Mock.r2Env (Some "dev-1") (Mock.init Mock.approving))
      as (_ & H & _).
    destruct (H "dev-1" eq_refl ltac:(discriminate)) as (_ & _ & _ & Hok).
    destruct (Hok _ _ _ _ _ eq_refl eq_refl eq_refl) as (success & Hrun).
    exists success. rewrite Hrun. reflexivity.
Defined.

(** X10 on a failure message that contains the keyword in capitals,
    and on an output without the keyword with exit code zero. *)
Lemma approved_iff_keyword_or_zero_witness :
  Routes.approved "Device NOT APPROVED: expired" (Some 1%Z) = true
  /\ Routes.approved "denied" (Some 0%Z) = true.
Proof.
  split.
  - apply approved_iff_keyword_or_zero. right.
    exists "Device NOT ", "APPROVED", ": expired". split; reflexivity.
  - apply approved_iff_keyword_or_zero. left. reflexivity.
Defined.

Lemma mock_devices_have_plain_ids :
  Forall (fun d => Routes.isDevice d /\ Routes.plainId (Routes.requestIdOf d))
         [Mock.device "id1"; Mock.device "id2"; Mock.device "id3"].
Proof.
  repeat constructor; try (eexists; reflexivity); left; eexists; reflexivity.
Qed.

(** X11 on the three devices of the mock, the second of which cannot be
    approved: three commands are started all the same. *)
Lemma approveEach_one_command_per_device_witness :
  exists (results : list Routes.ApproveResult) (st' : St Mock.World)
         (added : list event),
    Routes.approveEach [Mock.device "id1"; Mock.device "id2"; Mock.device "id3"]
                       (Mock.init Mock.threeDevices) = (inr results, st')
    /\ trace st' = ([] ++ added)%list
    /\ started added =
         [Routes.approveCmd "id1"; Routes.approveCmd "id2"; Routes.approveCmd "id3"]
    /\ map Routes.requestId results = [VStr "id1"; VStr "id2"; VStr "id3"].
Proof.
  destruct (@approveEach_one_command_per_device
              Mock.World Mock.sandbox
              [Mock.device "id1"; Mock.device "id2"; Mock.device "id3"]
              (Mock.init Mock.threeDevices) mock_devices_have_plain_ids)
    as (results & st' & added & Hrun & Htrace & _ & Hstarted & Hids & _).
  exists results, st', added. split; [exact Hrun|]. split; [exact Htrace|].
  split; [exact Hstarted|exact Hids].
Defined.

(** X12 on two results, one of each kind. *)
Lemma aggregate_partitions_witness :
  exists approved failed : list value,
    field "approved"
      (Routes.aggregate
         [{| Routes.requestId := VStr "a"; Routes.success := true;
             Routes.error := None |};
          {| Routes.requestId := VStr "b"; Routes.success := false;
             Routes.error := Some "timeout" |}] (VNum 2)) = VArr approved
    /\ (List.length approved + List.length failed = 2)%nat
    /\ In (VObj [("requestId", VStr "b"); ("success", VBool false);
                 ("error", VStr "timeout")]) failed.
Proof.
  destruct (aggregate_partitions
              [{| Routes.requestId := VStr "a"; Routes.success := true;
                  Routes.error := None |};
               {| Routes.requestId := VStr "b"; Routes.success := false;
                  Routes.error := Some "timeout" |}] (VNum 2))
    as (approved & failed & Ha & _ & Hlen & _ & Hfailed & _).
  exists approved, failed. split; [exact Ha|]. split; [exact Hlen|].
  exact (Hfailed {| Routes.requestId := VStr "b"; Routes.success := false;
                    Routes.error := Some "timeout" |}
                 (or_intror (or_introl eq_refl)) eq_refl).
Defined.

(** X13 on the three listings of the mock: no span, no [pending], a
    span that is not JSON. *)
Lemma bulk_approve_without_devices_witness :
  fst (Routes.postApproveAll Mock.r2Env (Mock.init Mock.garbled)) =
    inr (json (VObj [("approved", VArr []);
                     ("message", VStr "No pending devices to approve")]))
  /\ fst (Routes.postApproveAll Mock.r2Env (Mock.init Scene.pairedOnly)) =
       inr (json (VObj [("approved", VArr []);
                        ("message", VStr "No pending devices to approve")]))
  /\ fst (Routes.postApproveAll Mock.r2Env (Mock.init Mock.braced)) =
       inr (jsonWith (VObj [("error", VStr "Failed to parse device list");
                            ("raw", VStr ("log line" ++ Mock.lf ++ "{not valid json}"))])
                     500).
Proof.
  split; [|split].
  - destruct (@bulk_approve_without_devices
                Mock.World Mock.sandbox Mock.imports Mock.r2Env (Mock.init Mock.garbled)
                _ _ _ _ _ eq_refl eq_refl eq_refl) as (H & _ & _).
    rewrite (H eq_refl). reflexivity.
  - destruct (@bulk_approve_without_devices
                Mock.World Mock.sandbox Mock.imports Mock.r2Env
                (Mock.init Scene.pairedOnly)
                _ _ _ _ _ eq_refl eq_refl eq_refl) as (_ & H & _).
    rewrite (H _ [("paired", VArr [])] eq_refl eq_refl (or_introl eq_refl)).
    reflexivity.
  - destruct (@bulk_approve_without_devices
                Mock.World Mock.sandbox Mock.imports Mock.r2Env (Mock.init Mock.braced)
                _ _ _ _ _ eq_refl eq_refl eq_refl) as (_ & _ & H).
    rewrite (H _ eq_refl eq_refl). reflexivity.
Defined.

(** X14 on a running gateway, which is killed and no longer in the
    process table when the handler answers, and on a lookup that
    throws. *)
Lemma restart_kills_then_boots_witness :
  Routes.postRestart Mock.r2Env (Mock.init Mock.serving) =
    (inr (json (VObj [("success", VBool true);
                      ("message",
                       VStr "Gateway process killed, new instance starting...");
                      ("previousProcessId", VStr "gateway-1")])),
     {| world := Mock.fresh;
        trace := [EvFindProcess; EvConsoleLog "Killing existing gateway process:";
                  EvKill "gateway-1"; EvEnsureGateway];
        background := [BootGateway Mock.r2Env] |})
  /\ @Routes.postRestart unit Broken.sandbox Broken.imports Mock.r2Env Broken.init =
       (inr (jsonWith (VObj [("error", VStr "Sandbox is unavailable")]) 500),
        {| world := tt; trace := [EvFindProcess]; background := [] |}).
Proof.
  split.
  - destruct (@restart_kills_then_boots Mock.World Mock.sandbox Mock.imports
                                        Mock.r2Env (Mock.init Mock.serving)) as [H _].
    exact (H _ _ _ _ eq_refl eq_refl).
  - destruct (@restart_kills_then_boots unit Broken.sandbox Broken.imports
                                        Mock.r2Env Broken.init) as [_ H].
    exact (H _ _ eq_refl).
Defined.

(** X16 on a Worker whose token is "secret": a Bearer header is enough,
    and a wrong [X-Gateway-Token] is not. *)
Lemma gateway_token_rules_witness :
  Auth.hasValidGatewayToken (Scene.withHeader Scene.guarded "Authorization" "Bearer secret")
    = true
  /\ Auth.hasValidGatewayToken (Scene.withHeader Scene.guarded "X-Gateway-Token" "guess")
     = false
  /\ Auth.hasValidGatewayToken (Scene.withHeader Mock.r2Env "X-Gateway-Token" "")
     = false.
Proof.
  split; [|split].
  - destruct (gateway_token_rules
                (Scene.withHeader Scene.guarded "Authorization" "Bearer secret"))
      as [_ H].
    destruct (H "secret" eq_refl ltac:(discriminate)) as (_ & _ & Hbearer & _).
    exact (Hbearer eq_refl eq_refl).
  - destruct (gateway_token_rules
                (Scene.withHeader Scene.guarded "X-Gateway-Token" "guess"))
      as [_ H].
    destruct (H "secret" eq_refl ltac:(discriminate)) as (_ & _ & _ & Hwrong).
    exact (Hwrong "guess" eq_refl ltac:(discriminate) ltac:(discriminate)
                  ltac:(discriminate)).
  - destruct (gateway_token_rules (Scene.withHeader Mock.r2Env "X-Gateway-Token" ""))
      as [H _].
    exact (H eq_refl).
Defined.

(** X17 on a cookie whose value has an [=] in it: the token is cut
    there. *)
Lemma extractJWT_rules_witness :
  Auth.extractJWT (Scene.withHeader Scene.guarded "Cookie" "CF_Authorization=abc=def")
    = Some "abc"
  /\ Auth.extractJWT (Scene.withHeader Scene.guarded "CF-Access-JWT-Assertion" "abc.def")
     = Some "abc.def"
  /\ Auth.extractJWT (Scene.withHeader Scene.guarded "X-Other" "x") = None.
Proof.
  split; [|split].
  - destruct (extractJWT_rules
                (Scene.withHeader Scene.guarded "Cookie" "CF_Authorization=abc=def"))
      as (_ & _ & _ & H).
    rewrite (H "abc=def" eq_refl eq_refl); [reflexivity|].
    unfold without. cbn. intuition discriminate.
  - destruct (extractJWT_rules
                (Scene.withHeader Scene.guarded "CF-Access-JWT-Assertion" "abc.def"))
      as (H & _).
    exact (H "abc.def" eq_refl ltac:(discriminate)).
  - destruct (extractJWT_rules (Scene.withHeader Scene.guarded "X-Other" "x"))
      as (_ & _ & H & _).
    exact (H eq_refl eq_refl).
Defined.

(** X18 on a Worker without the Access bindings (500), on a request
    without any credential (401), and on one whose token the
    verification rejects (401 after the verification): the handler is
    not run. *)
Lemma middleware_turns_away_witness :
  Auth.createAccessMiddleware
    {| Auth.type := Auth.TJson; Auth.redirectOnMissing := false |}
    (Scene.withHeader Mock.r2Env "X-Other" "x") Mock.whoami (Mock.init Mock.fresh)
  = (inr (jsonWith
            (VObj [("error", VStr "Cloudflare Access not configured");
                   ("hint", VStr "Set CF_ACCESS_TEAM_DOMAIN and CF_ACCESS_AUD environment variables")])
            500), Mock.init Mock.fresh)
  /\ Auth.createAccessMiddleware
       {| Auth.type := Auth.THtml; Auth.redirectOnMissing := true |}
       (Scene.withHeader Scene.guarded "X-Other" "x") Mock.whoami
       (Mock.init Mock.fresh)
     = (inr {| code := 302; content := Redirect "https://team.example.com" |},
        Mock.init Mock.fresh)
  /\ Auth.createAccessMiddleware
       {| Auth.type := Auth.TJson; Auth.redirectOnMissing := false |}
       (Scene.withHeader Scene.guarded "CF-Access-JWT-Assertion" "forged")
       Mock.whoami (Mock.init Mock.fresh)
     = (inr (jsonWith (VObj [("error", VStr "Unauthorized");
                             ("details", VStr "Invalid token")]) 401),
        {| world := Mock.fresh;
           trace := [EvVerifyJWT "forged";
                     EvConsoleError "Access JWT verification failed:"];
           background := [] |}).
Proof.
  split; [|split].
  - destruct (@middleware_turns_away
                Mock.World Mock.imports
                {| Auth.type := Auth.TJson; Auth.redirectOnMissing := false |}
                (Scene.withHeader Mock.r2Env "X-Other" "x") (Mock.init Mock.fresh)
                eq_refl eq_refl) as [H _].
    exact (H (or_introl eq_refl) Mock.whoami).
  - destruct (@middleware_turns_away
                Mock.World Mock.imports
                {| Auth.type := Auth.THtml; Auth.redirectOnMissing := true |}
                (Scene.withHeader Scene.guarded "X-Other" "x") (Mock.init Mock.fresh)
                eq_refl eq_refl) as [_ H].
    destruct (H "team.example.com" "aud" eq_refl ltac:(discriminate)
                eq_refl ltac:(discriminate)) as [Hmissing _].
    exact (Hmissing eq_refl Mock.whoami).
  - destruct (@middleware_turns_away
                Mock.World Mock.imports
                {| Auth.type := Auth.TJson; Auth.redirectOnMissing := false |}
                (Scene.withHeader Scene.guarded "CF-Access-JWT-Assertion" "forged")
                (Mock.init Mock.fresh) eq_refl eq_refl) as [_ H].
    destruct (H "team.example.com" "aud" eq_refl ltac:(discriminate)
                eq_refl ltac:(discriminate)) as [_ Hforged].
    exact (Hforged "forged" (ErrorObj "Invalid token") Mock.fresh eq_refl eq_refl
                   Mock.whoami).
Defined.

(** X19 on a request with the gateway token, and on one with a token
    the verification accepts. *)
Lemma middleware_lets_through_witness :
  Auth.createAccessMiddleware
    {| Auth.type := Auth.TJson; Auth.redirectOnMissing := false |}
    (Scene.withHeader Scene.guarded "X-Gateway-Token" "secret")
    Mock.whoami (Mock.init Mock.fresh)
  = (inr (json (VObj [("email", VStr "gateway-token@cli"); ("name", VStr "CLI User")])),
     Mock.init Mock.fresh)
  /\ Auth.createAccessMiddleware
       {| Auth.type := Auth.TJson; Auth.redirectOnMissing := false |}
       (Scene.withHeader Scene.guarded "CF-Access-JWT-Assertion" "valid")
       Mock.whoami (Mock.init Mock.fresh)
     = (inr (json (VObj [("email", VStr "user@example.com"); ("name", VUndefined)])),
        {| world := Mock.fresh; trace := [EvVerifyJWT "valid"]; background := [] |}).
Proof.
  split.
  - destruct (@middleware_lets_through
                Mock.World Mock.imports
                {| Auth.type := Auth.TJson; Auth.redirectOnMissing := false |}
                (Scene.withHeader Scene.guarded "X-Gateway-Token" "secret")
                Mock.whoami (Mock.init Mock.fresh) eq_refl) as [H _].
    rewrite (H eq_refl). reflexivity.
  - destruct (@middleware_lets_through
                Mock.World Mock.imports
                {| Auth.type := Auth.TJson; Auth.redirectOnMissing := false |}
                (Scene.withHeader Scene.guarded "CF-Access-JWT-Assertion" "valid")
                Mock.whoami (Mock.init Mock.fresh) eq_refl) as [_ H].
    exact (H "team.example.com" "aud" "valid" _ _ _ _ eq_refl eq_refl
             ltac:(discriminate) eq_refl ltac:(discriminate) eq_refl eq_refl eq_refl).
Defined.

(** X20 on three settings of [SANDBOX_SLEEP_AFTER]. *)
Lemma sandbox_options_rules_witness :
  Index.buildSandboxOptions (Scene.sleepy None) = Index.KeepAlive
  /\ Index.buildSandboxOptions (Scene.sleepy (Some "NeVeR")) = Index.KeepAlive
  /\ Index.buildSandboxOptions (Scene.sleepy (Some "10M")) = Index.SleepAfter "10m".
Proof.
  split; [|split].
  - exact (proj1 (sandbox_options_rules (Scene.sleepy None)) eq_refl).
  - exact (proj1 (proj2 (sandbox_options_rules (Scene.sleepy (Some "NeVeR"))))
                 "NeVeR" eq_refl eq_refl).
  - exact (proj1 (proj2 (proj2 (sandbox_options_rules (Scene.sleepy (Some "10M")))))
                 "10M" eq_refl ltac:(discriminate) ltac:(discriminate)).
Defined.

(** X21 on a gateway that cannot boot, for a Worker without API key. *)
Lemma proxy_answers_503_when_boot_fails_witness :
  exists resp : Response,
    Index.proxyAll (Scene.worker Mock.r2Env None) Scene.plain (Mock.init Scene.unbootable)
      = (inr resp,
         {| world := Scene.unbootable;
            trace := [EvEnsureGateway; EvConsoleError "Failed to start Clawdbot:"];
            background := [] |})
    /\ code resp = 503%Z
    /\ field "details" resp = VStr "Gateway failed to start"
    /\ field "hint" resp = VStr Index.keyHint.
Proof.
  destruct (@proxy_answers_503_when_boot_fails
              Mock.World Mock.imports Scene.proxy
              (Scene.worker Mock.r2Env None) Scene.plain (Mock.init Scene.unbootable)
              _ _ eq_refl)
    as (resp & Hrun & Hcode & _ & Hdetails & Hkey & _).
  exists resp. split; [exact Hrun|]. split; [exact Hcode|].
  split; [exact Hdetails|exact (Hkey eq_refl)].
Defined.

(** X22 on an upgrade request spelled "WebSocket" and on a plain one. *)
Lemma proxy_routes_by_upgrade_witness :
  fst (Index.proxyAll (Scene.worker Mock.r2Env None) Scene.upgrading
                      (Mock.init Mock.fresh))
    = inr {| code := 101; content := Html "switching protocols" |}
  /\ fst (Index.proxyAll (Scene.worker Mock.r2Env None) Scene.plain
                         (Mock.init Mock.fresh))
     = inr {| code := 200; content := Html "<html>gateway</html>" |}.
Proof.
  split.
  - destruct (@proxy_routes_by_upgrade
                Mock.World Mock.imports Scene.proxy
                (Scene.worker Mock.r2Env None) Scene.upgrading (Mock.init Mock.fresh)
                _ eq_refl) as [H _].
    exact (proj1 (H "WebSocket" eq_refl eq_refl)).
  - destruct (@proxy_routes_by_upgrade
                Mock.World Mock.imports Scene.proxy
                (Scene.worker Mock.r2Env None) Scene.plain (Mock.init Mock.fresh)
                _ eq_refl) as [_ H].
    apply H. intros u Hu. discriminate Hu.
Defined.

(** X23 in development mode: the debug routes stay closed. *)
Lemma debug_routes_are_gated_witness :
  Index.debugRoute (Scene.worker Mock.devEnv None) Mock.anonymous Mock.whoami
                   (Mock.init Mock.fresh)
  = (inr (jsonWith (VObj [("error", VStr "Debug routes are disabled")]) 404),
     Mock.init Mock.fresh).
Proof.
  exact (proj1 (@debug_routes_are_gated
                  Mock.World Mock.imports
                  (Scene.worker Mock.devEnv None) Mock.anonymous Mock.whoami
                  (Mock.init Mock.fresh)) ltac:(discriminate)).
Defined.

(** X24 on a sandbox whose source is missing: the cron run ends with an
    error line. *)
Lemma scheduled_is_one_sync_witness :
  exists before : list event,
    fst (Index.scheduled (Scene.worker Mock.r2Env None) (Mock.init Mock.emptied)) = inr tt
    /\ trace (snd (Index.scheduled (Scene.worker Mock.r2Env None)
                                   (Mock.init Mock.emptied)))
       = (before ++ [EvConsoleError "[cron] Backup sync failed:"])%list.
Proof.
  destruct (@scheduled_is_one_sync Mock.World Mock.sandbox Mock.imports
                                   (Scene.worker Mock.r2Env None)
                                   (Mock.init Mock.emptied)) as (_ & _ & _ & H).
  exact (H _ eq_refl).
Defined.

(* ===================================================================== *)
(** * Further properties: the JSON of the listing *)
(* ===================================================================== *)

Section ListingFacts.
Context {W : Type} `{SB : Sandbox W} `{IM : Imports W}.

Lemma fromFirst_first (c : ascii) (pre x : string) :
  without c pre -> fromFirst c (pre ++ String c x) = Some (String c x).
Proof.
  induction pre as [|a pre IH]; intros H; cbn.
  - rewrite Ascii.eqb_refl. reflexivity.
  - apply without_cons in H as [Hne H]. apply Ascii.eqb_neq in Hne.
    rewrite Hne. exact (IH H).
Qed.

Lemma uptoLast_without (c : ascii) (s : string) : without c s -> uptoLast c s = None.
Proof.
  induction s as [|a s IH]; intros H; [reflexivity|].
  apply without_cons in H as [Hne H]. cbn. rewrite (IH H).
  apply Ascii.eqb_neq in Hne. rewrite Hne. reflexivity.
Qed.

Lemma uptoLast_last (c : ascii) (a post : string) :
  without c post -> uptoLast c (a ++ String c post) = Some (a ++ String c "").
Proof.
  intros H. induction a as [|x a IH]; cbn.
  - rewrite (uptoLast_without H), Ascii.eqb_refl. reflexivity.
  - rewrite IH. reflexivity.
Qed.

(** The match of the brace pattern is the text between the first opening
    and the last closing brace, whatever stands between them. *)
Lemma matchBraces_extracts (pre mid post : string) :
  without "{" pre -> without "}" post ->
  matchBraces (pre ++ "{" ++ mid ++ "}" ++ post) = Some ("{" ++ mid ++ "}").
Proof.
  intros Hpre Hpost. unfold matchBraces. cbn [append].
  rewrite (fromFirst_first _ Hpre), (uptoLast_last _ Hpost). reflexivity.
Qed.

(** X25.  The listing ignores what the CLI prints before the first
    opening brace and after the last closing brace of its output: when
    the text between them, braces included, decodes, the response is the
    decoded value, with status 200. *)
Theorem listing_ignores_log_lines
  (env : Env) (st : St W) (w1 w2 w3 : W) (p : Process) (logs : Logs)
  (pre mid post : string) (data : value) :
  ensureClawdbotGateway env (world st) = (inr tt, w1) ->
  startProcess Routes.listCmd w1 = (inr p, w2) ->
  getLogs p (Routes.waited p Routes.CLI_TIMEOUT_MS w2) = (inr logs, w3) ->
  orDefault (stdout logs) "" = pre ++ "{" ++ mid ++ "}" ++ post ->
  without "{" pre -> without "}" post ->
  JSON_parse ("{" ++ mid ++ "}") = Some data ->
  Routes.getDevices env st =
    (inr (json data),
     {| world := w3;
        trace := (trace st ++ [EvEnsureGateway; EvStartProcess Routes.listCmd;
                               EvGetLogs (id p)])%list;
        background := background st |}).
Proof.
  intros He Hs Hl Hout Hpre Hpost Hdata.
  unfold Routes.getDevices. run. step He. step Hs.
  rewrite routes_waitForProcess_run. reduce. step Hl.
  rewrite Hout. unfold Routes.listingOf.
  rewrite (matchBraces_extracts mid Hpre Hpost), Hdata.
  rewrite <- !app_assoc. reflexivity.
Qed.

End ListingFacts.

(** X25 on a CLI that prints a line before and a line after its JSON. *)
Lemma listing_ignores_log_lines_witness :
  fst (Routes.getDevices Mock.r2Env (Mock.init Scene.chatty)) =
    inr (json (VObj [("pending", VArr []); ("paired", VArr [Mock.device "id9"])])).
Proof.
  rewrite (@listing_ignores_log_lines
             Mock.World Mock.sandbox Mock.imports Mock.r2Env (Mock.init Scene.chatty)
             _ _ _ _ _
             ("connecting..." ++ Mock.lf)
             (Mock.quoted "pending" ++ ":[],"
                ++ Mock.quoted "paired" ++ ":[" ++ Mock.deviceJson "id9" ++ "]")
             (Mock.lf ++ "done")
             (VObj [("pending", VArr []); ("paired", VArr [Mock.device "id9"])])
             eq_refl eq_refl eq_refl eq_refl).
  - reflexivity.
  - unfold without. cbn. intuition discriminate.
  - unfold without. cbn. intuition discriminate.
  - reflexivity.
Defined.
